(** * ReviseFlow backend: revision scheduling, status transitions and the
      daily reminder job

    A shallow embedding of the scheduling core of the ReviseFlow server:

    - [JSDate]: the ECMAScript time-value arithmetic behind the [Date]
      methods the sources call ([setDate], [setUTCDate], [setUTCHours],
      [setHours], [getHours]);
    - [TaskModel]: the Mongoose [Task] schema of [models/Task.js] with its
      instance methods, its [revisions] validator and its pre-save hook;
    - [TimezoneUtils]: [utils/timezoneUtils.js], with [toLocaleString]
      under a [timeZone] option and the parsing of its text;
    - [TasksController]: the handlers of [controllers/tasksController.js]
      that create a task and change a revision;
    - [CronService]: [getTodaysRevisions] and [sendDailyReminders] of
      [services/cronService.js].

    Instants are ECMAScript time values: integer milliseconds since
    1970-01-01T00:00:00Z, kept in [Z]. *)

From Stdlib Require Import ZArith List String Ascii Bool Lia DecimalString.
Import ListNotations.

#[local] Open Scope Z_scope.

(* ===================================================================== *)
(** * ECMAScript dates *)
(* ===================================================================== *)

Module JSDate.

(** A [Date] object holds a time value or NaN ("Invalid Date"). *)
Definition Date : Type := option Z.

Definition msPerSecond : Z := 1000.
Definition msPerMinute : Z := 60000.
Definition msPerHour : Z := 3600000.
Definition msPerDay : Z := 86400000.

(** The largest magnitude of a time value: 100,000,000 days. *)
Definition maxTime : Z := 8640000000000000.

Definition TimeClip (t : Z) : Date :=
  if Z.abs t <=? maxTime then Some t else None.

Definition Day (t : Z) : Z := t / msPerDay.
Definition TimeWithinDay (t : Z) : Z := t mod msPerDay.

Definition DaysInYear (y : Z) : Z :=
  if negb (y mod 4 =? 0) then 365
  else if negb (y mod 100 =? 0) then 366
  else if negb (y mod 400 =? 0) then 365
  else 366.

Definition DayFromYear (y : Z) : Z :=
  365 * (y - 1970) + (y - 1969) / 4 - (y - 1901) / 100 + (y - 1601) / 400.

Definition TimeFromYear (y : Z) : Z := msPerDay * DayFromYear y.

(** [YearFromTime t] is the largest [y] with [TimeFromYear y <= t].  The
    search walks down from a year that is certainly not before the
    answer; [yearFuel] bounds the distance to walk. *)
Fixpoint yearDown (fuel : nat) (y d : Z) : Z :=
  match fuel with
  | O => y
  | S fuel' => if DayFromYear y <=? d then y else yearDown fuel' (y - 1) d
  end.

Definition yearAbove (d : Z) : Z := 1970 + Z.max (d / 365) (d / 366).
Definition yearFuel (d : Z) : nat := Z.to_nat (Z.abs d / 100000 + 3).

Definition YearFromTime (t : Z) : Z :=
  yearDown (yearFuel (Day t)) (yearAbove (Day t)) (Day t).

Definition InLeapYear (t : Z) : Z :=
  if DaysInYear (YearFromTime t) =? 366 then 1 else 0.

Definition DayWithinYear (t : Z) : Z := Day t - DayFromYear (YearFromTime t).

(** Day number, within its year, of the first day of month [m] (0-11). *)
Definition monthStart (leap m : Z) : Z :=
  match m with
  | 0 => 0
  | 1 => 31
  | 2 => 59 + leap
  | 3 => 90 + leap
  | 4 => 120 + leap
  | 5 => 151 + leap
  | 6 => 181 + leap
  | 7 => 212 + leap
  | 8 => 243 + leap
  | 9 => 273 + leap
  | 10 => 304 + leap
  | _ => 334 + leap
  end.

Definition MonthFromTime (t : Z) : Z :=
  let d := DayWithinYear t in
  let l := InLeapYear t in
  if d <? 31 then 0
  else if d <? 59 + l then 1
  else if d <? 90 + l then 2
  else if d <? 120 + l then 3
  else if d <? 151 + l then 4
  else if d <? 181 + l then 5
  else if d <? 212 + l then 6
  else if d <? 243 + l then 7
  else if d <? 273 + l then 8
  else if d <? 304 + l then 9
  else if d <? 334 + l then 10
  else 11.

Definition DateFromTime (t : Z) : Z :=
  let d := DayWithinYear t in
  let l := InLeapYear t in
  match MonthFromTime t with
  | 0 => d + 1
  | 1 => d - 30
  | 2 => d - 58 - l
  | 3 => d - 89 - l
  | 4 => d - 119 - l
  | 5 => d - 150 - l
  | 6 => d - 180 - l
  | 7 => d - 211 - l
  | 8 => d - 242 - l
  | 9 => d - 272 - l
  | 10 => d - 303 - l
  | _ => d - 333 - l
  end.

Definition HourFromTime (t : Z) : Z := (t / msPerHour) mod 24.
Definition MinFromTime (t : Z) : Z := (t / msPerMinute) mod 60.
Definition SecFromTime (t : Z) : Z := (t / msPerSecond) mod 60.
Definition msFromTime (t : Z) : Z := t mod msPerSecond.

Definition MakeTime (hour min sec ms : Z) : Z :=
  hour * msPerHour + min * msPerMinute + sec * msPerSecond + ms.

(** [MakeDay]: the day number of the first of month [mn] of year [ym],
    moved by [date - 1] days; [month] and [date] may lie outside their
    usual ranges. *)
Definition MakeDay (year month date : Z) : Z :=
  let ym := year + month / 12 in
  let mn := month mod 12 in
  let leap := if DaysInYear ym =? 366 then 1 else 0 in
  DayFromYear ym + monthStart leap mn + date - 1.

Definition MakeDate (day time : Z) : Z := day * msPerDay + time.

(** [Date.UTC]-style constructor with a 1-based month, used to write
    instants down in examples. *)
Definition utc (y mo d h mi s ms : Z) : Z :=
  MakeDate (MakeDay y (mo - 1) d) (MakeTime h mi s ms).

(** ** Time zones

    A zone gives the offset from UTC, in milliseconds, in effect at a UTC
    instant ([utcOffset], ECMAScript's [LocalTZA(t, true)]) and the offset
    to use for a local time value ([localOffset], [LocalTZA(t, false)]). *)
Record Zone : Type := mkZone {
  utcOffset : Z -> Z;
  localOffset : Z -> Z
}.

Definition fixedZone (off : Z) : Zone :=
  {| utcOffset := fun _ => off; localOffset := fun _ => off |}.

Definition LocalTime (host : Zone) (t : Z) : Z := t + utcOffset host t.
Definition UTC (host : Zone) (t : Z) : Z := t - localOffset host t.

(** ** Methods of [Date.prototype] *)

Definition getUTCDate (d : Date) : option Z := option_map DateFromTime d.

Definition getDate (host : Zone) (d : Date) : option Z :=
  option_map (fun t => DateFromTime (LocalTime host t)) d.

Definition getHours (host : Zone) (d : Date) : option Z :=
  option_map (fun t => HourFromTime (LocalTime host t)) d.

Definition setUTCDate (d : Date) (date : option Z) : Date :=
  match d, date with
  | Some t, Some dt =>
      TimeClip (MakeDate (MakeDay (YearFromTime t) (MonthFromTime t) dt)
                         (TimeWithinDay t))
  | _, _ => None
  end.

Definition setUTCHours (d : Date) (h m s ms : Z) : Date :=
  match d with
  | Some t => TimeClip (MakeDate (Day t) (MakeTime h m s ms))
  | None => None
  end.

Definition setDate (host : Zone) (d : Date) (date : option Z) : Date :=
  match d, date with
  | Some u, Some dt =>
      let t := LocalTime host u in
      TimeClip (UTC host
        (MakeDate (MakeDay (YearFromTime t) (MonthFromTime t) dt)
                  (TimeWithinDay t)))
  | _, _ => None
  end.

Definition setHours (host : Zone) (d : Date) (h m s ms : Z) : Date :=
  match d with
  | Some u =>
      let t := LocalTime host u in
      TimeClip (UTC host (MakeDate (Day t) (MakeTime h m s ms)))
  | None => None
  end.

(** [a >= b] on two [Date] objects: both are converted to numbers, and a
    comparison with NaN is false. *)
Definition date_geb (a b : Date) : bool :=
  match a, b with
  | Some x, Some y => y <=? x
  | _, _ => false
  end.

Definition date_leb (a b : Date) : bool := date_geb b a.

End JSDate.

Import JSDate.

(* ===================================================================== *)
(** * Errors, identifiers and documents *)
(* ===================================================================== *)

#[local] Open Scope string_scope.

(** What a [throw] (or a rejected promise) carries. *)
Inductive Error : Type :=
| RangeError (msg : string)       (* Intl: unknown time zone identifier *)
| CastError (path : string)       (* Mongoose: a value does not cast *)
| ValidationError (msgs : list string)
| StorageError                    (* the database call rejected *)
| MailError (msg : string).       (* emailService rethrows this *)

Inductive Result (A : Type) : Type :=
| Ok (a : A)
| Throw (e : Error).

Arguments Ok {A} a.
Arguments Throw {A} e.

(** ** ObjectId

    A BSON ObjectId is a 96-bit number; requests carry it as a string of
    24 hexadecimal digits. *)
Definition ObjectId : Type := N.

Definition hexDigit (c : ascii) : option N :=
  let n := N_of_ascii c in
  if ((48 <=? n) && (n <=? 57))%N then Some (n - 48)%N
  else if ((97 <=? n) && (n <=? 102))%N then Some (n - 87)%N
  else if ((65 <=? n) && (n <=? 70))%N then Some (n - 55)%N
  else None.

Fixpoint hexValue (acc : N) (s : string) : option N :=
  match s with
  | EmptyString => Some acc
  | String c s' =>
      match hexDigit c with
      | Some d => hexValue (16 * acc + d)%N s'
      | None => None
      end
  end.

(** [mongoose.Types.ObjectId.isValid] on a string: 24 hexadecimal
    digits.  (Older bson versions also take any 12-character string.) *)
Definition isValid (s : string) : bool :=
  (String.length s =? 24)%nat &&
  match hexValue 0%N s with Some _ => true | None => false end.

(** [new mongoose.Types.ObjectId(s)]: throws unless [s] is 24 hex digits. *)
Definition newObjectId (s : string) : Result ObjectId :=
  if (String.length s =? 24)%nat then
    match hexValue 0%N s with
    | Some n => Ok n
    | None => Throw (CastError "ObjectId")
    end
  else Throw (CastError "ObjectId").

(** Mongoose's [castObjectId] as [DocumentArray.id] uses it: a failed cast
    is caught there and compares equal to no [_id]. *)
Definition castObjectId (s : string) : option ObjectId :=
  match newObjectId s with
  | Ok n => Some n
  | Throw _ => None
  end.

(** ** Text

    [String.prototype.trim], which the schema option [trim: true] applies
    to [title] and [notes] whenever they are assigned.  A string is its
    UTF-8 text.  What is taken off both ends are the white space and the
    line terminators of ECMAScript: TAB, LF, VT, FF, CR, SP, U+00A0,
    U+1680, U+2000 to U+200A, U+2028, U+2029, U+202F, U+205F, U+3000 and
    U+FEFF. *)
Definition isBlankByte (c : N) : bool :=
  ((9 <=? c) && (c <=? 13) || (c =? 32))%N.

(** The three-byte encodings among them, lead byte first. *)
Definition isBlankTriple (c d e : N) : bool :=
  ((c =? 225) && (d =? 154) && (e =? 128)
   || (c =? 226) && (d =? 128)
      && ((128 <=? e) && (e <=? 138) || (e =? 168) || (e =? 169)
          || (e =? 175))
   || (c =? 226) && (d =? 129) && (e =? 159)
   || (c =? 227) && (d =? 128) && (e =? 128)
   || (c =? 239) && (d =? 187) && (e =? 191))%N.

(** How many bytes the blank character takes that the text starts with;
    0 when it starts with none. *)
Definition blankPrefix (l : list ascii) : nat :=
  match map N_of_ascii l with
  | c :: rest =>
      if isBlankByte c then 1%nat
      else match rest with
           | d :: rest' =>
               if ((c =? 194) && (d =? 160))%N then 2%nat
               else match rest' with
                    | e :: _ => if isBlankTriple c d e then 3%nat else 0%nat
                    | [] => 0%nat
                    end
           | [] => 0%nat
           end
  | [] => 0%nat
  end.

(** The same for the end of the text, given last byte first. *)
Definition blankSuffix (l : list ascii) : nat :=
  match map N_of_ascii l with
  | e :: rest =>
      if isBlankByte e then 1%nat
      else match rest with
           | d :: rest' =>
               if ((d =? 194) && (e =? 160))%N then 2%nat
               else match rest' with
                    | c :: _ => if isBlankTriple c d e then 3%nat else 0%nat
                    | [] => 0%nat
                    end
           | [] => 0%nat
           end
  | [] => 0%nat
  end.

Fixpoint dropBlanks (width : list ascii -> nat) (fuel : nat)
    (l : list ascii) : list ascii :=
  match fuel with
  | O => l
  | S fuel' =>
      match width l with
      | O => l
      | n => dropBlanks width fuel' (skipn n l)
      end
  end.

Definition trim (s : string) : string :=
  let l := list_ascii_of_string s in
  let l := dropBlanks blankPrefix (List.length l) l in
  let r := dropBlanks blankSuffix (List.length l) (rev l) in
  string_of_list_ascii (rev r).

(** ** The Task schema ([models/Task.js])

    Fields that none of the modelled operations reads ([tags],
    [priority], [googleCalendar], [updatedAt]) are left out. *)
Record Revision : Type := mkRevision {
  rev_id : ObjectId;                  (* _id *)
  scheduledDate : Date;
  status : string;
  sentReminder : bool;
  completedAt : option Z;             (* undefined, or the instant *)
  remindersSent : Z;                  (* meta.remindersSent *)
  lastReminderSent : option Z         (* meta.lastReminderSent *)
}.

Record Task : Type := mkTask {
  task_id : ObjectId;                 (* _id *)
  user : ObjectId;
  title : string;
  notes : option string;
  completedDate : Date;
  revisions : list Revision;
  isArchived : bool;
  createdAt : Z;
  isNew : bool                        (* Mongoose's document flag *)
}.

Definition setRevisions (t : Task) (rs : list Revision) : Task :=
  {| task_id := task_id t; user := user t; title := title t;
     notes := notes t; completedDate := completedDate t;
     revisions := rs; isArchived := isArchived t;
     createdAt := createdAt t; isNew := isNew t |}.

Definition setCompletedDate (t : Task) (d : Date) : Task :=
  {| task_id := task_id t; user := user t; title := title t;
     notes := notes t; completedDate := d;
     revisions := revisions t; isArchived := isArchived t;
     createdAt := createdAt t; isNew := isNew t |}.

(** [task.title = s] and [task.notes = s]: the setters trim. *)
Definition setTitle (t : Task) (s : string) : Task :=
  {| task_id := task_id t; user := user t; title := trim s;
     notes := notes t; completedDate := completedDate t;
     revisions := revisions t; isArchived := isArchived t;
     createdAt := createdAt t; isNew := isNew t |}.

Definition setNotes (t : Task) (s : option string) : Task :=
  {| task_id := task_id t; user := user t; title := title t;
     notes := option_map trim s; completedDate := completedDate t;
     revisions := revisions t; isArchived := isArchived t;
     createdAt := createdAt t; isNew := isNew t |}.

Definition markStored (t : Task) : Task :=
  {| task_id := task_id t; user := user t; title := title t;
     notes := notes t; completedDate := completedDate t;
     revisions := revisions t; isArchived := isArchived t;
     createdAt := createdAt t; isNew := false |}.

(** The users collection, as far as the reminder job reads it. *)
Record User : Type := mkUser {
  user_id : ObjectId;
  email : string;
  timezone : option string;           (* None: the field is absent *)
  isVerified : bool;
  emailNotifications : bool           (* settings.emailNotifications *)
}.

(** One entry of the list [getTodaysRevisions] returns. *)
Record DueRevision : Type := mkDue {
  taskId : ObjectId;
  taskTitle : string;
  taskDescription : option string;
  taskCreatedAt : Z;
  revisionId : ObjectId;
  revisionDay : Z;
  dueScheduledDate : Date;
  isFirstRevision : bool
}.

(** A reminder handed to [sendDailyRevisionReminder]. *)
Record Mail : Type := mkMail {
  mailTo : string;
  mailName : string;
  mailRevisions : list DueRevision
}.

(* ===================================================================== *)
(** * The world the handlers and jobs run in *)
(* ===================================================================== *)

(** What the process is given: the host's time zone, the time zone
    database behind [Intl], the system clock (the instant returned by the
    [k]-th [new Date()] of a run), the database link (does the [k]-th
    database call of a run resolve) and the mail transport (does sending
    this message succeed). *)
Record Env : Type := mkEnv {
  hostZone : Zone;
  tzdb : string -> option Zone;
  clock : nat -> Z;
  dbUp : nat -> bool;
  smtp : Mail -> bool
}.

(** What changes while code runs. *)
Record World : Type := mkWorld {
  ticks : nat;                        (* clock reads so far *)
  dbCalls : nat;                      (* database calls so far *)
  nextId : N;                         (* ObjectId generator *)
  tasksColl : list Task;              (* the tasks collection *)
  usersColl : list User;              (* the users collection *)
  outbox : list Mail                  (* mails the transport accepted *)
}.

(** A computation that reads and changes the world and may throw.  The
    effects made before a throw stay. *)
Definition M (A : Type) : Type := World -> Result A * World.

Definition ret {A} (a : A) : M A := fun w => (Ok a, w).
Definition throw {A} (e : Error) : M A := fun w => (Throw e, w).

Definition bind {A B} (m : M A) (k : A -> M B) : M B :=
  fun w => match m w with
           | (Ok a, w') => k a w'
           | (Throw e, w') => (Throw e, w')
           end.

(** [try m catch (e) h]. *)
Definition catch {A} (m : M A) (h : Error -> M A) : M A :=
  fun w => match m w with
           | (Ok a, w') => (Ok a, w')
           | (Throw e, w') => h e w'
           end.

Definition liftResult {A} (r : Result A) : M A := fun w => (r, w).

Declare Scope m_scope.
Delimit Scope m_scope with M.
Notation "x <- m ;; k" := (bind m (fun x => k))
  (at level 61, m at next level, right associativity) : m_scope.
Notation "m ;;; k" := (bind m (fun _ => k))
  (at level 61, right associativity) : m_scope.

#[local] Open Scope m_scope.

(** [new Date()]: the next reading of the clock. *)
Definition newDate (env : Env) : M Z :=
  fun w => (Ok (clock env (ticks w)),
            {| ticks := S (ticks w); dbCalls := dbCalls w;
               nextId := nextId w; tasksColl := tasksColl w;
               usersColl := usersColl w; outbox := outbox w |}).

(** A fresh [_id]. *)
Definition freshId : M ObjectId :=
  fun w => (Ok (nextId w),
            {| ticks := ticks w; dbCalls := dbCalls w;
               nextId := N.succ (nextId w); tasksColl := tasksColl w;
               usersColl := usersColl w; outbox := outbox w |}).

Definition setTasks (ts : list Task) : M unit :=
  fun w => (Ok tt,
            {| ticks := ticks w; dbCalls := dbCalls w;
               nextId := nextId w; tasksColl := ts;
               usersColl := usersColl w; outbox := outbox w |}).

Definition pushMail (m : Mail) : M unit :=
  fun w => (Ok tt,
            {| ticks := ticks w; dbCalls := dbCalls w;
               nextId := nextId w; tasksColl := tasksColl w;
               usersColl := usersColl w; outbox := outbox w ++ [m] |}).

(** A database call: it counts, and rejects when the link is down. *)
Definition dbCall {A} (env : Env) (q : World -> Result A) : M A :=
  fun w =>
    let w' := {| ticks := ticks w; dbCalls := S (dbCalls w);
                 nextId := nextId w; tasksColl := tasksColl w;
                 usersColl := usersColl w; outbox := outbox w |} in
    if dbUp env (dbCalls w) then (q w', w') else (Throw StorageError, w').

(* ===================================================================== *)
(** * models/Task.js *)
(* ===================================================================== *)

Module TaskModel.

(** Casting [{ scheduledDate: d, status: s }] to a [RevisionSchema]
    subdocument: the schema defaults fill what is absent. *)
Definition newRevision (id : ObjectId) (d : Date) (s : string) : Revision :=
  {| rev_id := id; scheduledDate := d; status := s;
     sentReminder := false; completedAt := None;
     remindersSent := 0; lastReminderSent := None |}.

(** The argument of [DocumentArray.id]: an ObjectId or a raw string. *)
Inductive IdArg : Type :=
| AsObjectId (o : ObjectId)
| AsString (s : string).

Definition castIdArg (x : IdArg) : option ObjectId :=
  match x with
  | AsObjectId o => Some o
  | AsString s => castObjectId s
  end.

Definition idMatches (x : IdArg) (r : Revision) : bool :=
  match castIdArg x with
  | Some o => N.eqb (rev_id r) o
  | None => false
  end.

(** [this.revisions.id(x)]: the first subdocument whose [_id] is [x]. *)
Definition revisionsId (x : IdArg) (revs : list Revision) : option Revision :=
  find (idMatches x) revs.

(** Writing through the reference [revisions.id] returned: the first
    matching element of the array is the one that changes. *)
Fixpoint modifyFirst (p : Revision -> bool) (f : Revision -> Revision)
    (revs : list Revision) : list Revision :=
  match revs with
  | [] => []
  | r :: rest => if p r then f r :: rest else r :: modifyFirst p f rest
  end.

(** [isValid(id) ? new ObjectId(id) : id], inside [try]. *)
Definition toIdArg (revisionId : string) : Result IdArg :=
  if isValid revisionId then
    match newObjectId revisionId with
    | Ok o => Ok (AsObjectId o)
    | Throw e => Throw e
    end
  else Ok (AsString revisionId).

Definition addDefaultRevisions (env : Env) (this : Task) : M Task :=
  let host := hostZone env in
  let completedDate := completedDate this in
  let revision1 :=
    setDate host completedDate
      (option_map (fun d => d + 3) (getDate host completedDate)) in
  let revision2 :=
    setDate host completedDate
      (option_map (fun d => d + 7) (getDate host completedDate)) in
  id1 <- freshId ;;
  id2 <- freshId ;;
  ret (setRevisions this
         [newRevision id1 revision1 "pending";
          newRevision id2 revision2 "pending"]).

Definition setStatus (s : string) (at_ : option Z) (r : Revision) : Revision :=
  {| rev_id := rev_id r; scheduledDate := scheduledDate r; status := s;
     sentReminder := sentReminder r; completedAt := at_;
     remindersSent := remindersSent r;
     lastReminderSent := lastReminderSent r |}.

(** [revision.scheduledDate = d; revision.status = 'pending'].  Mongoose
    does not take an Invalid Date for a Date path: the value that was
    there stays (and the cast error is kept for the next [save]). *)
Definition setSchedule (d : Date) (r : Revision) : Revision :=
  {| rev_id := rev_id r;
     scheduledDate := match d with
                      | Some _ => d
                      | None => scheduledDate r
                      end;
     status := "pending";
     sentReminder := sentReminder r; completedAt := completedAt r;
     remindersSent := remindersSent r;
     lastReminderSent := lastReminderSent r |}.

(** Returns the method's result and the document as the call leaves it. *)
Definition updateRevisionStatus (env : Env) (revisionId status : string)
    (this : Task) : M (bool * Task) :=
  match toIdArg revisionId with
  | Throw _ => ret (false, this)
  | Ok objectId =>
      match revisionsId objectId (revisions this) with
      | Some _ =>
          if status =? "done" then
            now <- newDate env ;;
            ret (true,
                 setRevisions this
                   (modifyFirst (idMatches objectId)
                      (setStatus status (Some now)) (revisions this)))
          else
            ret (true,
                 setRevisions this
                   (modifyFirst (idMatches objectId)
                      (setStatus status None) (revisions this)))
      | None => ret (false, this)
      end
  end.

Definition markRevisionComplete (env : Env) (revisionId : string)
    (this : Task) : M (bool * Task) :=
  updateRevisionStatus env revisionId "done" this.

Definition rescheduleRevision (revisionId : string) (newDate : Date)
    (this : Task) : bool * Task :=
  match revisionsId (AsString revisionId) (revisions this) with
  | Some _ =>
      (true,
       setRevisions this
         (modifyFirst (idMatches (AsString revisionId))
            (setSchedule newDate) (revisions this)))
  | None => (false, this)
  end.

(** What [postponeRevision] returns when it does not return [false]. *)
Record PostponeInfo : Type := mkPostponeInfo {
  success : bool;
  newDate_ : Date;
  nextInterval : Z
}.

(** The date computation of [postponeRevision]. *)
Definition tomorrowOf (currentScheduledDate : Date) : Date :=
  let tomorrow := currentScheduledDate in
  let tomorrow :=
    setUTCDate tomorrow
      (option_map (fun d => d + 1) (getUTCDate currentScheduledDate)) in
  setUTCHours tomorrow 0 0 0 0.

(** [None] stands for the [false] the method returns.  Before it assigns
    the new date the method logs it with [toISOString], which throws a
    RangeError when the date is not valid; the handler that calls the
    method models that throw, here the result then carries the invalid
    [newDate]. *)
Definition postponeRevision (revisionId : string) (this : Task)
    : option PostponeInfo * Task :=
  match toIdArg revisionId with
  | Throw _ => (None, this)
  | Ok objectId =>
      match revisionsId objectId (revisions this) with
      | None => (None, this)
      | Some revision =>
          let tomorrow := tomorrowOf (scheduledDate revision) in
          (Some {| success := true; newDate_ := tomorrow; nextInterval := 1 |},
           setRevisions this
             (modifyFirst (idMatches objectId) (setSchedule tomorrow)
                (revisions this)))
      end
  end.

Definition isDone (r : Revision) : bool := status r =? "done".

(** The virtual [completedRevisions]. *)
Definition completedRevisions (this : Task) : nat :=
  List.length (filter isDone (revisions this)).

(** ** Validation *)

Definition statusValues : list string :=
  ["pending"; "done"; "skipped"; "postponed"].

Definition inStatusValues (s : string) : bool :=
  existsb (String.eqb s) statusValues.

(** The validator of the [revisions] path. *)
Definition revisionsValidator (this : Task) (revisions : list Revision) : bool :=
  forallb (fun revision =>
             date_geb (scheduledDate revision) (completedDate this))
          revisions.

Definition isSomeDate (d : Date) : bool :=
  match d with Some _ => true | None => false end.

Definition validateRevision (r : Revision) : list string :=
  (if isSomeDate (scheduledDate r) then [] else ["Scheduled date is required"])
  ++ (if inStatusValues (status r) then []
      else ["Status must be pending, done, skipped, or postponed"]).

(** The messages of the validation error; none when the document is
    valid. *)
Definition validate (this : Task) : list string :=
  (if title this =? "" then ["Task title is required"]
   else if (200 <? String.length (title this))%nat
        then ["Task title cannot exceed 200 characters"] else [])
  ++ (match notes this with
      | Some n => if (1000 <? String.length n)%nat
                  then ["Notes cannot exceed 1000 characters"] else []
      | None => []
      end)
  ++ (if isSomeDate (completedDate this) then []
      else ["Completed date is required"])
  ++ flat_map validateRevision (revisions this)
  ++ (if revisionsValidator this (revisions this) then []
      else ["Revision dates must be after completion date"]).

(** ** Saving *)

(** [TaskSchema.pre('save')]. *)
Definition preSave (env : Env) (this : Task) : M Task :=
  if isNew this && (List.length (revisions this) =? 0)%nat
  then addDefaultRevisions env this
  else ret this.

Definition replaceTask (t : Task) (ts : list Task) : list Task :=
  map (fun old => if N.eqb (task_id old) (task_id t) then t else old) ts.

Definition setCreatedAt (t : Task) (now : Z) : Task :=
  {| task_id := task_id t; user := user t; title := title t;
     notes := notes t; completedDate := completedDate t;
     revisions := revisions t; isArchived := isArchived t;
     createdAt := now; isNew := isNew t |}.

(** Writing the document: an insert when it is new, a replacement of the
    stored document with its [_id] otherwise. *)
Definition writeTask (env : Env) (t : Task) : M Task :=
  ts <- dbCall env (fun w => Ok (tasksColl w)) ;;
  let t' := markStored t in
  setTasks (if isNew t then ts ++ [t'] else replaceTask t' ts) ;;;
  ret t'.

(** [task.save()]: Mongoose validates first (its own pre-save hook is
    put in front of the schema's), then runs the schema's pre-save hook,
    then writes.  A new document gets its [createdAt] stamp
    ([timestamps: true]). *)
Definition save (env : Env) (this : Task) : M Task :=
  match validate this with
  | [] =>
      t <- preSave env this ;;
      if isNew t then
        now <- newDate env ;;
        writeTask env (setCreatedAt t now)
      else writeTask env t
  | msgs => throw (ValidationError msgs)
  end.

(** The message of the cast error of a Date path that was given an
    Invalid Date. *)
Definition quote : string := String (ascii_of_nat 34) EmptyString.

Definition castToDateFailed (path : string) : string :=
  "Cast to date failed for value " ++ quote ++ "Invalid Date" ++ quote
  ++ " (type Date) at path " ++ quote ++ path ++ quote.

(** [task.save()] after [d] was assigned to the [scheduledDate] of a
    revision: for an Invalid Date the cast error kept from the assignment
    is in the validation error the save rejects with, and nothing is
    written. *)
Definition saveAssigned (env : Env) (d : Date) (this : Task) : M Task :=
  match d with
  | Some _ => save env this
  | None =>
      throw (ValidationError
               (castToDateFailed "scheduledDate" :: validate this))
  end.

(** [Task.findOne({ _id: id, user: userId })]; a document read from the
    database is not new. *)
Definition findOne (env : Env) (id : string) (userId : ObjectId)
    : M (option Task) :=
  match newObjectId id with
  | Throw _ => throw (CastError "_id")
  | Ok oid =>
      dbCall env (fun w =>
        Ok (option_map markStored
              (find (fun t => N.eqb (task_id t) oid && N.eqb (user t) userId)
                    (tasksColl w))))
  end.

End TaskModel.

(* ===================================================================== *)
(** * utils/timezoneUtils.js *)
(* ===================================================================== *)

Module TimezoneUtils.

(** The text [toLocaleString('en-US', { timeZone })] produces is kept as
    the wall-clock reading it spells ("6/15/2024, 11:30:00 AM"): month
    1-12, hour 0-23, no milliseconds.  [new Date(text)] reads the same
    fields back.  (Exact for the four-digit years the format prints in
    full.) *)
Record WallClock : Type := mkWallClock {
  wcYear : Z; wcMonth : Z; wcDay : Z;
  wcHour : Z; wcMinute : Z; wcSecond : Z
}.

Inductive LocaleString : Type :=
| InvalidDateText
| DateTimeText (w : WallClock).

Definition wallClockAt (t : Z) : WallClock :=
  {| wcYear := YearFromTime t; wcMonth := MonthFromTime t + 1;
     wcDay := DateFromTime t; wcHour := HourFromTime t;
     wcMinute := MinFromTime t; wcSecond := SecFromTime t |}.

(** [date.toLocaleString('en-US', { timeZone: timezone })]: an invalid
    date prints as "Invalid Date"; an identifier the database does not
    know makes [Intl] throw a RangeError. *)
Definition toLocaleString (env : Env) (date : Date) (timezone : string)
    : Result LocaleString :=
  match date with
  | None => Ok InvalidDateText
  | Some t =>
      match tzdb env timezone with
      | None => Throw (RangeError ("Invalid time zone specified: " ++ timezone))
      | Some z => Ok (DateTimeText (wallClockAt (t + utcOffset z t)))
      end
  end.

(** [new Date(text)]: a date-time text without zone designator is read
    as local time of the host.  The year is read as printed, which is
    what the engine does with a year of four digits; it reads a shorter
    year differently (1 as 2001). *)
Definition parseDate (env : Env) (s : LocaleString) : Date :=
  match s with
  | InvalidDateText => None
  | DateTimeText w =>
      TimeClip (UTC (hostZone env)
        (MakeDate (MakeDay (wcYear w) (wcMonth w - 1) (wcDay w))
                  (MakeTime (wcHour w) (wcMinute w) (wcSecond w) 0)))
  end.

Definition defaultTimezone : string := "Asia/Kolkata".

Definition getCurrentTimeInTimezone (env : Env) (timezone : string) : M Date :=
  now <- newDate env ;;
  s <- liftResult (toLocaleString env (Some now) timezone) ;;
  ret (parseDate env s).

Definition getDayBoundsInTimezone (env : Env) (date : Date)
    (timezone : string) : Result (Date * Date) :=
  let targetDate := date in
  match toLocaleString env targetDate timezone with
  | Throw e => Throw e
  | Ok s =>
      let userDate := parseDate env s in
      let startOfDay := setHours (hostZone env) userDate 0 0 0 0 in
      let endOfDay := setHours (hostZone env) userDate 23 59 59 999 in
      Ok (startOfDay, endOfDay)
  end.

Definition isTargetHourInTimezone (env : Env) (targetHour : Z)
    (timezone : string) : M bool :=
  currentTime <- getCurrentTimeInTimezone env timezone ;;
  ret (match getHours (hostZone env) currentTime with
       | Some h => (h =? targetHour)%Z
       | None => false
       end).

End TimezoneUtils.

(* ===================================================================== *)
(** * controllers/tasksController.js *)
(* ===================================================================== *)

Module TasksController.

Import TaskModel.

Record PostponeData : Type := mkPostponeData {
  pdNewDate : Date;
  pdNextInterval : Z;
  pdNewStatus : string
}.

Inductive Body : Type :=
| Failure (error : string)
| Success (data : Task)
| Postponed (task : Task) (postponeInfo : PostponeData).

(** What a handler does with the response: [res.status(c).json(b)], or
    [next(error)]. *)
Inductive Reply : Type :=
| Json (code : Z) (body : Body)
| Next (e : Error).

(** A revision as a request body gives it: a date string, or an object
    whose fields are spread into the subdocument. *)
Record RevisionObject : Type := mkRevisionObject {
  roId : option ObjectId;
  roScheduledDate : Date;             (* new Date(rev.scheduledDate) *)
  roStatus : option string;
  roCompletedAt : option Z
}.

Inductive RevisionInput : Type :=
| RevString (d : Date)                (* new Date(rev) *)
| RevObject (o : RevisionObject).

Definition castRevisionObject (o : RevisionObject) : M Revision :=
  id <- match roId o with Some i => ret i | None => freshId end ;;
  ret {| rev_id := id; scheduledDate := roScheduledDate o;
         status := match roStatus o with Some s => s | None => "pending" end;
         sentReminder := false; completedAt := roCompletedAt o;
         remindersSent := 0; lastReminderSent := None |}.

Definition castRevisionInput (r : RevisionInput) : M Revision :=
  match r with
  | RevString d => id <- freshId ;; ret (newRevision id d "pending")
  | RevObject o => castRevisionObject o
  end.

Fixpoint mapM {A B} (f : A -> M B) (l : list A) : M (list B) :=
  match l with
  | [] => ret []
  | a :: rest => b <- f a ;; bs <- mapM f rest ;; ret (b :: bs)
  end.

Record CreateRequest : Type := mkCreateRequest {
  crUser : ObjectId;                  (* req.user._id *)
  crTitle : string;
  crNotes : option string;
  crCompletedDate : Date;             (* new Date(completedDate) *)
  crRevisions : option (list Date)    (* each through new Date(date) *)
}.

Definition createTask (env : Env) (req : CreateRequest) : M Reply :=
  catch
    (id <- freshId ;;
     let task :=
       {| task_id := id; user := crUser req; title := trim (crTitle req);
          notes := option_map trim (crNotes req);
          completedDate := crCompletedDate req;
          revisions := []; isArchived := false; createdAt := 0;
          isNew := true |} in
     task <- match crRevisions req with
             | Some revisions =>
                 rs <- mapM (fun date => castRevisionInput (RevString date))
                            revisions ;;
                 ret (setRevisions task rs)
             | None => ret task
             end ;;
     savedTask <- save env task ;;
     ret (Json 201 (Success savedTask)))
    (fun error => ret (Next error)).

Record UpdateRequest : Type := mkUpdateRequest {
  urId : string;                      (* req.params.id *)
  urUser : ObjectId;
  urTitle : option string;
  urNotes : option string;
  urCompletedDate : option Date;
  urRevisions : option (list RevisionInput)
}.

Definition updateTask (env : Env) (req : UpdateRequest) : M Reply :=
  catch
    (if negb (isValid (urId req)) then
       ret (Json 400 (Failure "Invalid task ID format"))
     else
       found <- findOne env (urId req) (urUser req) ;;
       match found with
       | None => ret (Json 404 (Failure "Task not found"))
       | Some task =>
           let task := match urTitle req with
                       | Some s => setTitle task s | None => task end in
           let task := match urNotes req with
                       | Some s => setNotes task (Some s) | None => task end in
           let task := match urCompletedDate req with
                       | Some d => setCompletedDate task d | None => task end in
           task <- match urRevisions req with
                   | Some revisions =>
                       rs <- mapM castRevisionInput revisions ;;
                       ret (setRevisions task rs)
                   | None => ret task
                   end ;;
           updatedTask <- save env task ;;
           ret (Json 200 (Success updatedTask))
       end)
    (fun error => ret (Next error)).

Record ScheduleRequest : Type := mkScheduleRequest {
  srId : string;
  srUser : ObjectId;
  srRevisions : list RevisionObject
}.

Definition updateTaskSchedule (env : Env) (req : ScheduleRequest) : M Reply :=
  catch
    (found <- findOne env (srId req) (srUser req) ;;
     match found with
     | None => ret (Json 404 (Failure "Task not found"))
     | Some task =>
         rs <- mapM castRevisionObject (srRevisions req) ;;
         updatedTask <- save env (setRevisions task rs) ;;
         ret (Json 200 (Success updatedTask))
     end)
    (fun error => ret (Next error)).

Record RevisionRequest : Type := mkRevisionRequest {
  rrId : string;                      (* req.params.id *)
  rrRevisionId : string;              (* req.params.revisionId *)
  rrUser : ObjectId;
  rrStatus : option string;           (* req.body.status *)
  rrNewDate : Date                    (* new Date(req.body.newDate) *)
}.

(** [status || 'done']. *)
Definition statusOrDone (s : option string) : string :=
  match s with
  | None => "done"
  | Some s => if s =? "" then "done" else s
  end.

Definition isPostponed (s : option string) : bool :=
  match s with
  | Some s => s =? "postponed"
  | None => false
  end.

Definition markRevisionComplete (env : Env) (req : RevisionRequest) : M Reply :=
  catch
    (found <- findOne env (rrId req) (rrUser req) ;;
     match found with
     | None => ret (Json 404 (Failure "Task not found"))
     | Some task =>
         if isPostponed (rrStatus req) then
           let '(result, task) := postponeRevision (rrRevisionId req) task in
           match result with
           | None =>
               ret (Json 404 (Failure "Revision not found or postpone failed"))
           | Some result =>
               if negb (success result) then
                 ret (Json 404
                        (Failure "Revision not found or postpone failed"))
               else if negb (isSomeDate (newDate_ result)) then
                 throw (RangeError "Invalid time value")
               else
                 saved <- catch (t <- save env task ;; ret (Some t))
                                (fun _ => ret None) ;;
                 match saved with
                 | None =>
                     ret (Json 500
                            (Failure "Failed to save postponed revision"))
                 | Some task =>
                     ret (Json 200
                            (Postponed task
                               {| pdNewDate := newDate_ result;
                                  pdNextInterval := nextInterval result;
                                  pdNewStatus := "pending" |}))
                 end
           end
         else
           r <- updateRevisionStatus env (rrRevisionId req)
                  (statusOrDone (rrStatus req)) task ;;
           let '(ok, task) := r in
           if negb ok then ret (Json 404 (Failure "Revision not found"))
           else
             task <- save env task ;;
             ret (Json 200 (Success task))
     end)
    (fun error => ret (Next error)).

Definition rescheduleRevision (env : Env) (req : RevisionRequest) : M Reply :=
  catch
    (found <- findOne env (rrId req) (rrUser req) ;;
     match found with
     | None => ret (Json 404 (Failure "Task not found"))
     | Some task =>
         let '(ok, task) :=
           TaskModel.rescheduleRevision (rrRevisionId req) (rrNewDate req)
             task in
         if negb ok then ret (Json 404 (Failure "Revision not found"))
         else
           task <- saveAssigned env (rrNewDate req) task ;;
           ret (Json 200 (Success task))
     end)
    (fun error => ret (Next error)).

End TasksController.

(* ===================================================================== *)
(** * services/cronService.js *)
(* ===================================================================== *)

Module CronService.

Import TimezoneUtils.

(** The aggregation pipeline of [getTodaysRevisions]: [$match] on owner
    and archive flag, [$unwind] of the revisions, [$match] on the date
    window and the status.  Dates in the store are valid; a bound that is
    an invalid date selects nothing in this model. *)
Definition dueItems (userId : ObjectId) (startOfDay endOfDay : Date)
    (tasks : list Task) : list (Task * Revision) :=
  filter
    (fun item =>
       date_geb (scheduledDate (snd item)) startOfDay
       && date_leb (scheduledDate (snd item)) endOfDay
       && (status (snd item) =? "pending"))
    (flat_map (fun t => map (pair t) (revisions t))
       (filter (fun t => N.eqb (user t) userId && negb (isArchived t))
               tasks)).

(** [Math.ceil(a / b)] for [b > 0]. *)
Definition ceilDiv (a b : Z) : Z := (- ((- a) / b))%Z.

(** [Math.ceil((revisionDate - completedDate) / (1000 * 60 * 60 * 24))];
    [None] is NaN.  The operands are integers below 2^54 and the quotient
    is only compared with 3, 7, 14 and 30, where the double-precision
    division rounds to the right side of each of them, so the integer
    ceiling decides the same comparisons. *)
Definition daysDiffOf (completedDate revisionDate : Date) : option Z :=
  match completedDate, revisionDate with
  | Some c, Some r => Some (ceilDiv (r - c) (1000 * 60 * 60 * 24))
  | _, _ => None
  end.

(** The [if]/[else if] chain on [daysDiff]; every comparison with NaN is
    false, which leaves the last branch. *)
Definition revisionDayOf (daysDiff : option Z) : Z :=
  match daysDiff with
  | Some n =>
      (if n <=? 3 then 1
       else if n <=? 7 then 2
       else if n <=? 14 then 3
       else if n <=? 30 then 4
       else 5)%Z
  | None => 5
  end.

(** The callback of [tasksWithRevisions.map]. *)
Definition toDueRevision (item : Task * Revision) : DueRevision :=
  let '(task, revision) := item in
  let daysDiff := daysDiffOf (completedDate task) (scheduledDate revision) in
  let revisionDay := revisionDayOf daysDiff in
  {| taskId := task_id task;
     taskTitle := title task;
     taskDescription := notes task;
     taskCreatedAt := createdAt task;
     revisionId := rev_id revision;
     revisionDay := revisionDay;
     dueScheduledDate := scheduledDate revision;
     isFirstRevision := (revisionDay =? 1)%Z |}.

(** The body of the [try] block of [getTodaysRevisions]. *)
Definition resolveToday (env : Env) (userId : ObjectId) (timezone : string)
    : M (list DueRevision) :=
  now <- newDate env ;;
  bounds <- liftResult (getDayBoundsInTimezone env (Some now) timezone) ;;
  let '(startOfDay, endOfDay) := bounds in
  tasksWithRevisions <-
    dbCall env (fun w => Ok (dueItems userId startOfDay endOfDay (tasksColl w))) ;;
  ret (map toDueRevision tasksWithRevisions).

Definition getTodaysRevisions (env : Env) (userId : ObjectId)
    (timezone : string) : M (list DueRevision) :=
  catch (resolveToday env userId timezone) (fun _ => ret []).

(** [email.split('@')[0]]. *)
Fixpoint beforeAt (s : string) : string :=
  match s with
  | EmptyString => EmptyString
  | String c rest =>
      if Ascii.eqb c "@"%char then EmptyString else String c (beforeAt rest)
  end.

(** [sendDailyRevisionReminder] of emailService: whatever goes wrong
    inside is rethrown as one error. *)
Definition sendDailyRevisionReminder (env : Env) (email name : string)
    (revisions : list DueRevision) : M unit :=
  let mail := {| mailTo := email; mailName := name;
                 mailRevisions := revisions |} in
  if smtp env mail then pushMail mail
  else throw (MailError "Failed to send daily revision reminder").

(** [user.timezone || 'Asia/Kolkata']. *)
Definition timezoneOrDefault (tz : option string) : string :=
  match tz with
  | None => defaultTimezone
  | Some s => if s =? "" then defaultTimezone else s
  end.

(** How one turn of the loop of [sendDailyReminders] ends: the mail went
    out ([remindersSent++]), a [continue] was taken, or the [catch] ran
    ([errors++]). *)
Inductive Outcome : Type := Sent | Skipped | Errored.

(** The [try] block inside the loop.  (The 100 ms pause after a sent
    mail only lets time pass; the clock of [Env] is free to show it.) *)
Definition remindBody (env : Env) (user : User) : M Outcome :=
  let userTimezone := timezoneOrDefault (timezone user) in
  atSix <- isTargetHourInTimezone env 6 userTimezone ;;
  if negb atSix then ret Skipped
  else
    todaysRevisions <- getTodaysRevisions env (user_id user) userTimezone ;;
    if (List.length todaysRevisions =? 0)%nat then ret Skipped
    else
      sendDailyRevisionReminder env (email user) (beforeAt (email user))
        todaysRevisions ;;;
      ret Sent.

Definition remindUser (env : Env) (user : User) : M Outcome :=
  catch (remindBody env user) (fun _ => ret Errored).

(** The counters [remindersSent] and [errors]. *)
Record Counters : Type := mkCounters {
  remindersSent_ : Z;
  errors : Z
}.

Definition count (o : Outcome) (c : Counters) : Counters :=
  match o with
  | Sent => {| remindersSent_ := remindersSent_ c + 1; errors := errors c |}
  | Skipped => c
  | Errored => {| remindersSent_ := remindersSent_ c; errors := errors c + 1 |}
  end%Z.

(** [for (const user of users) { try { ... } catch { errors++ } }]. *)
Fixpoint remindAll (env : Env) (users : list User) (c : Counters)
    : M Counters :=
  match users with
  | [] => ret c
  | user :: rest =>
      o <- remindUser env user ;;
      remindAll env rest (count o c)
  end.

(** [User.find({ isVerified: true, 'settings.emailNotifications': true })]. *)
Definition findEligible (env : Env) : M (list User) :=
  dbCall env (fun w =>
    Ok (filter (fun u => isVerified u && emailNotifications u) (usersColl w))).

(** The job.  It returns nothing; what it logs at the end, the two
    counters, is kept as its result, [None] when the outer [catch] ran. *)
Definition sendDailyReminders (env : Env) : M (option Counters) :=
  catch
    (users <- findEligible env ;;
     c <- remindAll env users {| remindersSent_ := 0; errors := 0 |} ;;
     ret (Some c))
    (fun _ => ret None).

(** The outcomes of the turns of the loop, in order. *)
Fixpoint outcomes (env : Env) (users : list User) (w : World)
    : list Outcome * World :=
  match users with
  | [] => ([], w)
  | user :: rest =>
      match remindUser env user w with
      | (Ok o, w') =>
          let '(os, w'') := outcomes env rest w' in (o :: os, w'')
      | (Throw _, w') => ([], w')
      end
  end.

End CronService.

(** A fragment of the IANA database to run the model on: the zones of
    [SUPPORTED_TIMEZONES] that keep one offset all year. *)
Definition minutes (m : Z) : Z := m * 60000.

Definition sampleTzdb (name : string) : option Zone :=
  if name =? "UTC" then Some (fixedZone 0)
  else if name =? "Asia/Kolkata" then Some (fixedZone (minutes 330))
  else if name =? "Asia/Tokyo" then Some (fixedZone (minutes 540))
  else if name =? "Asia/Shanghai" then Some (fixedZone (minutes 480))
  else if name =? "Asia/Dubai" then Some (fixedZone (minutes 240))
  else if name =? "Asia/Singapore" then Some (fixedZone (minutes 480))
  else if name =? "Asia/Hong_Kong" then Some (fixedZone (minutes 480))
  else None.

(** ** Reference notions the statements below compare the code with *)

(** The spec's new date of a postponed revision:
    [startOfLocalDay(currentScheduledDate, UTC) + 1 day]. *)
Definition startOfUTCDay (d : Z) : Z := Day d * msPerDay.
Definition nextUTCMidnight (d : Z) : Z := startOfUTCDay d + msPerDay.

(** The same process with another system clock. *)
Definition withClock (env : Env) (c : nat -> Z) : Env :=
  {| hostZone := hostZone env; tzdb := tzdb env; clock := c;
     dbUp := dbUp env; smtp := smtp env |}.

(** The host's offset from UTC is the same at [c] and [k] days later on
    its wall clock: no daylight-saving change in between.  Holds for
    every [c] and [k] on a host that keeps one offset, such as UTC. *)
Definition steadyOffset (host : Zone) (c k : Z) : Prop :=
  localOffset host (LocalTime host c + k * msPerDay) = utcOffset host c.

(** The world after [n] identifiers were drawn. *)
Definition drawIds (n : N) (w : World) : World :=
  {| ticks := ticks w; dbCalls := dbCalls w; nextId := (nextId w + n)%N;
     tasksColl := tasksColl w; usersColl := usersColl w;
     outbox := outbox w |}.


(** The date a revision of a request body asks for. *)
Definition inputDate (r : TasksController.RevisionInput) : Date :=
  match r with
  | TasksController.RevString d => d
  | TasksController.RevObject o => TasksController.roScheduledDate o
  end.

(** The message of the [revisions] validator. *)
Definition revisionDatesMessage : string :=
  "Revision dates must be after completion date".

(** The document [updateTask] has after its field assignments, before
    its revisions are replaced. *)
Definition editedFields (req : TasksController.UpdateRequest) (task : Task)
    : Task :=
  let task := match TasksController.urTitle req with
              | Some s => setTitle task s | None => task end in
  let task := match TasksController.urNotes req with
              | Some s => setNotes task (Some s) | None => task end in
  match TasksController.urCompletedDate req with
  | Some d => setCompletedDate task d | None => task end.

(** The world after one more reading of the clock. *)
Definition tick (w : World) : World :=
  {| ticks := S (ticks w); dbCalls := dbCalls w; nextId := nextId w;
     tasksColl := tasksColl w; usersColl := usersColl w;
     outbox := outbox w |}.

(** How often an outcome occurs among the turns of a run. *)
Definition occurrences (o : CronService.Outcome)
    (os : list CronService.Outcome) : Z :=
  Z.of_nat (List.length
              (filter (fun x => match o, x with
                                | CronService.Sent, CronService.Sent
                                | CronService.Skipped, CronService.Skipped
                                | CronService.Errored, CronService.Errored =>
                                    true
                                | _, _ => false
                                end) os)).

(** The reminder [sendDailyReminders] hands over for a user. *)
Definition reminderFor (user : User) (revisions : list DueRevision) : Mail :=
  {| mailTo := email user;
     mailName := CronService.beforeAt (email user);
     mailRevisions := revisions |}.

(** The world after the transport took a mail. *)
Definition delivered (m : Mail) (w : World) : World :=
  {| ticks := ticks w; dbCalls := dbCalls w; nextId := nextId w;
     tasksColl := tasksColl w; usersColl := usersColl w;
     outbox := outbox w ++ [m] |}.

Definition withTimezone (u : User) (tz : option string) : User :=
  {| user_id := user_id u; email := email u; timezone := tz;
     isVerified := isVerified u;
     emailNotifications := emailNotifications u |}.

(** The spec's fallback: a user whose time zone the database does not
    know is processed as one in the default zone. *)
Definition fallsBackToDefaultZone (env : Env) : Prop :=
  forall (user : User) (tz : string) (w : World),
    timezone user = Some tz ->
    tzdb env tz = None ->
    fst (CronService.remindUser env user w)
    = fst (CronService.remindUser env
             (withTimezone user (Some TimezoneUtils.defaultTimezone)) w).



(** The year [toLocaleString] prints for the wall-clock time [t] has
    four digits. *)
Definition fourDigitYear (t : Z) : bool :=
  ((1000 <=? YearFromTime t) && (YearFromTime t <=? 9999))%Z.

(** What a stored task holds, but for its time stamp [updatedAt], which
    every write renews. *)
Definition taskContent (t : Task)
    : ObjectId * ObjectId * string * option string * Date * list Revision
      * bool * Z :=
  (task_id t, user t, title t, notes t, completedDate t, revisions t,
   isArchived t, createdAt t).

(** ** Sample data *)

Module Sample.

#[local] Open Scope string_scope.

(** A process on a host whose zone is [host], with the clock standing at
    [now], the database reachable and the transport accepting what
    [deliver] accepts. *)
Definition envAt (host : Zone) (now : Z) (deliver : Mail -> bool) : Env :=
  {| hostZone := host; tzdb := sampleTzdb; clock := fun _ => now;
     dbUp := fun _ => true; smtp := deliver |}.

Definition alice : ObjectId := 161%N.
Definition bob : ObjectId := 177%N.

Definition taskHex : string := "000000000000000000000010".
Definition revHex : string := "000000000000000000000011".
Definition otherHex : string := "0000000000000000000000ff".

(** A task completed on 2024-01-03 whose two revisions are the default
    ones, the second already done. *)
Definition januaryTask : Task :=
  {| task_id := 16%N; user := alice; title := "Linear algebra";
     notes := None;
     completedDate := Some (utc 2024 1 3 0 0 0 0);
     revisions :=
       [ {| rev_id := 17%N; scheduledDate := Some (utc 2024 1 10 0 0 0 0);
            status := "pending"; sentReminder := false; completedAt := None;
            remindersSent := 0; lastReminderSent := None |};
         {| rev_id := 18%N; scheduledDate := Some (utc 2024 1 6 0 0 0 0);
            status := "done"; sentReminder := false;
            completedAt := Some (utc 2024 1 6 9 0 0 0);
            remindersSent := 0; lastReminderSent := None |} ];
     isArchived := false; createdAt := utc 2024 1 3 8 0 0 0;
     isNew := false |}.

(** A document just built by [new Task(...)], completed on 2024-02-27. *)
Definition freshTask : Task :=
  {| task_id := 32%N; user := alice; title := "Graph theory";
     notes := Some "chapter 4";
     completedDate := Some (utc 2024 2 27 10 0 0 0);
     revisions := []; isArchived := false; createdAt := 0;
     isNew := true |}.

Definition world (tasks : list Task) (users : list User) : World :=
  {| ticks := 0; dbCalls := 0; nextId := 4096%N; tasksColl := tasks;
     usersColl := users; outbox := [] |}.

(** A task completed on 2024-05-01T09:00Z with one revision asked for at
    that very instant and one a week later. *)
Definition sameDayRequest : TasksController.CreateRequest :=
  {| TasksController.crUser := alice;
     TasksController.crTitle := "Topology";
     TasksController.crNotes := None;
     TasksController.crCompletedDate := Some (utc 2024 5 1 9 0 0 0);
     TasksController.crRevisions :=
       Some [Some (utc 2024 5 1 9 0 0 0); Some (utc 2024 5 8 9 0 0 0)] |}.


Definition blankTitleRequest : TasksController.CreateRequest :=
  {| TasksController.crUser := alice;
     TasksController.crTitle := "   ";
     TasksController.crNotes := None;
     TasksController.crCompletedDate := Some (utc 2024 5 1 9 0 0 0);
     TasksController.crRevisions :=
       Some [Some (utc 2024 5 1 9 0 0 0); Some (utc 2024 5 8 9 0 0 0)] |}.

(** The same with the first revision one millisecond too early. *)
Definition tooEarlyRequest : TasksController.CreateRequest :=
  {| TasksController.crUser := alice;
     TasksController.crTitle := "Topology";
     TasksController.crNotes := None;
     TasksController.crCompletedDate := Some (utc 2024 5 1 9 0 0 0);
     TasksController.crRevisions :=
       Some [Some (utc 2024 5 1 8 59 59 999); Some (utc 2024 5 8 9 0 0 0)] |}.

(** The reminder job at 2024-06-15T00:30Z, six in the morning in
    Asia/Kolkata. *)
Definition sixInKolkata : Z := utc 2024 6 15 0 30 0 0.

Definition carol : ObjectId := 193%N.

Definition aliceUser : User :=
  {| user_id := alice; email := "alice@example.org";
     timezone := Some "Asia/Kolkata"; isVerified := true;
     emailNotifications := true |}.

Definition bobUser : User :=
  {| user_id := bob; email := "bob@example.org";
     timezone := None; isVerified := true; emailNotifications := true |}.

Definition carolUser : User :=
  {| user_id := carol; email := "carol@example.org";
     timezone := Some "Mars/Phobos"; isVerified := true;
     emailNotifications := true |}.

(** A task of [owner] completed on 2024-06-12 with one pending revision
    on 2024-06-15. *)
Definition juneTask (id : N) (owner : ObjectId) : Task :=
  {| task_id := id; user := owner; title := "Measure theory";
     notes := None;
     completedDate := Some (utc 2024 6 12 0 0 0 0);
     revisions :=
       [ {| rev_id := (id + 1)%N;
            scheduledDate := Some (utc 2024 6 15 0 0 0 0);
            status := "pending"; sentReminder := false; completedAt := None;
            remindersSent := 0; lastReminderSent := None |} ];
     isArchived := false; createdAt := utc 2024 6 12 8 0 0 0;
     isNew := false |}.

Definition juneTasks : list Task :=
  [juneTask 256 alice; juneTask 512 bob; juneTask 768 carol].

(** The transport refuses what goes to Alice. *)
Definition notToAlice (m : Mail) : bool :=
  negb (mailTo m =? "alice@example.org").

(** The database answers the first call of the run and no other. *)
Definition envDbLost (host : Zone) (now : Z) : Env :=
  {| hostZone := host; tzdb := sampleTzdb; clock := fun _ => now;
     dbUp := fun k => Nat.eqb k 0; smtp := fun _ => true |}.



Definition postponeRequest : TasksController.RevisionRequest :=
  {| TasksController.rrId := taskHex;
     TasksController.rrRevisionId := revHex;
     TasksController.rrUser := alice;
     TasksController.rrStatus := Some "postponed";
     TasksController.rrNewDate := None |}.

End Sample.

(* ===================================================================== *)
(** * models/Task.js: virtuals, day queries *)
(* ===================================================================== *)

Module TaskQueries.

#[local] Open Scope string_scope.

(** [a < b] on two [Date] objects. *)
Definition date_lt (a b : Date) : bool :=
  match a, b with
  | Some x, Some y => (x <? y)%Z
  | _, _ => false
  end.

Definition isPending (r : Revision) : bool := status r =? "pending".

(** The virtuals [totalRevisions], [pendingRevisions],
    [upcomingRevisions] and [overdueRevisions]; the last two read the
    clock. *)
Definition totalRevisions (this : Task) : nat :=
  List.length (revisions this).

Definition pendingRevisions (this : Task) : list Revision :=
  filter isPending (revisions this).

Definition upcomingRevisions (env : Env) (this : Task) : M (list Revision) :=
  now <- newDate env ;;
  ret (filter (fun r => isPending r
                        && date_geb (scheduledDate r) (Some now))
              (revisions this)).

Definition overdueRevisions (env : Env) (this : Task) : M (list Revision) :=
  now <- newDate env ;;
  ret (filter (fun r => isPending r
                        && date_lt (scheduledDate r) (Some now))
              (revisions this)).

(** [task.getRevisionsDue(date)]: the pending revisions of the host's
    local day of [date]. *)
Definition getRevisionsDue (env : Env) (date : Date) (this : Task)
    : list Revision :=
  let targetDate := date in
  let startOfDay := setHours (hostZone env) targetDate 0 0 0 0 in
  let endOfDay := setHours (hostZone env) targetDate 23 59 59 999 in
  filter (fun revision =>
            let revisionDate := scheduledDate revision in
            date_geb revisionDate startOfDay
            && date_leb revisionDate endOfDay
            && (status revision =? "pending"))
         (revisions this).

(** [date.toISOString()]: a RangeError on an invalid date.  Only whether
    it throws matters here, the text goes to the log. *)
Definition toISOString (d : Date) : M unit :=
  match d with
  | Some _ => ret tt
  | None => throw (RangeError "Invalid time value")
  end.

(** [Task.findRevisionsDueOnDate(userId, date)]: the pipeline of the
    reminder job, run on the UTC day of [date].  The bounds are logged
    with [toISOString] before the query is made. *)
Definition findRevisionsDueOnDate (env : Env) (userId : ObjectId)
    (date : Date) : M (list (Task * Revision)) :=
  let targetDate := date in
  let startOfDay := setUTCHours targetDate 0 0 0 0 in
  let endOfDay := setUTCHours targetDate 23 59 59 999 in
  toISOString targetDate ;;;
  toISOString startOfDay ;;;
  toISOString endOfDay ;;;
  dbCall env (fun w =>
    Ok (CronService.dueItems userId startOfDay endOfDay (tasksColl w))).

End TaskQueries.

(* ===================================================================== *)
(** * controllers/tasksController.js: reading, archiving, deleting *)
(* ===================================================================== *)

Module TaskAdmin.

Import TaskModel TasksController.

#[local] Open Scope string_scope.

Record TaskRequest : Type := mkTaskRequest {
  trId : string;                      (* req.params.id *)
  trUser : ObjectId;                  (* req.user._id *)
  trArchived : option bool            (* req.body.archived *)
}.

Definition getTask (env : Env) (req : TaskRequest) : M Reply :=
  catch
    (found <- findOne env (trId req) (trUser req) ;;
     match found with
     | None => ret (Json 404 (Failure "Task not found"))
     | Some task => ret (Json 200 (Success task))
     end)
    (fun error => ret (Next error)).

Definition setArchived (t : Task) (b : bool) : Task :=
  {| task_id := task_id t; user := user t; title := title t;
     notes := notes t; completedDate := completedDate t;
     revisions := revisions t; isArchived := b;
     createdAt := createdAt t; isNew := isNew t |}.

(** Rewriting the first document a filter selects. *)
Fixpoint updateFirst (p : Task -> bool) (f : Task -> Task) (ts : list Task)
    : list Task :=
  match ts with
  | [] => []
  | t :: rest => if p t then f t :: rest else t :: updateFirst p f rest
  end.

(** [Task.findOneAndUpdate({ _id, user }, update, { new: true })]: no
    validation, no hook; the updated document comes back.  (The write
    also renews the time stamp [updatedAt], which [Task] does not
    carry.) *)
Definition findOneAndUpdate (env : Env) (id : string) (userId : ObjectId)
    (update : Task -> Task) : M (option Task) :=
  match newObjectId id with
  | Throw _ => throw (CastError "_id")
  | Ok oid =>
      let selects t := N.eqb (task_id t) oid && N.eqb (user t) userId in
      found <- dbCall env (fun w => Ok (find selects (tasksColl w))) ;;
      match found with
      | None => ret None
      | Some t =>
          fun w =>
            (Ok (Some (markStored (update t))),
             {| ticks := ticks w; dbCalls := dbCalls w; nextId := nextId w;
                tasksColl := updateFirst selects update (tasksColl w);
                usersColl := usersColl w; outbox := outbox w |})
      end
  end.

Definition archiveTask (env : Env) (req : TaskRequest) : M Reply :=
  catch
    (let archived := match trArchived req with
                     | Some b => b
                     | None => true
                     end in
     task <- findOneAndUpdate env (trId req) (trUser req)
               (fun t => setArchived t archived) ;;
     match task with
     | None => ret (Json 404 (Failure "Task not found"))
     | Some task => ret (Json 200 (Success task))
     end)
    (fun error => ret (Next error)).

(** What [deleteTask] answers: [{ success, error }], [{ success,
    message }], or [next(error)]. *)
Inductive Ack : Type :=
| AckJson (code : Z) (success : bool) (text : string)
| AckNext (e : Error).

(** Removing the first document with an [_id]. *)
Fixpoint removeFirst (id : ObjectId) (ts : list Task) : list Task :=
  match ts with
  | [] => []
  | t :: rest => if N.eqb (task_id t) id then rest
                 else t :: removeFirst id rest
  end.

(** [task.deleteOne()]. *)
Definition deleteOne (env : Env) (this : Task) : M unit :=
  ts <- dbCall env (fun w => Ok (tasksColl w)) ;;
  setTasks (removeFirst (task_id this) ts).

Definition deleteTask (env : Env) (req : TaskRequest) : M Ack :=
  catch
    (found <- findOne env (trId req) (trUser req) ;;
     match found with
     | None => ret (AckJson 404 false "Task not found")
     | Some task =>
         deleteOne env task ;;;
         ret (AckJson 200 true "Task deleted successfully")
     end)
    (fun error => ret (AckNext error)).

End TaskAdmin.

(* ===================================================================== *)
(** * Regular expressions *)
(* ===================================================================== *)

Module RegExp.

#[local] Open Scope string_scope.

(** The fragment of the pattern language the schemas use: character
    classes, sequence, alternative and repetition. *)
Inductive RegExp : Type :=
| Never                               (* matches nothing *)
| Empty                               (* the empty string *)
| Class (p : ascii -> bool)           (* one character of a class *)
| Cat (r s : RegExp)
| Or (r s : RegExp)
| Star (r : RegExp).

(** [r+] and a literal character. *)
Definition Plus (r : RegExp) : RegExp := Cat r (Star r).
Definition Lit (c : ascii) : RegExp := Class (Ascii.eqb c).

(** What it means for a pattern to match a whole string. *)
Inductive Matches : RegExp -> string -> Prop :=
| MEmpty : Matches Empty ""
| MClass p c : p c = true -> Matches (Class p) (String c "")
| MCat r s a b : Matches r a -> Matches s b -> Matches (Cat r s) (a ++ b)
| MOrL r s a : Matches r a -> Matches (Or r s) a
| MOrR r s a : Matches s a -> Matches (Or r s) a
| MStarNil r : Matches (Star r) ""
| MStarCons r a b :
    Matches r a -> Matches (Star r) b -> Matches (Star r) (a ++ b).

(** The matcher, by derivatives. *)
Fixpoint nullable (r : RegExp) : bool :=
  match r with
  | Never => false
  | Empty => true
  | Class _ => false
  | Cat r s => nullable r && nullable s
  | Or r s => nullable r || nullable s
  | Star _ => true
  end.

Fixpoint deriv (c : ascii) (r : RegExp) : RegExp :=
  match r with
  | Never => Never
  | Empty => Never
  | Class p => if p c then Empty else Never
  | Cat r s =>
      if nullable r then Or (Cat (deriv c r) s) (deriv c s)
      else Cat (deriv c r) s
  | Or r s => Or (deriv c r) (deriv c s)
  | Star r => Cat (deriv c r) (Star r)
  end.

(** [/^r$/.test(s)]. *)
Fixpoint test (r : RegExp) (s : string) : bool :=
  match s with
  | EmptyString => nullable r
  | String c s' => test (deriv c r) s'
  end.

(** Every character of a string is in a class. *)
Fixpoint every (p : ascii -> bool) (s : string) : bool :=
  match s with
  | EmptyString => true
  | String c s' => p c && every p s'
  end.

End RegExp.

(* ===================================================================== *)
(** * models/User.js *)
(* ===================================================================== *)

Module UserModel.

Import RegExp.

#[local] Open Scope string_scope.

(** ** The validators of [email] and [timezone] *)

Definition inRange (lo hi : N) (c : ascii) : bool :=
  ((lo <=? N_of_ascii c) && (N_of_ascii c <=? hi))%N.

(** [[A-Za-z_]]. *)
Definition isWordChar (c : ascii) : bool :=
  inRange 65 90 c || inRange 97 122 c || Ascii.eqb c "_"%char.

(** [/^[A-Za-z_]+\/[A-Za-z_]+$/]. *)
Definition areaCityPattern : RegExp :=
  Cat (Plus (Class isWordChar))
      (Cat (Lit "/"%char) (Plus (Class isWordChar))).

Definition validTimezones : list string :=
  [ "UTC";
    "Asia/Kolkata";
    "America/New_York";
    "America/Los_Angeles";
    "America/Chicago";
    "America/Denver";
    "Europe/London";
    "Europe/Paris";
    "Europe/Berlin";
    "Asia/Tokyo";
    "Asia/Shanghai";
    "Asia/Dubai";
    "Australia/Sydney";
    "Australia/Melbourne";
    "Asia/Singapore";
    "Asia/Hong_Kong" ].

(** The validator of the [timezone] path:
    [validTimezones.includes(v) || pattern.test(v)]. *)
Definition timezoneValidator (v : string) : bool :=
  existsb (String.eqb v) validTimezones || test areaCityPattern v.

(** [[^\s@]], for ASCII text: not a blank (tab, line feed, vertical tab,
    form feed, carriage return, space) and not the at sign. *)
Definition isNotSpaceOrAt (c : ascii) : bool :=
  negb (inRange 9 13 c || Ascii.eqb c " "%char || Ascii.eqb c "@"%char).

(** [/^[^\s@]+@[^\s@]+\.[^\s@]+$/], the [match] of the [email] path. *)
Definition emailPattern : RegExp :=
  Cat (Plus (Class isNotSpaceOrAt))
      (Cat (Lit "@"%char)
           (Cat (Plus (Class isNotSpaceOrAt))
                (Cat (Lit "."%char) (Plus (Class isNotSpaceOrAt))))).

(** ** Refresh tokens and login attempts

    The fields of a user document that the methods below read and
    write. *)
Record RefreshToken : Type := mkRefreshToken {
  token : string;
  tokenCreatedAt : Z;                 (* createdAt *)
  userAgent : option string;
  ipAddress : option string
}.

Record UserDoc : Type := mkUserDoc {
  refreshTokens : list RefreshToken;
  loginAttempts : Z;
  lockUntil : option Z                (* None: the field is absent *)
}.

Definition setRefreshTokens (this : UserDoc) (l : list RefreshToken)
    : UserDoc :=
  {| refreshTokens := l; loginAttempts := loginAttempts this;
     lockUntil := lockUntil this |}.

(** [l.slice(-n)]: the last [n] elements. *)
Definition sliceLast {A} (n : nat) (l : list A) : list A :=
  skipn (List.length l - n) l.

Definition addRefreshToken (env : Env) (token : string)
    (userAgent ipAddress : option string) (this : UserDoc) : M UserDoc :=
  let this :=
    if (5 <=? List.length (refreshTokens this))%nat
    then setRefreshTokens this (sliceLast 4 (refreshTokens this))
    else this in
  now <- newDate env ;;
  ret (setRefreshTokens this
         (refreshTokens this
          ++ [ {| token := token; tokenCreatedAt := now;
                  userAgent := userAgent; ipAddress := ipAddress |} ])%list).

Definition removeRefreshToken (token_ : string) (this : UserDoc) : UserDoc :=
  setRefreshTokens this
    (filter (fun rt => negb (token rt =? token_)) (refreshTokens this)).

Definition clearAllRefreshTokens (this : UserDoc) : UserDoc :=
  setRefreshTokens this [].

(** [user.refreshTokens.some(rt => rt.token === refreshToken)], the test
    of the [refresh] handler. *)
Definition hasRefreshToken (refreshToken : string) (this : UserDoc) : bool :=
  existsb (fun rt => token rt =? refreshToken) (refreshTokens this).

(** The virtual [isLocked]: [!!(this.lockUntil && this.lockUntil >
    Date.now())]; the clock is read only when the field is there. *)
Definition isLocked (env : Env) (this : UserDoc) : M bool :=
  match lockUntil this with
  | None => ret false
  | Some l => now <- newDate env ;; ret (now <? l)%Z
  end.

(** The three update documents the methods hand to [updateOne]. *)
Inductive Update : Type :=
| RestartAtOne                   (* $unset lockUntil, $set loginAttempts: 1 *)
| Increment (lock : option Z)    (* $inc loginAttempts: 1 [, $set lockUntil] *)
| ClearAttempts.                 (* $unset loginAttempts and lockUntil *)

(** What the update does to the stored document; a document read back
    without [loginAttempts] gets the schema's default, 0. *)
Definition applyUpdate (u : Update) (stored : UserDoc) : UserDoc :=
  match u with
  | RestartAtOne =>
      {| refreshTokens := refreshTokens stored; loginAttempts := 1;
         lockUntil := None |}
  | Increment lock =>
      {| refreshTokens := refreshTokens stored;
         loginAttempts := loginAttempts stored + 1;
         lockUntil := match lock with
                      | Some l => Some l
                      | None => lockUntil stored
                      end |}
  | ClearAttempts =>
      {| refreshTokens := refreshTokens stored; loginAttempts := 0;
         lockUntil := None |}
  end.

(** [this.updateOne(update)]: a database call; the document in memory
    stays as it is, the stored one changes. *)
Definition updateOne (env : Env) (u : Update) (stored : UserDoc) : M UserDoc :=
  dbCall env (fun _ => Ok (applyUpdate u stored)).

Definition incLoginAttempts (env : Env) (this : UserDoc) : M UserDoc :=
  let maxAttempts := 5 in
  let lockTime := 2 * 60 * 60 * 1000 in
  expired <- match lockUntil this with
             | None => ret false
             | Some l => now <- newDate env ;; ret (l <? now)%Z
             end ;;
  if expired then updateOne env RestartAtOne this
  else
    reached <- (if (maxAttempts <=? loginAttempts this + 1)%Z
                then locked <- isLocked env this ;; ret (negb locked)
                else ret false) ;;
    if reached then
      now <- newDate env ;;
      updateOne env (Increment (Some (now + lockTime))) this
    else updateOne env (Increment None) this.

Definition resetLoginAttempts (env : Env) (this : UserDoc) : M UserDoc :=
  updateOne env ClearAttempts this.

End UserModel.

(* ===================================================================== *)
(** * controllers/authController.js: the lock and the refresh token *)
(* ===================================================================== *)

Module AuthController.

Import UserModel.

#[local] Open Scope string_scope.

(** How the part of a handler modelled here ends: with a response, or
    by going on to what follows it. *)
Inductive Gate : Type :=
| Respond (code : Z) (error : string)
| Proceed.

(** [login], from the lock check to the reset of the attempts, for a
    user that was found; [isPasswordValid] is what [comparePassword]
    answered.  The second component is the stored document afterwards. *)
Definition loginGate (env : Env) (isPasswordValid : bool) (user : UserDoc)
    : M (Gate * UserDoc) :=
  locked <- isLocked env user ;;
  if locked then
    ret (Respond 423
           "Account temporarily locked due to too many failed login attempts",
         user)
  else if negb isPasswordValid then
    stored <- incLoginAttempts env user ;;
    ret (Respond 401 "Invalid credentials", stored)
  else
    stored <- resetLoginAttempts env user ;;
    ret (Proceed, stored).

(** From config/jwt.js.  [jwt.sign(payload, secret, { expiresIn })]
    makes the token out of the payload, which is the user's [_id] and
    [email], the secret, and the second of the clock at which it signs
    (the claim [iat], and [exp] that follows from it); nothing else goes
    into it.  [sign secret iat] stands for the token of the user at
    hand. *)
Inductive Secret : Type := JWT_SECRET | JWT_REFRESH_SECRET.

Definition Signer : Type := Secret -> Z -> string.

Definition jwtSign (sign : Signer) (env : Env) (secret : Secret) : M string :=
  now <- newDate env ;;
  ret (sign secret (now / 1000)%Z).

Definition generateAccessToken (sign : Signer) (env : Env) : M string :=
  jwtSign sign env JWT_SECRET.

Definition generateRefreshToken (sign : Signer) (env : Env) : M string :=
  jwtSign sign env JWT_REFRESH_SECRET.

(** [generateTokens(user)]: the access token, then the refresh token. *)
Definition generateTokens (sign : Signer) (env : Env) : M (string * string) :=
  accessToken <- generateAccessToken sign env ;;
  refreshToken <- generateRefreshToken sign env ;;
  ret (accessToken, refreshToken).

(** [refresh], from the token test to the new token being put in the
    document, for a user that was found and a token whose signature
    verified. *)
Definition refreshGate (sign : Signer) (env : Env) (refreshToken : string)
    (userAgent ipAddress : option string) (user : UserDoc)
    : M (Gate * UserDoc) :=
  if negb (hasRefreshToken refreshToken user) then
    ret (Respond 401 "Invalid refresh token", user)
  else
    let user := removeRefreshToken refreshToken user in
    tokens <- generateTokens sign env ;;
    user <- addRefreshToken env (snd tokens) userAgent ipAddress user ;;
    ret (Proceed, user).

(** Logins with a wrong password, one after the other, each on the
    document the one before left in the store. *)
Fixpoint failedLogins (env : Env) (k : nat) (user : UserDoc)
    : M (list Gate * UserDoc) :=
  match k with
  | O => ret ([], user)
  | S k' =>
      r <- loginGate env false user ;;
      rest <- failedLogins env k' (snd r) ;;
      ret (fst r :: fst rest, snd rest)
  end.

End AuthController.

(* ===================================================================== *)
(** * utils/timezoneUtils.js: the supported zones, conversion *)
(* ===================================================================== *)

Module TimezoneTools.

Import TimezoneUtils.

#[local] Open Scope string_scope.

Record TimezoneInfo : Type := mkTimezoneInfo {
  tzValue : string;                   (* value *)
  tzLabel : string;                   (* label *)
  tzCountry : string;                 (* country *)
  tzUtcOffset : string                (* utcOffset *)
}.

Definition SUPPORTED_TIMEZONES : list TimezoneInfo :=
  [ mkTimezoneInfo "Asia/Kolkata" "India Standard Time (IST)" "India"
      "+05:30";
    mkTimezoneInfo "UTC" "Coordinated Universal Time (UTC)" "International"
      "+00:00";
    mkTimezoneInfo "America/New_York" "Eastern Time (ET)" "USA"
      "-05:00/-04:00";
    mkTimezoneInfo "America/Los_Angeles" "Pacific Time (PT)" "USA"
      "-08:00/-07:00";
    mkTimezoneInfo "America/Chicago" "Central Time (CT)" "USA"
      "-06:00/-05:00";
    mkTimezoneInfo "America/Denver" "Mountain Time (MT)" "USA"
      "-07:00/-06:00";
    mkTimezoneInfo "Europe/London" "Greenwich Mean Time (GMT)" "UK"
      "+00:00/+01:00";
    mkTimezoneInfo "Europe/Paris" "Central European Time (CET)" "France"
      "+01:00/+02:00";
    mkTimezoneInfo "Europe/Berlin" "Central European Time (CET)" "Germany"
      "+01:00/+02:00";
    mkTimezoneInfo "Asia/Tokyo" "Japan Standard Time (JST)" "Japan"
      "+09:00";
    mkTimezoneInfo "Asia/Shanghai" "China Standard Time (CST)" "China"
      "+08:00";
    mkTimezoneInfo "Asia/Dubai" "Gulf Standard Time (GST)" "UAE" "+04:00";
    mkTimezoneInfo "Australia/Sydney" "Australian Eastern Time (AET)"
      "Australia" "+10:00/+11:00";
    mkTimezoneInfo "Australia/Melbourne" "Australian Eastern Time (AET)"
      "Australia" "+10:00/+11:00";
    mkTimezoneInfo "Asia/Singapore" "Singapore Standard Time (SST)"
      "Singapore" "+08:00";
    mkTimezoneInfo "Asia/Hong_Kong" "Hong Kong Time (HKT)" "Hong Kong"
      "+08:00" ].

(** [SUPPORTED_TIMEZONES.find(tz => tz.value === timezone) || null]. *)
Definition getTimezoneInfo (timezone : string) : option TimezoneInfo :=
  find (fun tz => tzValue tz =? timezone) SUPPORTED_TIMEZONES.

Definition isValidTimezone (timezone : string) : bool :=
  existsb (fun tz => tzValue tz =? timezone) SUPPORTED_TIMEZONES.

(** [convertTimezone(date, fromTimezone, toTimezone)]: the date is
    printed in UTC and read back, then printed in the target zone and
    read back; [fromTimezone] is not used. *)
Definition convertTimezone (env : Env) (date : Date)
    (fromTimezone toTimezone : string) : Result Date :=
  match toLocaleString env date "UTC" with
  | Throw e => Throw e
  | Ok s =>
      let utcDate := parseDate env s in
      match toLocaleString env utcDate toTimezone with
      | Throw e => Throw e
      | Ok s' => Ok (parseDate env s')
      end
  end.

End TimezoneTools.

(* ===================================================================== *)
(** * utils/calendarUtils.js *)
(* ===================================================================== *)

Module CalendarUtils.

(** Common spaced repetition intervals (in days). *)
Definition spacingIntervals : list Z := [1; 3; 7; 14; 30; 90; 180; 365]%Z.

(** [calculateRevisionDates(completedDate, intervals)] for a whole
    number of intervals: the loop runs
    [Math.min(intervals, spacingIntervals.length)] times, not at all when
    that is not positive. *)
Definition calculateRevisionDates (env : Env) (completedDate : Date)
    (intervals : Z) : list Date :=
  let baseDate := completedDate in
  map (fun days =>
         let revisionDate := baseDate in
         setDate (hostZone env) revisionDate
           (option_map (fun d => d + days)%Z
              (getDate (hostZone env) revisionDate)))
      (firstn (Z.to_nat (Z.min intervals
                           (Z.of_nat (List.length spacingIntervals))))
              spacingIntervals).

(** The reading of the function's doc comment: [completedDate] moved by
    the first intervals, in days. *)
Definition spacedDates (c : Z) (n : nat) : list Date :=
  map (fun days => Some (c + days * msPerDay)%Z) (firstn n spacingIntervals).

End CalendarUtils.

(* ===================================================================== *)
(** * utils/dbUtils.js *)
(* ===================================================================== *)

Module DbUtils.

Import RegExp.

#[local] Open Scope string_scope.

(** What the three functions return.  [success] is [true] for
    [Cleared], [Done] and [Restored] only. *)
Inductive Outcome : Type :=
| Refused (message : string)          (* a safety check said no *)
| Failed (message : string)           (* the [catch] ran *)
| Cleared (details : list (string * option nat)) (totalDeleted : nat)
| Done (message : string) (user : User)
| Partial (message : string)          (* cleared, but no admin *)
| Restored (cleared : Outcome) (admin : Outcome).

Definition succeeded (o : Outcome) : bool :=
  match o with
  | Cleared _ _ | Done _ _ | Restored _ _ => true
  | _ => false
  end.

Definition adminEmail : string := "admin@gmail.com".

(** [adminUser.save()]: the document validates (the e-mail address
    against its pattern, the time zone against its validator), then it
    is inserted.  It is called only after no user with this address was
    found, so the unique index on [email] does not come into play. *)
Definition saveUser (env : Env) (u : User) : M User :=
  if test UserModel.emailPattern (email u)
     && match timezone u with
        | Some tz => UserModel.timezoneValidator tz
        | None => true
        end
  then
    dbCall env (fun _ => Ok tt) ;;;
    (fun w => (Ok u,
               {| ticks := ticks w; dbCalls := dbCalls w;
                  nextId := nextId w; tasksColl := tasksColl w;
                  usersColl := (usersColl w ++ [u])%list;
                  outbox := outbox w |}))
  else throw (ValidationError ["User validation failed"]).

Definition createDefaultAdmin (env : Env) : M Outcome :=
  catch
    (existingAdmin <-
       dbCall env (fun w =>
         Ok (find (fun u => email u =? adminEmail) (usersColl w))) ;;
     match existingAdmin with
     | Some existingAdmin =>
         ret (Done "Admin user already exists" existingAdmin)
     | None =>
         id <- freshId ;;
         let adminUser :=
           {| user_id := id; email := adminEmail; timezone := Some "UTC";
              isVerified := true; emailNotifications := true |} in
         savedUser <- saveUser env adminUser ;;
         ret (Done "Admin user created successfully" savedUser)
     end)
    (fun _ => ret (Failed "Failed to create admin user")).

(** What [listCollections] answers: the two collections of the models,
    taken in this order. *)
Definition collectionNames : list string := ["users"; "tasks"].

(** [db.collection(name).deleteMany({})]: the number of documents that
    were there. *)
Definition deleteMany (env : Env) (name : string) : M nat :=
  n <- dbCall env (fun w =>
         Ok (if name =? "users" then List.length (usersColl w)
             else if name =? "tasks" then List.length (tasksColl w)
             else 0%nat)) ;;
  (fun w => (Ok n,
             {| ticks := ticks w; dbCalls := dbCalls w; nextId := nextId w;
                tasksColl := if name =? "tasks" then [] else tasksColl w;
                usersColl := if name =? "users" then [] else usersColl w;
                outbox := outbox w |})).

Definition totalOf (details : list (string * option nat)) : nat :=
  fold_left (fun sum result =>
               (sum + match snd result with Some n => n | None => 0 end)%nat)
            details 0%nat.

(** [nodeEnv] is [process.env.NODE_ENV]. *)
Definition clearDatabase (env : Env) (nodeEnv : string) (confirmClear : bool)
    : M Outcome :=
  if negb confirmClear then
    ret (Refused "Database clear operation requires explicit confirmation. Pass confirmClear: true to proceed.")
  else if nodeEnv =? "production" then
    ret (Refused "Database clearing is not allowed in production environment")
  else
    catch
      (names <- dbCall env (fun _ => Ok collectionNames) ;;
       clearResults <-
         TasksController.mapM
           (fun collectionName =>
              catch (n <- deleteMany env collectionName ;;
                     ret (collectionName, Some n))
                    (fun _ => ret (collectionName, None)))
           names ;;
       ret (Cleared clearResults (totalOf clearResults)))
      (fun _ => ret (Failed "Failed to clear database")).

Definition resetDatabaseToDefault (env : Env) (nodeEnv : string)
    (confirmReset : bool) : M Outcome :=
  if negb confirmReset then
    ret (Refused "Database reset operation requires explicit confirmation. Pass confirmReset: true to proceed.")
  else
    catch
      (clearResult <- clearDatabase env nodeEnv true ;;
       if negb (succeeded clearResult) then ret clearResult
       else
         adminResult <- createDefaultAdmin env ;;
         if negb (succeeded adminResult) then
           ret (Partial "Database cleared but failed to create admin user")
         else ret (Restored clearResult adminResult))
      (fun _ => ret (Failed "Failed to reset database")).

End DbUtils.

(** The world after one more database call. *)
Definition called (w : World) : World :=
  {| ticks := ticks w; dbCalls := S (dbCalls w); nextId := nextId w;
     tasksColl := tasksColl w; usersColl := usersColl w;
     outbox := outbox w |}.

(** A signer to run the model on: the token spells the secret it was
    signed with and the second it was signed in. *)
Definition sampleSigner : AuthController.Signer :=
  fun secret iat =>
    ((match secret with
      | AuthController.JWT_SECRET => "access."
      | AuthController.JWT_REFRESH_SECRET => "refresh."
      end) ++ NilZero.string_of_int (Z.to_int iat))%string.

(** The users the reminder job finds: verified, with reminders switched
    on, in the order of the collection. *)
Definition eligibleUsers (w : World) : list User :=
  filter (fun u => isVerified u && emailNotifications u) (usersColl w).

(** [x] is what the pipeline of the reminder job makes of a pending
    revision of one of the tasks of [userId] that are not archived. *)
Definition ownPendingRevision (tasks : list Task) (userId : ObjectId)
    (x : DueRevision) : Prop :=
  exists t r,
    In t tasks /\ user t = userId /\ isArchived t = false
    /\ In r (revisions t) /\ status r = "pending"%string
    /\ x = CronService.toDueRevision (t, r).

(* ===================================================================== *)
(** * Calendar arithmetic *)
(* ===================================================================== *)

#[local] Close Scope string_scope.
#[local] Open Scope Z_scope.

Section Calendar.

Example utc_2024_01_10 : utc 2024 1 10 0 0 0 0 = 1704844800000.
Proof. reflexivity. Qed.

(** The calendar fields at the two ends of the range of [Date], on the
    last day of 1969 and on a leap day. *)
Example calendar_fields :
  (YearFromTime maxTime, MonthFromTime maxTime, DateFromTime maxTime) 
  = (275760, 8, 13)
  /\ (YearFromTime (- maxTime), MonthFromTime (- maxTime),
      DateFromTime (- maxTime)) = (-271821, 3, 20)
  /\ (YearFromTime (-1), MonthFromTime (-1), DateFromTime (-1),
      HourFromTime (-1), MinFromTime (-1), SecFromTime (-1), msFromTime (-1))
     = (1969, 11, 31, 23, 59, 59, 999)
  /\ (YearFromTime (utc 2024 2 29 12 0 0 0),
      MonthFromTime (utc 2024 2 29 12 0 0 0),
      DateFromTime (utc 2024 2 29 12 0 0 0)) = (2024, 1, 29).
Proof. repeat split; vm_compute; reflexivity. Qed.

Lemma yearDown_bounds fuel :
  forall y d,
    d < DayFromYear (y + 1) ->
    DayFromYear (y - Z.of_nat fuel) <= d ->
    DayFromYear (yearDown fuel y d) <= d
    < DayFromYear (yearDown fuel y d + 1).
Proof.
  induction fuel as [| fuel IH]; intros y d Hup Hlow.
  - simpl. replace (y - Z.of_nat 0) with y in Hlow by lia. lia.
  - simpl yearDown. destruct (Z.leb_spec (DayFromYear y) d) as [Hle | Hgt].
    + lia.
    + apply IH.
      * now replace (y - 1 + 1) with y by lia.
      * now replace (y - 1 - Z.of_nat fuel) with (y - Z.of_nat (S fuel))
          by lia.
Qed.

Lemma yearAbove_bound d : d < DayFromYear (yearAbove d + 1).
Proof.
  unfold yearAbove, DayFromYear. Z.div_mod_to_equations. lia.
Qed.

Lemma yearFuel_bound d :
  DayFromYear (yearAbove d - Z.of_nat (yearFuel d)) <= d.
Proof.
  unfold yearFuel. rewrite Z2Nat.id by (Z.div_mod_to_equations; lia).
  unfold yearAbove, DayFromYear. Z.div_mod_to_equations. lia.
Qed.

(** The search finds the year of the time value: the year whose first
    instant is the last one not after [t]. *)
Lemma YearFromTime_bounds t :
  TimeFromYear (YearFromTime t) <= t < TimeFromYear (YearFromTime t + 1).
Proof.
  pose proof (yearDown_bounds (yearFuel (Day t)) (yearAbove (Day t)) (Day t)
                (yearAbove_bound _) (yearFuel_bound _)) as H.
  fold (YearFromTime t) in H.
  unfold TimeFromYear. unfold Day, msPerDay in *.
  Z.div_mod_to_equations. lia.
Qed.

Lemma DayFromYear_step y : DayFromYear (y + 1) = DayFromYear y + DaysInYear y.
Proof.
  unfold DayFromYear, DaysInYear.
  repeat match goal with
         | |- context [?a =? ?b] => destruct (Z.eqb_spec a b)
         end; simpl negb; cbv iota; Z.div_mod_to_equations; lia.
Qed.

Lemma DayWithinYear_range t :
  0 <= DayWithinYear t < DaysInYear (YearFromTime t).
Proof.
  pose proof (yearDown_bounds (yearFuel (Day t)) (yearAbove (Day t)) (Day t)
                (yearAbove_bound _) (yearFuel_bound _)) as H.
  fold (YearFromTime t) in H. rewrite DayFromYear_step in H.
  unfold DayWithinYear. lia.
Qed.

Lemma MonthFromTime_range t : 0 <= MonthFromTime t <= 11.
Proof.
  unfold MonthFromTime.
  repeat match goal with
         | |- context [if ?b then _ else _] => destruct b
         end; lia.
Qed.

Lemma DateFromTime_monthStart t :
  DateFromTime t
  = DayWithinYear t + 1 - monthStart (InLeapYear t) (MonthFromTime t).
Proof.
  unfold DateFromTime.
  pose proof (MonthFromTime_range t) as Hm.
  revert Hm. generalize (MonthFromTime t) as m.
  intros m Hm.
  assert (m = 0 \/ m = 1 \/ m = 2 \/ m = 3 \/ m = 4 \/ m = 5 \/ m = 6
          \/ m = 7 \/ m = 8 \/ m = 9 \/ m = 10 \/ m = 11) as Hcases by lia.
  unfold monthStart.
  repeat (destruct Hcases as [Hcase | Hcases]; [subst m; lia | ]).
  subst m. lia.
Qed.

(** Moving the day of the month moves the day number by as much: the
    month lengths cancel. *)
Lemma MakeDay_same_month t dt :
  MakeDay (YearFromTime t) (MonthFromTime t) dt
  = Day t + (dt - DateFromTime t).
Proof.
  pose proof (MonthFromTime_range t) as Hm.
  unfold MakeDay.
  rewrite (Z.div_small (MonthFromTime t) 12) by lia.
  rewrite (Z.mod_small (MonthFromTime t) 12) by lia.
  rewrite Z.add_0_r.
  rewrite DateFromTime_monthStart.
  change (if DaysInYear (YearFromTime t) =? 366 then 1 else 0)
    with (InLeapYear t).
  unfold DayWithinYear. lia.
Qed.

Lemma MakeDate_Day_TimeWithinDay t k :
  MakeDate (Day t + k) (TimeWithinDay t) = t + k * msPerDay.
Proof.
  unfold MakeDate, Day, TimeWithinDay.
  pose proof (Z.div_mod t msPerDay) as H.
  assert (msPerDay <> 0) as Hnz by (unfold msPerDay; lia).
  specialize (H Hnz). lia.
Qed.

Lemma Day_add_days t k : Day (t + k * msPerDay) = Day t + k.
Proof.
  unfold Day. apply Z.div_add. unfold msPerDay. lia.
Qed.

(** [setUTCDate(getUTCDate() + k)] moves a date by [k] whole days. *)
Lemma setUTCDate_shift t k :
  setUTCDate (Some t) (option_map (fun d => d + k) (getUTCDate (Some t)))
  = TimeClip (t + k * msPerDay).
Proof.
  simpl. rewrite MakeDay_same_month.
  replace (DateFromTime t + k - DateFromTime t) with k by lia.
  now rewrite MakeDate_Day_TimeWithinDay.
Qed.

(** [setDate(getDate() + k)] moves the host's wall clock by [k] days. *)
Lemma setDate_shift host u k :
  setDate host (Some u) (option_map (fun d => d + k) (getDate host (Some u)))
  = TimeClip (UTC host (LocalTime host u + k * msPerDay)).
Proof.
  simpl. rewrite MakeDay_same_month.
  replace (DateFromTime (LocalTime host u) + k
           - DateFromTime (LocalTime host u)) with k by lia.
  now rewrite MakeDate_Day_TimeWithinDay.
Qed.

Lemma TimeClip_in_range t :
  - maxTime <= t <= maxTime -> TimeClip t = Some t.
Proof.
  intros H. unfold TimeClip.
  destruct (Z.leb_spec (Z.abs t) maxTime); [reflexivity | lia].
Qed.

Lemma TimeClip_out_of_range t :
  maxTime < Z.abs t -> TimeClip t = None.
Proof.
  intros H. unfold TimeClip.
  destruct (Z.leb_spec (Z.abs t) maxTime); [lia | reflexivity].
Qed.

(** The start of the UTC day of [t] is a valid instant when [t] is. *)
Lemma day_start_in_range t :
  - maxTime <= t <= maxTime ->
  - maxTime <= Day t * msPerDay <= maxTime.
Proof.
  unfold Day, maxTime, msPerDay. intros H.
  pose proof (Z.div_mod t 86400000 ltac:(lia)) as Hdm.
  pose proof (Z.mod_pos_bound t 86400000 ltac:(lia)) as Hb.
  assert (-100000000 <= t / 86400000) by (apply Z.div_le_lower_bound; lia).
  lia.
Qed.

End Calendar.

(* ===================================================================== *)
(** * Revisions addressed by id *)
(* ===================================================================== *)

Section RevisionLookup.

Import TaskModel.

Lemma find_pointwise {A} (p q : A -> bool) l :
  (forall x, p x = q x) -> find p l = find q l.
Proof.
  intros H. induction l as [| a l IH]; simpl; [reflexivity |].
  rewrite H, IH. reflexivity.
Qed.

Lemma modifyFirst_pointwise (p q : Revision -> bool) f l :
  (forall x, p x = q x) -> modifyFirst p f l = modifyFirst q f l.
Proof.
  intros H. induction l as [| a l IH]; simpl; [reflexivity |].
  rewrite H, IH. reflexivity.
Qed.

Lemma modifyFirst_absent p f l :
  find p l = None -> modifyFirst p f l = l.
Proof.
  induction l as [| a l IH]; simpl; [reflexivity |].
  destruct (p a); [discriminate |].
  intros H. now rewrite IH.
Qed.

Lemma modifyFirst_length p f l :
  List.length (modifyFirst p f l) = List.length l.
Proof.
  induction l as [| a l IH]; simpl; [reflexivity |].
  destruct (p a); simpl; [reflexivity | now rewrite IH].
Qed.

Lemma modifyFirst_ids p f l :
  (forall r, rev_id (f r) = rev_id r) ->
  map rev_id (modifyFirst p f l) = map rev_id l.
Proof.
  intros Hf. induction l as [| a l IH]; simpl; [reflexivity |].
  destruct (p a); simpl; [now rewrite Hf | now rewrite IH].
Qed.

(** The element [find] returns is the one [modifyFirst] rewrites; all
    others stay. *)
Lemma modifyFirst_split p f l r :
  find p l = Some r ->
  exists l1 l2,
    l = l1 ++ r :: l2
    /\ forallb (fun x => negb (p x)) l1 = true
    /\ modifyFirst p f l = l1 ++ f r :: l2.
Proof.
  induction l as [| a l IH]; simpl; [discriminate |].
  destruct (p a) eqn:Hp.
  - intros [= ->]. exists [], l. simpl. auto.
  - intros H. destruct (IH H) as (l1 & l2 & -> & Hl1 & Hm).
    exists (a :: l1), l2. simpl. rewrite Hp, Hl1, Hm. auto.
Qed.

Lemma find_modifyFirst p f l r :
  find p l = Some r -> p (f r) = true ->
  find p (modifyFirst p f l) = Some (f r).
Proof.
  induction l as [| a l IH]; simpl; [discriminate |].
  destruct (p a) eqn:Hp.
  - intros [= ->] Hf. simpl. now rewrite Hf.
  - intros H Hf. simpl. rewrite Hp. now apply IH.
Qed.

Lemma find_some_holds {A} (p : A -> bool) l r :
  find p l = Some r -> p r = true.
Proof. intros H. now destruct (find_some _ _ H). Qed.

(** The argument [toIdArg] builds names the same revisions as the raw
    string does. *)
Lemma toIdArg_total revisionId :
  exists x, toIdArg revisionId = Ok x
            /\ castIdArg x = castObjectId revisionId.
Proof.
  unfold toIdArg, isValid, castObjectId, newObjectId.
  destruct (String.length revisionId =? 24)%nat eqn:Hlen; simpl.
  - destruct (hexValue 0%N revisionId) eqn:Hhex.
    + eexists. split; [reflexivity |]. simpl. reflexivity.
    + eexists. split; [reflexivity |]. simpl.
      unfold castObjectId, newObjectId. now rewrite Hlen, Hhex.
  - eexists. split; [reflexivity |]. simpl.
    unfold castObjectId, newObjectId. now rewrite Hlen.
Qed.

Lemma idMatches_cast x y r :
  castIdArg x = castIdArg y -> idMatches x r = idMatches y r.
Proof. unfold idMatches. now intros ->. Qed.

Lemma idMatches_setSchedule x d r :
  idMatches x (setSchedule d r) = idMatches x r.
Proof. reflexivity. Qed.

Lemma idMatches_setStatus x s a r :
  idMatches x (setStatus s a r) = idMatches x r.
Proof. reflexivity. Qed.

End RevisionLookup.

(* ===================================================================== *)
(** * Postponing a revision *)
(* ===================================================================== *)

Section Postpone.

Import TaskModel TasksController.

Lemma tomorrowOf_next_midnight d :
  - maxTime <= d -> d + msPerDay <= maxTime ->
  tomorrowOf (Some d) = Some (nextUTCMidnight d).
Proof.
  intros Hlo Hhi. unfold tomorrowOf.
  rewrite (setUTCDate_shift d 1).
  assert (0 < msPerDay) as Hpos by (unfold msPerDay; lia).
  rewrite TimeClip_in_range by lia.
  unfold setUTCHours. rewrite Day_add_days.
  unfold MakeDate, MakeTime, nextUTCMidnight, startOfUTCDay.
  pose proof (day_start_in_range (d + msPerDay)) as Hr.
  replace (d + msPerDay) with (d + 1 * msPerDay) in Hr by lia.
  rewrite Day_add_days in Hr.
  rewrite TimeClip_in_range by lia.
  f_equal. lia.
Qed.

(** Past the last day a [Date] can hold the method produces an invalid
    date. *)
Lemma tomorrowOf_overflow d :
  maxTime < d + msPerDay -> tomorrowOf (Some d) = None.
Proof.
  intros H. unfold tomorrowOf.
  rewrite (setUTCDate_shift d 1).
  assert (0 < msPerDay) as Hpos by (unfold msPerDay; lia).
  rewrite TimeClip_out_of_range by lia. reflexivity.
Qed.

Lemma postponeRevision_found this revisionId r :
  revisionsId (AsString revisionId) (revisions this) = Some r ->
  postponeRevision revisionId this
  = (Some {| success := true;
             newDate_ := tomorrowOf (scheduledDate r);
             nextInterval := 1 |},
     setRevisions this
       (modifyFirst (idMatches (AsString revisionId))
          (setSchedule (tomorrowOf (scheduledDate r))) (revisions this))).
Proof.
  intros Hfind. unfold postponeRevision.
  destruct (toIdArg_total revisionId) as (x & -> & Hx).
  assert (forall q, idMatches x q = idMatches (AsString revisionId) q) as Hext
    by (intros q; apply idMatches_cast; exact Hx).
  unfold revisionsId in *.
  rewrite (find_pointwise _ _ (revisions this) Hext), Hfind.
  now rewrite (modifyFirst_pointwise _ _ _ (revisions this) Hext).
Qed.

Lemma postponeRevision_absent this revisionId :
  revisionsId (AsString revisionId) (revisions this) = None ->
  postponeRevision revisionId this = (None, this).
Proof.
  intros Hfind. unfold postponeRevision.
  destruct (toIdArg_total revisionId) as (x & -> & Hx).
  assert (forall q, idMatches x q = idMatches (AsString revisionId) q) as Hext
    by (intros q; apply idMatches_cast; exact Hx).
  unfold revisionsId in *.
  now rewrite (find_pointwise _ _ (revisions this) Hext), Hfind.
Qed.

End Postpone.

Section PostponeHandler.

Import TaskModel TasksController.

Lemma save_clock_independent env c this w :
  isNew this = false ->
  save (withClock env c) this w = save env this w.
Proof.
  intros Hnew. unfold save, preSave. rewrite Hnew. simpl.
  destruct (validate this); [| reflexivity].
  unfold bind, ret. rewrite Hnew. reflexivity.
Qed.

Lemma findOne_not_new env id u w t w' :
  findOne env id u w = (Ok (Some t), w') -> isNew t = false.
Proof.
  unfold findOne. destruct (newObjectId id); [| discriminate].
  unfold dbCall. destruct (dbUp env (dbCalls w)); [| discriminate].
  intros [= H _].
  destruct (find _ _); [| discriminate].
  injection H as <-. reflexivity.
Qed.

Lemma postponeRevision_keeps_isNew revisionId this :
  isNew (snd (postponeRevision revisionId this)) = isNew this.
Proof.
  unfold postponeRevision.
  destruct (toIdArg revisionId); [| reflexivity].
  destruct (revisionsId _ _); reflexivity.
Qed.

(** The postpone branch of the handler never reads the clock. *)
Lemma markRevisionComplete_postpone_clock env c req w :
  isPostponed (rrStatus req) = true ->
  markRevisionComplete (withClock env c) req w
  = markRevisionComplete env req w.
Proof.
  intros Hp. unfold markRevisionComplete, catch, bind.
  change (findOne (withClock env c)) with (findOne env).
  destruct (findOne env (rrId req) (rrUser req) w) as [[[task |] | e] w1] eqn:Hf;
    try reflexivity.
  rewrite Hp.
  pose proof (findOne_not_new _ _ _ _ _ _ Hf) as Hnew.
  pose proof (postponeRevision_keeps_isNew (rrRevisionId req) task) as Hk.
  destruct (postponeRevision (rrRevisionId req) task) as [[info |] task'];
    [| reflexivity].
  simpl in Hk.
  destruct (negb (success info)); [reflexivity |].
  destruct (negb (isSomeDate (newDate_ info))); [reflexivity |].
  rewrite save_clock_independent by congruence.
  reflexivity.
Qed.

End PostponeHandler.

Section PostponeReply.

Import TaskModel TasksController.

Lemma save_stored_result env this w saved w2 :
  isNew this = false ->
  save env this w = (Ok saved, w2) ->
  saved = markStored this
  /\ tasksColl w2 = replaceTask (markStored this) (tasksColl w).
Proof.
  intros Hnew. unfold save, preSave. rewrite Hnew. simpl.
  destruct (validate this); [| discriminate].
  unfold bind, ret. rewrite Hnew.
  unfold writeTask, bind, dbCall, setTasks, ret.
  destruct (dbUp env (dbCalls w)); [| discriminate].
  rewrite Hnew. simpl. intros [= <- <-]. simpl. auto.
Qed.

Lemma replaceTask_In t ts old :
  In old ts -> task_id old = task_id t -> In t (replaceTask t ts).
Proof.
  intros Hin Hid. unfold replaceTask. apply in_map_iff.
  exists old. split; [| exact Hin].
  rewrite Hid, N.eqb_refl. reflexivity.
Qed.

Lemma findOne_found env id u w t w1 :
  findOne env id u w = (Ok (Some t), w1) ->
  tasksColl w1 = tasksColl w
  /\ exists old, In old (tasksColl w) /\ t = markStored old.
Proof.
  unfold findOne. destruct (newObjectId id); [| discriminate].
  unfold dbCall. destruct (dbUp env (dbCalls w)); [| discriminate].
  simpl. intros [= H <-]. simpl. split; [reflexivity |].
  destruct (find _ _) as [old |] eqn:Hfind; [| discriminate].
  injection H as <-. exists old. split; [| reflexivity].
  now destruct (find_some _ _ Hfind).
Qed.

(** What the handler answers when the revision exists and the save goes
    through. *)
Lemma markRevisionComplete_postpone_reply env req w w1 task r saved w2 :
  isPostponed (rrStatus req) = true ->
  findOne env (rrId req) (rrUser req) w = (Ok (Some task), w1) ->
  revisionsId (AsString (rrRevisionId req)) (revisions task) = Some r ->
  isSomeDate (tomorrowOf (scheduledDate r)) = true ->
  save env
    (setRevisions task
       (modifyFirst (idMatches (AsString (rrRevisionId req)))
          (setSchedule (tomorrowOf (scheduledDate r))) (revisions task))) w1
  = (Ok saved, w2) ->
  markRevisionComplete env req w
  = (Ok (Json 200
           (Postponed saved
              {| pdNewDate := tomorrowOf (scheduledDate r);
                 pdNextInterval := 1;
                 pdNewStatus := "pending" |})), w2)
  /\ In saved (tasksColl w2).
Proof.
  intros Hp Hf Hr Hvalid Hs. split.
  - unfold markRevisionComplete, catch, bind. rewrite Hf, Hp.
    rewrite (postponeRevision_found _ _ _ Hr).
    cbn [success newDate_ nextInterval negb]. rewrite Hvalid.
    cbn [negb]. rewrite Hs. reflexivity.
  - pose proof (findOne_not_new _ _ _ _ _ _ Hf) as Hnew.
    destruct (findOne_found _ _ _ _ _ _ Hf) as (Hcoll & old & Hin & Hold).
    apply save_stored_result in Hs; [| exact Hnew].
    destruct Hs as (-> & ->).
    apply replaceTask_In with (old := old).
    + now rewrite Hcoll.
    + subst task. reflexivity.
Qed.

End PostponeReply.

Section PostponeAnchoring.

Import TaskModel TasksController.

(** C1.  Postponing a revision scheduled at [d] sets its scheduled date
    to UTC midnight of the UTC day after [d], resets its status to
    pending and hands the new date back: the method returns it, and the
    handler answers with it once the task is saved.  Nothing in the
    outcome depends on the clock: the handler gives the same result under
    every clock.  ([d] and [d] plus one day lie in the range of instants a
    [Date] holds.) *)
Theorem postpone_moves_to_next_utc_midnight :
  forall (env : Env) (req : RevisionRequest) (w w1 : World)
         (task : Task) (r : Revision) (d : Z),
    isPostponed (rrStatus req) = true ->
    findOne env (rrId req) (rrUser req) w = (Ok (Some task), w1) ->
    revisionsId (AsString (rrRevisionId req)) (revisions task) = Some r ->
    scheduledDate r = Some d ->
    - maxTime <= d ->
    d + msPerDay <= maxTime ->
    let newDate := Some (nextUTCMidnight d) in
    let task' :=
      setRevisions task
        (modifyFirst (idMatches (AsString (rrRevisionId req)))
           (setSchedule newDate) (revisions task)) in
    postponeRevision (rrRevisionId req) task
    = (Some {| success := true; newDate_ := newDate; nextInterval := 1 |},
       task')
    /\ (exists r',
          revisionsId (AsString (rrRevisionId req)) (revisions task') = Some r'
          /\ rev_id r' = rev_id r
          /\ scheduledDate r' = newDate
          /\ status r' = "pending"%string)
    /\ (forall saved w2,
          save env task' w1 = (Ok saved, w2) ->
          markRevisionComplete env req w
          = (Ok (Json 200
                   (Postponed saved
                      {| pdNewDate := newDate; pdNextInterval := 1;
                         pdNewStatus := "pending" |})), w2)
          /\ In saved (tasksColl w2)
          /\ revisions saved = revisions task')
    /\ (forall c,
          markRevisionComplete (withClock env c) req w
          = markRevisionComplete env req w).
Proof.
  intros env req w w1 task r d Hp Hf Hr Hd Hlo Hhi newDate task'.
  assert (tomorrowOf (scheduledDate r) = newDate) as Ht
    by (rewrite Hd; now apply tomorrowOf_next_midnight).
  split; [| split; [| split]].
  - rewrite (postponeRevision_found _ _ _ Hr), Ht. reflexivity.
  - exists (setSchedule newDate r). repeat split.
    unfold revisionsId in *. simpl.
    apply find_modifyFirst; [exact Hr |].
    rewrite idMatches_setSchedule. exact (find_some_holds _ _ _ Hr).
  - intros saved w2 Hs.
    pose proof (markRevisionComplete_postpone_reply
                  env req w w1 task r saved w2 Hp Hf Hr) as Hreply.
    rewrite Ht in Hreply. destruct (Hreply eq_refl Hs) as [Ha Hb].
    repeat split; try assumption.
    apply save_stored_result in Hs.
    + destruct Hs as [-> _]. reflexivity.
    + exact (findOne_not_new _ _ _ _ _ _ Hf).
  - intros c. now apply markRevisionComplete_postpone_clock.
Qed.

(** The revision of 2024-01-10T00:00:00Z goes to 2024-01-11T00:00:00Z,
    pending, whatever the clock shows. *)
Lemma postpone_january_tenth :
  forall now : Z,
    let env := Sample.envAt (fixedZone 0) now (fun _ => true) in
    let w := Sample.world [Sample.januaryTask] [] in
    (exists task' w',
       markRevisionComplete env Sample.postponeRequest w
       = (Ok (Json 200
                (Postponed task'
                   {| pdNewDate := Some (utc 2024 1 11 0 0 0 0);
                      pdNextInterval := 1; pdNewStatus := "pending" |})), w')
       /\ option_map (fun r => (scheduledDate r, status r))
            (revisionsId (AsString Sample.revHex) (revisions task'))
          = Some (Some (utc 2024 1 11 0 0 0 0), "pending"%string)).
Proof.
  intros now env w.
  assert (markRevisionComplete env Sample.postponeRequest w
          = markRevisionComplete
              (Sample.envAt (fixedZone 0) 0 (fun _ => true))
              Sample.postponeRequest w) as Hclock.
  { change env with (withClock (Sample.envAt (fixedZone 0) 0 (fun _ => true))
                       (fun _ => now)).
    apply markRevisionComplete_postpone_clock. reflexivity. }
  rewrite Hclock.
  eexists. eexists. split.
  - vm_compute. reflexivity.
  - vm_compute. reflexivity.
Qed.

Lemma postpone_moves_to_next_utc_midnight_witness :
  let env := Sample.envAt (fixedZone 0) (utc 2024 1 9 22 15 0 0)
               (fun _ => true) in
  let w := Sample.world [Sample.januaryTask] [] in
  fst (postponeRevision Sample.revHex Sample.januaryTask)
  = Some {| success := true;
            newDate_ := Some (utc 2024 1 11 0 0 0 0);
            nextInterval := 1 |}
  /\ (forall c,
        markRevisionComplete (withClock env c) Sample.postponeRequest w
        = markRevisionComplete env Sample.postponeRequest w).
Proof.
  intros env w.
  destruct (postpone_moves_to_next_utc_midnight
              env Sample.postponeRequest w
              {| ticks := 0; dbCalls := 1; nextId := 4096%N;
                 tasksColl := [Sample.januaryTask]; usersColl := [];
                 outbox := [] |}
              Sample.januaryTask
              {| rev_id := 17%N;
                 scheduledDate := Some (utc 2024 1 10 0 0 0 0);
                 status := "pending"; sentReminder := false;
                 completedAt := None; remindersSent := 0;
                 lastReminderSent := None |}
              (utc 2024 1 10 0 0 0 0))
    as (Hm & _ & _ & Hc).
  - reflexivity.
  - vm_compute. reflexivity.
  - vm_compute. reflexivity.
  - reflexivity.
  - vm_compute. discriminate.
  - vm_compute. discriminate.
  - split; [| exact Hc].
    change (rrRevisionId Sample.postponeRequest) with Sample.revHex in Hm.
    rewrite Hm. vm_compute. reflexivity.
Defined.

End PostponeAnchoring.

(* ===================================================================== *)
(** * The default schedule *)
(* ===================================================================== *)

Section DefaultSchedule.

Import TaskModel TasksController.


Lemma steady_shift host c k :
  steadyOffset host c k ->
  UTC host (LocalTime host c + k * msPerDay) = c + k * msPerDay.
Proof.
  unfold steadyOffset, UTC. intros ->. unfold LocalTime. lia.
Qed.

Lemma steadyOffset_fixed off c k : steadyOffset (fixedZone off) c k.
Proof. reflexivity. Qed.






End DefaultSchedule.

Section DefaultScheduleOnSave.

Import TaskModel TasksController.



End DefaultScheduleOnSave.



(* ===================================================================== *)
(** * Day bounds in a time zone *)
(* ===================================================================== *)

Section DayBounds.

Import TimezoneUtils.

Lemma MakeTime_fields t :
  MakeTime (HourFromTime t) (MinFromTime t) (SecFromTime t) 0
  = TimeWithinDay t - msFromTime t.
Proof.
  unfold MakeTime, HourFromTime, MinFromTime, SecFromTime, TimeWithinDay,
    msFromTime, msPerHour, msPerMinute, msPerSecond, msPerDay.
  Z.div_mod_to_equations. lia.
Qed.

(** Reading back the text printed for the local time value [lt] gives
    [lt] without its milliseconds. *)
Lemma parse_wallClockAt env lt :
  parseDate env (DateTimeText (wallClockAt lt))
  = TimeClip (UTC (hostZone env) (lt - msFromTime lt)).
Proof.
  unfold parseDate, wallClockAt. simpl.
  replace (MonthFromTime lt + 1 - 1) with (MonthFromTime lt) by lia.
  rewrite MakeDay_same_month, MakeTime_fields.
  replace (Day lt + (DateFromTime lt - DateFromTime lt)) with (Day lt + 0)
    by lia.
  pose proof (MakeDate_Day_TimeWithinDay lt 0) as H.
  unfold MakeDate in *. do 2 f_equal. lia.
Qed.

Lemma Day_without_ms t : Day (t - msFromTime t) = Day t.
Proof.
  unfold Day, msFromTime, msPerSecond, msPerDay.
  Z.div_mod_to_equations. lia.
Qed.

(** On a host at offset [h], for a zone at offset [u]: the bounds are the
    host's midnight and last millisecond of the zone's calendar date. *)
Lemma getDayBounds_fixed_offsets env timezone h u t :
  hostZone env = fixedZone h ->
  tzdb env timezone = Some (fixedZone u) ->
  - msPerDay <= h <= msPerDay ->
  - msPerDay <= u <= msPerDay ->
  - maxTime + 3 * msPerDay <= t <= maxTime - 3 * msPerDay ->
  getDayBoundsInTimezone env (Some t) timezone
  = Ok (Some (startOfUTCDay (t + u) - h),
        Some (startOfUTCDay (t + u) + (msPerDay - 1) - h)).
Proof.
  intros Hh Hu Hhr Hur Ht.
  unfold getDayBoundsInTimezone, toLocaleString. rewrite Hu.
  rewrite parse_wallClockAt. rewrite Hh. simpl utcOffset.
  unfold UTC at 1. simpl localOffset.
  pose proof (Z.mod_pos_bound (t + u) 1000 ltac:(lia)) as Hms.
  fold msPerSecond in Hms. fold (msFromTime (t + u)) in Hms.
  unfold msPerSecond in Hms.
  assert (msPerDay = 86400000) as Hd by reflexivity.
  assert (maxTime = 8640000000000000) as Hmax by reflexivity.
  rewrite TimeClip_in_range by lia.
  unfold setHours, LocalTime, UTC. simpl.
  assert (t + u - msFromTime (t + u) - h + h = t + u - msFromTime (t + u))
    as Heq by lia.
  rewrite !Heq, !Day_without_ms.
  unfold MakeDate, MakeTime, startOfUTCDay.
  pose proof (day_start_in_range (t + u)) as Hr.
  assert (- maxTime + msPerDay <= Day (t + u) * msPerDay
          <= maxTime - 2 * msPerDay) as Hr'.
  { clear Hr Hms. unfold Day. rewrite Hd, Hmax in *.
    Z.div_mod_to_equations. lia. }
  rewrite !TimeClip_in_range;
    [ do 3 f_equal; rewrite ?Heq, ?Day_without_ms;
      unfold msPerHour, msPerMinute, msPerSecond, msPerDay; lia | .. ].
  all: rewrite ?Heq, ?Day_without_ms;
    unfold msPerHour, msPerMinute, msPerSecond; lia.
Qed.

(** The local day of the zone at offset [u] that contains [t] runs from
    [startOfUTCDay (t + u) - u]. *)
Lemma getDayBounds_shifted env timezone h u t :
  hostZone env = fixedZone h ->
  tzdb env timezone = Some (fixedZone u) ->
  - msPerDay <= h <= msPerDay ->
  - msPerDay <= u <= msPerDay ->
  - maxTime + 3 * msPerDay <= t <= maxTime - 3 * msPerDay ->
  let localMidnight := startOfUTCDay (t + u) - u in
  getDayBoundsInTimezone env (Some t) timezone
  = Ok (Some (localMidnight + (u - h)),
        Some (localMidnight + (msPerDay - 1) + (u - h))).
Proof.
  intros Hh Hu Hhr Hur Ht localMidnight.
  rewrite (getDayBounds_fixed_offsets env timezone h u t Hh Hu Hhr Hur Ht).
  unfold localMidnight. do 3 f_equal; lia.
Qed.

End DayBounds.

Section DayBoundsKolkata.

Import TimezoneUtils.

(** C3, on the code.  On a host whose zone is UTC, the bounds computed
    for Asia/Kolkata at 2024-06-15T06:30:00Z (local noon of 2024-06-15)
    are 2024-06-15T00:00:00.000Z and 2024-06-15T23:59:59.999Z: the UTC
    day, not the local day [2024-06-14T18:30:00Z,
    2024-06-15T18:29:59.999Z]. *)
Theorem getDayBounds_kolkata_on_utc_host :
  forall (now : Z) (deliver : Mail -> bool),
    let env := Sample.envAt (fixedZone 0) now deliver in
    getDayBoundsInTimezone env (Some (utc 2024 6 15 6 30 0 0)) "Asia/Kolkata"
    = Ok (Some (utc 2024 6 15 0 0 0 0), Some (utc 2024 6 15 23 59 59 999))
    /\ getDayBoundsInTimezone env (Some (utc 2024 6 15 6 30 0 0))
         "Asia/Kolkata"
       <> Ok (Some (utc 2024 6 14 18 30 0 0),
              Some (utc 2024 6 15 18 29 59 999)).
Proof.
  intros now deliver env.
  assert (getDayBoundsInTimezone env (Some (utc 2024 6 15 6 30 0 0))
            "Asia/Kolkata"
          = Ok (Some (utc 2024 6 15 0 0 0 0),
                Some (utc 2024 6 15 23 59 59 999))) as H
    by (vm_compute; reflexivity).
  split; [exact H |].
  rewrite H. vm_compute. discriminate.
Qed.

(** The same call on a host that is itself at +05:30 gives the local
    day. *)
Example getDayBounds_kolkata_on_kolkata_host :
  forall (now : Z) (deliver : Mail -> bool),
    getDayBoundsInTimezone (Sample.envAt (fixedZone (minutes 330)) now deliver)
      (Some (utc 2024 6 15 6 30 0 0)) "Asia/Kolkata"
    = Ok (Some (utc 2024 6 14 18 30 0 0), Some (utc 2024 6 15 18 29 59 999)).
Proof. intros. vm_compute. reflexivity. Qed.

(** And there Asia/Tokyo is off by the three and a half hours between
    the two zones. *)
Example getDayBounds_tokyo_on_kolkata_host :
  forall (now : Z) (deliver : Mail -> bool),
    getDayBoundsInTimezone (Sample.envAt (fixedZone (minutes 330)) now deliver)
      (Some (utc 2024 6 15 6 30 0 0)) "Asia/Tokyo"
    = Ok (Some (utc 2024 6 14 18 30 0 0), Some (utc 2024 6 15 18 29 59 999)).
Proof. intros. vm_compute. reflexivity. Qed.

End DayBoundsKolkata.

(* ===================================================================== *)
(** * Status transitions *)
(* ===================================================================== *)

Section StatusTransitions.

Import TaskModel TasksController.

(** The world after one reading of the clock. *)
Lemma newDate_run env w :
  newDate env w
  = (Ok (clock env (ticks w)),
     {| ticks := S (ticks w); dbCalls := dbCalls w; nextId := nextId w;
        tasksColl := tasksColl w; usersColl := usersColl w;
        outbox := outbox w |}).
Proof. reflexivity. Qed.

Lemma updateRevisionStatus_found env this revisionId s r w :
  revisionsId (AsString revisionId) (revisions this) = Some r ->
  updateRevisionStatus env revisionId s this w
  = if String.eqb s "done" then
      (Ok (true,
           setRevisions this
             (modifyFirst (idMatches (AsString revisionId))
                (setStatus s (Some (clock env (ticks w)))) (revisions this))),
       snd (newDate env w))
    else
      (Ok (true,
           setRevisions this
             (modifyFirst (idMatches (AsString revisionId))
                (setStatus s None) (revisions this))),
       w).
Proof.
  intros Hfind. unfold updateRevisionStatus.
  destruct (toIdArg_total revisionId) as (x & -> & Hx).
  assert (forall q, idMatches x q = idMatches (AsString revisionId) q) as Hext
    by (intros q; apply idMatches_cast; exact Hx).
  unfold revisionsId in *.
  rewrite (find_pointwise _ _ (revisions this) Hext), Hfind.
  destruct (String.eqb s "done").
  - unfold bind, ret. rewrite newDate_run. simpl.
    now rewrite (modifyFirst_pointwise _ _ _ (revisions this) Hext).
  - unfold ret.
    now rewrite (modifyFirst_pointwise _ _ _ (revisions this) Hext).
Qed.

Lemma updateRevisionStatus_absent env this revisionId s w :
  revisionsId (AsString revisionId) (revisions this) = None ->
  updateRevisionStatus env revisionId s this w = (Ok (false, this), w).
Proof.
  intros Hfind. unfold updateRevisionStatus.
  destruct (toIdArg_total revisionId) as (x & -> & Hx).
  assert (forall q, idMatches x q = idMatches (AsString revisionId) q) as Hext
    by (intros q; apply idMatches_cast; exact Hx).
  unfold revisionsId in *.
  now rewrite (find_pointwise _ _ (revisions this) Hext), Hfind.
Qed.

Lemma rescheduleRevision_absent this revisionId d :
  revisionsId (AsString revisionId) (revisions this) = None ->
  TaskModel.rescheduleRevision revisionId d this = (false, this).
Proof. intros H. unfold TaskModel.rescheduleRevision. now rewrite H. Qed.

(** No revision carries the identifier: lookup by it finds nothing. *)
Lemma revisionsId_absent revisionId revs :
  (forall r, In r revs -> castObjectId revisionId <> Some (rev_id r)) ->
  revisionsId (AsString revisionId) revs = None.
Proof.
  intros H. unfold revisionsId.
  destruct (find _ revs) as [r |] eqn:Hfind; [| reflexivity].
  destruct (find_some _ _ Hfind) as [Hin Hm].
  exfalso. apply (H r Hin).
  unfold idMatches in Hm. simpl in Hm.
  destruct (castObjectId revisionId) as [o |]; [| discriminate].
  apply N.eqb_eq in Hm. now subst.
Qed.

Lemma completedRevisions_split this l1 r l2 :
  revisions this = (l1 ++ r :: l2)%list ->
  completedRevisions this
  = (List.length (filter isDone l1)
     + (if isDone r then 1 else 0)
     + List.length (filter isDone l2))%nat.
Proof.
  intros H. unfold completedRevisions. rewrite H.
  rewrite filter_app, length_app. simpl.
  destruct (isDone r); simpl; lia.
Qed.

End StatusTransitions.

Section MarkDone.

Import TaskModel TasksController.

Lemma modifyFirst_twice p f g l :
  (forall x, p (f x) = p x) ->
  modifyFirst p g (modifyFirst p f l) = modifyFirst p (fun x => g (f x)) l.
Proof.
  intros Hp. induction l as [| a l IH]; simpl; [reflexivity |].
  destruct (p a) eqn:Hpa; simpl.
  - now rewrite Hp, Hpa.
  - now rewrite Hpa, IH.
Qed.

Lemma modifyFirst_same_function p (f g : Revision -> Revision) l :
  (forall x, f x = g x) -> modifyFirst p f l = modifyFirst p g l.
Proof.
  intros H. induction l as [| a l IH]; simpl; [reflexivity |].
  destruct (p a); [now rewrite H | now rewrite IH].
Qed.

Lemma completedRevisions_modifyFirst this p f r :
  find p (revisions this) = Some r ->
  (completedRevisions
     (setRevisions this (modifyFirst p f (revisions this)))
   + (if isDone r then 1 else 0)
   = completedRevisions this + (if isDone (f r) then 1 else 0))%nat.
Proof.
  intros Hfind.
  destruct (modifyFirst_split p f _ _ Hfind) as (l1 & l2 & Hl & _ & Hm).
  rewrite (completedRevisions_split this l1 r l2 Hl).
  rewrite (completedRevisions_split
             (setRevisions this (modifyFirst p f (revisions this)))
             l1 (f r) l2 Hm).
  lia.
Qed.

(** C6.  Marking a revision done stamps [completedAt] with the reading of
    the clock; marking it done again succeeds, keeps the same revisions
    (none added, the count of done revisions unchanged, one more than
    before the first call when the revision was not done) and stamps
    [completedAt] with the second reading; any other status clears
    [completedAt]. *)
Theorem mark_done_twice_refreshes_completedAt :
  forall (env : Env) (this : Task) (revisionId : string) (r : Revision)
         (w : World),
    revisionsId (AsString revisionId) (revisions this) = Some r ->
    let p := idMatches (AsString revisionId) in
    let first := clock env (ticks w) in
    let second := clock env (S (ticks w)) in
    let w1 := snd (newDate env w) in
    let w2 := snd (newDate env w1) in
    let this1 :=
      setRevisions this
        (modifyFirst p (setStatus "done" (Some first)) (revisions this)) in
    let this2 :=
      setRevisions this
        (modifyFirst p (setStatus "done" (Some second)) (revisions this)) in
    updateRevisionStatus env revisionId "done" this w = (Ok (true, this1), w1)
    /\ revisionsId (AsString revisionId) (revisions this1)
       = Some (setStatus "done" (Some first) r)
    /\ updateRevisionStatus env revisionId "done" this1 w1
       = (Ok (true, this2), w2)
    /\ revisionsId (AsString revisionId) (revisions this2)
       = Some (setStatus "done" (Some second) r)
    /\ completedAt (setStatus "done" (Some second) r) = Some second
    /\ map rev_id (revisions this2) = map rev_id (revisions this)
    /\ completedRevisions this2 = completedRevisions this1
    /\ (isDone r = false ->
        completedRevisions this1 = S (completedRevisions this))
    /\ (completedRevisions this = 0%nat ->
        completedRevisions this2 = 1%nat)
    /\ (forall (s : string) (w' : World),
          String.eqb s "done" = false ->
          let this3 :=
            setRevisions this
              (modifyFirst p (setStatus s None) (revisions this)) in
          updateRevisionStatus env revisionId s this2 w'
          = (Ok (true, this3), w')
          /\ revisionsId (AsString revisionId) (revisions this3)
             = Some (setStatus s None r)
          /\ completedAt (setStatus s None r) = None).
Proof.
  intros env this revisionId r w Hfind p first second w1 w2 this1 this2.
  assert (p r = true) as Hpr by exact (find_some_holds _ _ _ Hfind).
  assert (forall s a,
            revisionsId (AsString revisionId)
              (modifyFirst p (setStatus s a) (revisions this))
            = Some (setStatus s a r)) as Hlook.
  { intros s a. unfold revisionsId. apply find_modifyFirst; [exact Hfind |].
    exact Hpr. }
  assert (forall s a s' a',
            modifyFirst p (setStatus s' a')
              (modifyFirst p (setStatus s a) (revisions this))
            = modifyFirst p (setStatus s' a') (revisions this)) as Hagain.
  { intros s a s' a'. rewrite modifyFirst_twice by reflexivity.
    apply modifyFirst_same_function. reflexivity. }
  repeat split.
  - rewrite (updateRevisionStatus_found env this revisionId "done" r w Hfind).
    reflexivity.
  - apply Hlook.
  - rewrite (updateRevisionStatus_found env this1 revisionId "done"
               (setStatus "done" (Some first) r) w1 (Hlook _ _)).
    simpl String.eqb. cbv iota. unfold this1, this2. simpl revisions.
    fold p. rewrite Hagain. reflexivity.
  - apply Hlook.
  - apply modifyFirst_ids. reflexivity.
  - pose proof (completedRevisions_modifyFirst this p
                  (setStatus "done" (Some first)) r Hfind) as H1.
    pose proof (completedRevisions_modifyFirst this p
                  (setStatus "done" (Some second)) r Hfind) as H2.
    fold this1 in H1. fold this2 in H2.
    change (isDone (setStatus "done" (Some first) r)) with true in H1.
    change (isDone (setStatus "done" (Some second) r)) with true in H2.
    cbv iota in H1, H2. destruct (isDone r); lia.
  - intros Hnd.
    pose proof (completedRevisions_modifyFirst this p
                  (setStatus "done" (Some first)) r Hfind) as H1.
    fold this1 in H1. rewrite Hnd in H1.
    change (isDone (setStatus "done" (Some first) r)) with true in H1.
    cbv iota in H1. lia.
  - intros Hzero.
    pose proof (completedRevisions_modifyFirst this p
                  (setStatus "done" (Some second)) r Hfind) as H2.
    fold this2 in H2.
    change (isDone (setStatus "done" (Some second) r)) with true in H2.
    cbv iota in H2.
    destruct (modifyFirst_split p (fun x => x) _ _ Hfind)
      as (l1 & l2 & Hl & _).
    pose proof (completedRevisions_split this l1 r l2 Hl) as Hcount.
    destruct (isDone r); lia.
  - rewrite (updateRevisionStatus_found env this2 revisionId s
               (setStatus "done" (Some second) r) w' (Hlook _ _)).
    rewrite H. unfold this2. simpl revisions. fold p.
    rewrite Hagain. reflexivity.
  - apply Hlook.
Qed.

End MarkDone.

Section MarkDoneExample.

Import TaskModel TasksController.

Lemma mark_done_twice_refreshes_completedAt_witness :
  let env :=
    withClock (Sample.envAt (fixedZone 0) 0 (fun _ => true))
      (fun k => utc 2024 1 10 7 0 0 0 + Z.of_nat k * 60000) in
  let w := Sample.world [Sample.januaryTask] [] in
  exists this1 w1 this2 w2,
    updateRevisionStatus env Sample.revHex "done" Sample.januaryTask w
    = (Ok (true, this1), w1)
    /\ updateRevisionStatus env Sample.revHex "done" this1 w1
       = (Ok (true, this2), w2)
    /\ option_map (fun r => (status r, completedAt r))
         (revisionsId (AsString Sample.revHex) (revisions this2))
       = Some ("done"%string, Some (utc 2024 1 10 7 1 0 0))
    /\ (completedRevisions Sample.januaryTask,
        completedRevisions this1, completedRevisions this2)
       = (1%nat, 2%nat, 2%nat)
    /\ List.length (revisions this2) = 2%nat.
Proof.
  intros env w.
  pose proof (mark_done_twice_refreshes_completedAt env Sample.januaryTask
                Sample.revHex
                {| rev_id := 17%N;
                   scheduledDate := Some (utc 2024 1 10 0 0 0 0);
                   status := "pending"; sentReminder := false;
                   completedAt := None; remindersSent := 0;
                   lastReminderSent := None |}
                w eq_refl) as H.
  cbv zeta in H.
  destruct H as (H1 & _ & H2 & H3 & _).
  eexists. eexists. eexists. eexists.
  split; [exact H1 |]. split; [exact H2 |]. split.
  - rewrite H3. vm_compute. reflexivity.
  - split; vm_compute; reflexivity.
Defined.

End MarkDoneExample.

(* ===================================================================== *)
(** * A revision that is not there *)
(* ===================================================================== *)

Section MissingRevision.

Import TaskModel TasksController.

(** C9.  A status change or a postponement that names a revision the
    task does not have (no revision carries the identifier; a malformed
    identifier names none) returns [false] and leaves the task, with all
    its revisions, as it was; the handler then answers 404 with a
    revision-not-found message and writes nothing. *)
Theorem missing_revision_leaves_task_unchanged :
  forall (env : Env) (this : Task) (revisionId : string),
    (forall r, In r (revisions this) ->
               castObjectId revisionId <> Some (rev_id r)) ->
    (forall (s : string) (w : World),
       updateRevisionStatus env revisionId s this w = (Ok (false, this), w))
    /\ postponeRevision revisionId this = (None, this)
    /\ (forall d, TaskModel.rescheduleRevision revisionId d this
                  = (false, this))
    /\ (forall (req : RevisionRequest) (w w1 : World),
          rrRevisionId req = revisionId ->
          findOne env (rrId req) (rrUser req) w = (Ok (Some this), w1) ->
          exists msg,
            markRevisionComplete env req w = (Ok (Json 404 (Failure msg)), w1)
            /\ (msg = "Revision not found"%string
                \/ msg = "Revision not found or postpone failed"%string)
            /\ tasksColl w1 = tasksColl w).
Proof.
  intros env this revisionId Hnone.
  pose proof (revisionsId_absent revisionId (revisions this) Hnone) as Habs.
  split; [| split; [| split]].
  - intros s w. now apply updateRevisionStatus_absent.
  - now apply postponeRevision_absent.
  - intros d. now apply rescheduleRevision_absent.
  - intros req w w1 Hid Hf.
    destruct (findOne_found _ _ _ _ _ _ Hf) as (Hcoll & _).
    unfold markRevisionComplete, catch, bind. rewrite Hf, Hid.
    destruct (isPostponed (rrStatus req)).
    + rewrite (postponeRevision_absent _ _ Habs).
      eexists. split; [reflexivity |]. split; [now right | exact Hcoll].
    + rewrite (updateRevisionStatus_absent env this revisionId _ w1 Habs).
      simpl. eexists. split; [reflexivity |]. split; [now left | exact Hcoll].
Qed.

Lemma malformed_id_names_no_revision revisionId revs :
  castObjectId revisionId = None ->
  forall r, In r revs -> castObjectId revisionId <> Some (rev_id r).
Proof. intros H r _. rewrite H. discriminate. Qed.

Lemma missing_revision_leaves_task_unchanged_witness :
  let env := Sample.envAt (fixedZone 0) 0 (fun _ => true) in
  postponeRevision "not-an-id" Sample.januaryTask = (None, Sample.januaryTask)
  /\ updateRevisionStatus env Sample.otherHex "done" Sample.januaryTask
       (Sample.world [Sample.januaryTask] [])
     = (Ok (false, Sample.januaryTask), Sample.world [Sample.januaryTask] []).
Proof.
  intros env. split.
  - apply (missing_revision_leaves_task_unchanged env Sample.januaryTask
             "not-an-id").
    intros r _. vm_compute. discriminate.
  - apply (missing_revision_leaves_task_unchanged env Sample.januaryTask
             Sample.otherHex).
    intros r [<- | [<- | []]]; vm_compute; discriminate.
Defined.

End MissingRevision.

(* ===================================================================== *)
(** * The revision-date invariant *)
(* ===================================================================== *)

Section DateInvariant.

Import TaskModel TasksController.

Lemma revisionsValidator_rejects this r :
  In r (revisions this) ->
  date_geb (scheduledDate r) (completedDate this) = false ->
  revisionsValidator this (revisions this) = false.
Proof.
  intros Hin Hlt. unfold revisionsValidator.
  destruct (forallb _ _) eqn:Hall; [| reflexivity].
  rewrite forallb_forall in Hall. specialize (Hall r Hin). congruence.
Qed.

Lemma validate_reports_dates this :
  revisionsValidator this (revisions this) = false ->
  In revisionDatesMessage (validate this).
Proof.
  intros H. unfold validate. rewrite H.
  repeat (apply in_or_app; right). left. reflexivity.
Qed.

Lemma save_invalid env this w :
  validate this <> [] ->
  save env this w = (Throw (ValidationError (validate this)), w).
Proof.
  intros H. unfold save. destruct (validate this); [congruence | reflexivity].
Qed.

Lemma save_rejects_early_revision env this w r :
  In r (revisions this) ->
  date_geb (scheduledDate r) (completedDate this) = false ->
  save env this w = (Throw (ValidationError (validate this)), w)
  /\ In revisionDatesMessage (validate this).
Proof.
  intros Hin Hlt.
  pose proof (validate_reports_dates this
                (revisionsValidator_rejects this r Hin Hlt)) as Hmsg.
  split; [| exact Hmsg].
  apply save_invalid. intros Hnil. rewrite Hnil in Hmsg. exact Hmsg.
Qed.

(** Casting the revisions of a request body draws identifiers and
    nothing else; the dates are those of the body. *)
Lemma mapM_cast {A} (f : A -> M Revision) (date : A -> Date) inputs :
  (forall a w, exists rev w1,
      f a w = (Ok rev, w1)
      /\ scheduledDate rev = date a
      /\ tasksColl w1 = tasksColl w
      /\ dbCalls w1 = dbCalls w) ->
  forall w, exists revs w',
    mapM f inputs w = (Ok revs, w')
    /\ map scheduledDate revs = map date inputs
    /\ tasksColl w' = tasksColl w
    /\ dbCalls w' = dbCalls w.
Proof.
  intros Hf. induction inputs as [| i inputs IH]; intros w.
  - exists [], w. repeat split.
  - simpl. unfold bind at 1.
    destruct (Hf i w) as (rev & w1 & -> & Hd & Hc & Hdb).
    destruct (IH w1) as (revs & w' & Hm & Hds & Hcs & Hdbs).
    unfold bind. rewrite Hm. unfold ret.
    exists (rev :: revs), w'. simpl. rewrite Hd, Hds.
    repeat split; congruence.
Qed.

Lemma castRevisionInput_run i w :
  exists rev w1,
    castRevisionInput i w = (Ok rev, w1)
    /\ scheduledDate rev = inputDate i
    /\ tasksColl w1 = tasksColl w
    /\ dbCalls w1 = dbCalls w.
Proof.
  destruct i as [d | o]; simpl.
  - eexists. eexists. unfold bind, freshId, ret. simpl. repeat split.
  - unfold castRevisionObject, bind, freshId, ret.
    destruct (roId o); simpl; eexists; eexists; repeat split.
Qed.

Lemma mapM_castRevisionInput inputs w :
  exists revs w',
    mapM castRevisionInput inputs w = (Ok revs, w')
    /\ map scheduledDate revs = map inputDate inputs
    /\ tasksColl w' = tasksColl w
    /\ dbCalls w' = dbCalls w.
Proof. apply mapM_cast. exact castRevisionInput_run. Qed.

Lemma mapM_RevString dates w :
  exists revs w',
    mapM (fun date => castRevisionInput (RevString date)) dates w
    = (Ok revs, w')
    /\ map scheduledDate revs = dates
    /\ tasksColl w' = tasksColl w
    /\ dbCalls w' = dbCalls w.
Proof.
  destruct (mapM_cast (fun date => castRevisionInput (RevString date))
              (fun date => date) dates
              (fun a w0 => castRevisionInput_run (RevString a) w0) w)
    as (revs & w' & Hm & Hds & Hrest).
  exists revs, w'. rewrite map_id in Hds. auto.
Qed.

Lemma In_map_scheduledDate revs d :
  In d (map scheduledDate revs) ->
  exists r, In r revs /\ scheduledDate r = d.
Proof.
  intros H. apply in_map_iff in H. destruct H as (r & Hr & Hin). eauto.
Qed.

Lemma date_geb_false_lt d c :
  d < c -> date_geb (Some d) (Some c) = false.
Proof. intros H. simpl. apply Z.leb_gt. exact H. Qed.

Lemma createTask_rejects_early_revision env req w dates d c :
  crCompletedDate req = Some c ->
  crRevisions req = Some dates ->
  In (Some d) dates ->
  d < c ->
  exists msgs w',
    createTask env req w = (Ok (Next (ValidationError msgs)), w')
    /\ In revisionDatesMessage msgs
    /\ tasksColl w' = tasksColl w.
Proof.
  intros Hc Hr Hin Hlt.
  unfold createTask, catch. unfold bind at 1. unfold freshId at 1.
  rewrite Hr. unfold bind at 1. unfold bind at 1.
  match goal with
  | |- context [mapM _ dates ?w0] =>
      destruct (mapM_RevString dates w0) as (revs & w1 & -> & Hds & Hcs & _)
  end.
  unfold ret at 1.
  set (task := setRevisions _ revs).
  assert (exists r, In r (revisions task) /\ scheduledDate r = Some d)
    as (r & Hrin & Hrd).
  { apply In_map_scheduledDate. simpl. now rewrite Hds. }
  destruct (save_rejects_early_revision env task w1 r Hrin) as [Hsave Hmsg].
  { rewrite Hrd. simpl completedDate. rewrite Hc.
    now apply date_geb_false_lt. }
  unfold bind. rewrite Hsave. unfold ret.
  eexists. eexists. split; [reflexivity |]. split; [exact Hmsg | exact Hcs].
Qed.

End DateInvariant.

Section DateInvariantUpdate.

Import TaskModel TasksController.

Lemma editedFields_completedDate req task :
  completedDate (editedFields req task)
  = match urCompletedDate req with
    | Some d => d
    | None => completedDate task
    end.
Proof.
  unfold editedFields.
  destruct (urTitle req), (urNotes req), (urCompletedDate req); reflexivity.
Qed.

Lemma editedFields_revisions req task :
  revisions (editedFields req task) = revisions task.
Proof.
  unfold editedFields.
  destruct (urTitle req), (urNotes req), (urCompletedDate req); reflexivity.
Qed.

Lemma updateTask_rejects_new_early_revision env req w task w1 inputs i d c :
  isValid (urId req) = true ->
  findOne env (urId req) (urUser req) w = (Ok (Some task), w1) ->
  urRevisions req = Some inputs ->
  In i inputs -> inputDate i = Some d ->
  match urCompletedDate req with
  | Some x => x
  | None => completedDate task
  end = Some c ->
  d < c ->
  exists msgs w',
    updateTask env req w = (Ok (Next (ValidationError msgs)), w')
    /\ In revisionDatesMessage msgs
    /\ tasksColl w' = tasksColl w.
Proof.
  intros Hv Hf Hr Hin Hd Hc Hlt.
  destruct (findOne_found _ _ _ _ _ _ Hf) as (Hcoll & _).
  unfold updateTask, catch. rewrite Hv.
  change (negb true) with false. cbv iota.
  unfold bind at 1. rewrite Hf.
  fold (editedFields req task). rewrite Hr.
  unfold bind at 1. unfold bind at 1.
  destruct (mapM_castRevisionInput inputs w1)
    as (revs & w2 & -> & Hds & Hcs & _).
  unfold ret at 1.
  set (doc := setRevisions (editedFields req task) revs).
  assert (exists r, In r (revisions doc) /\ scheduledDate r = Some d)
    as (r & Hrin & Hrd).
  { apply In_map_scheduledDate. simpl. rewrite Hds, <- Hd.
    now apply in_map. }
  destruct (save_rejects_early_revision env doc w2 r Hrin) as [Hsave Hmsg].
  { rewrite Hrd. change (completedDate doc)
      with (completedDate (editedFields req task)).
    rewrite editedFields_completedDate, Hc. now apply date_geb_false_lt. }
  unfold bind. rewrite Hsave. unfold ret.
  eexists. eexists. split; [reflexivity |].
  split; [exact Hmsg | congruence].
Qed.

Lemma updateTask_rejects_late_completedDate env req w task w1 r d c :
  isValid (urId req) = true ->
  findOne env (urId req) (urUser req) w = (Ok (Some task), w1) ->
  urRevisions req = None ->
  In r (revisions task) -> scheduledDate r = Some d ->
  urCompletedDate req = Some (Some c) ->
  d < c ->
  exists msgs w',
    updateTask env req w = (Ok (Next (ValidationError msgs)), w')
    /\ In revisionDatesMessage msgs
    /\ tasksColl w' = tasksColl w.
Proof.
  intros Hv Hf Hr Hin Hd Hc Hlt.
  destruct (findOne_found _ _ _ _ _ _ Hf) as (Hcoll & _).
  unfold updateTask, catch. rewrite Hv.
  change (negb true) with false. cbv iota.
  unfold bind at 1. rewrite Hf.
  fold (editedFields req task). rewrite Hr.
  unfold bind at 1. unfold ret at 1.
  destruct (save_rejects_early_revision env (editedFields req task) w1 r)
    as [Hsave Hmsg].
  { now rewrite editedFields_revisions. }
  { rewrite Hd, editedFields_completedDate, Hc.
    now apply date_geb_false_lt. }
  unfold bind. rewrite Hsave. unfold ret.
  eexists. eexists. split; [reflexivity |].
  split; [exact Hmsg | congruence].
Qed.

End DateInvariantUpdate.

Section DateInvariantOnWrite.

Import TaskModel TasksController.

Lemma revisionsValidator_accepts this c :
  completedDate this = Some c ->
  (forall r, In r (revisions this) ->
             exists d, scheduledDate r = Some d /\ c <= d) ->
  revisionsValidator this (revisions this) = true.
Proof.
  intros Hc Hall. unfold revisionsValidator. apply forallb_forall.
  intros r Hin. destruct (Hall r Hin) as (d & -> & Hle).
  rewrite Hc. simpl. now apply Z.leb_le.
Qed.

(** C5.  Whenever a revision is scheduled strictly before the task's
    completion date, the write fails with a validation error that carries
    the revision-dates message, and the tasks collection stays as it was:
    [save] refuses the document without touching anything, and so do
    [createTask] and [updateTask] (with new revisions in the body, or
    with a completion date moved past a stored revision).  A document all
    of whose revisions are at or after the completion date, one exactly
    at it included, passes the validator. *)
Theorem early_revision_fails_validation :
  forall (env : Env) (d c : Z),
    d < c ->
    (forall this w r,
       In r (revisions this) -> scheduledDate r = Some d ->
       completedDate this = Some c ->
       save env this w = (Throw (ValidationError (validate this)), w)
       /\ In revisionDatesMessage (validate this))
    /\ (forall req w dates,
          crCompletedDate req = Some c ->
          crRevisions req = Some dates ->
          In (Some d) dates ->
          exists msgs w',
            createTask env req w = (Ok (Next (ValidationError msgs)), w')
            /\ In revisionDatesMessage msgs
            /\ tasksColl w' = tasksColl w)
    /\ (forall req w task w1 inputs i,
          isValid (urId req) = true ->
          findOne env (urId req) (urUser req) w = (Ok (Some task), w1) ->
          urRevisions req = Some inputs ->
          In i inputs -> inputDate i = Some d ->
          match urCompletedDate req with
          | Some x => x
          | None => completedDate task
          end = Some c ->
          exists msgs w',
            updateTask env req w = (Ok (Next (ValidationError msgs)), w')
            /\ In revisionDatesMessage msgs
            /\ tasksColl w' = tasksColl w)
    /\ (forall req w task w1 r,
          isValid (urId req) = true ->
          findOne env (urId req) (urUser req) w = (Ok (Some task), w1) ->
          urRevisions req = None ->
          In r (revisions task) -> scheduledDate r = Some d ->
          urCompletedDate req = Some (Some c) ->
          exists msgs w',
            updateTask env req w = (Ok (Next (ValidationError msgs)), w')
            /\ In revisionDatesMessage msgs
            /\ tasksColl w' = tasksColl w)
    /\ (forall this,
          completedDate this = Some c ->
          (forall r, In r (revisions this) ->
                     exists d', scheduledDate r = Some d' /\ c <= d') ->
          revisionsValidator this (revisions this) = true).
Proof.
  intros env d c Hlt. split; [| split; [| split; [| split]]].
  - intros this w r Hin Hd Hc.
    apply save_rejects_early_revision with (r := r); [assumption |].
    rewrite Hd, Hc. now apply date_geb_false_lt.
  - intros req w dates Hc Hr Hin.
    now apply createTask_rejects_early_revision with (dates := dates)
      (d := d) (c := c).
  - intros req w task w1 inputs i Hv Hf Hr Hin Hd Hc.
    now apply updateTask_rejects_new_early_revision
      with (task := task) (w1 := w1) (inputs := inputs) (i := i)
           (d := d) (c := c).
  - intros req w task w1 r Hv Hf Hr Hin Hd Hc.
    now apply updateTask_rejects_late_completedDate
      with (task := task) (w1 := w1) (r := r) (d := d) (c := c).
  - intros this Hc Hall. now apply revisionsValidator_accepts with (c := c).
Qed.

Lemma early_revision_fails_validation_witness :
  let env := Sample.envAt (fixedZone 0) (utc 2024 5 1 9 30 0 0)
               (fun _ => true) in
  let w := Sample.world [Sample.januaryTask] [] in
  exists msgs w',
    createTask env Sample.tooEarlyRequest w
    = (Ok (Next (ValidationError msgs)), w')
    /\ In revisionDatesMessage msgs
    /\ tasksColl w' = [Sample.januaryTask].
Proof.
  intros env w.
  destruct (early_revision_fails_validation env
              (utc 2024 5 1 8 59 59 999) (utc 2024 5 1 9 0 0 0))
    as (_ & Hcreate & _).
  - vm_compute. reflexivity.
  - apply (Hcreate Sample.tooEarlyRequest w
             [Some (utc 2024 5 1 8 59 59 999); Some (utc 2024 5 8 9 0 0 0)]).
    + reflexivity.
    + reflexivity.
    + left. reflexivity.
Defined.

(** A revision asked for at the completion instant itself is stored. *)
Example createTask_accepts_revision_at_completedDate :
  let env := Sample.envAt (fixedZone 0) (utc 2024 5 1 9 30 0 0)
               (fun _ => true) in
  exists saved w',
    createTask env Sample.sameDayRequest (Sample.world [] [])
    = (Ok (Json 201 (Success saved)), w')
    /\ map scheduledDate (revisions saved)
       = [Some (utc 2024 5 1 9 0 0 0); Some (utc 2024 5 8 9 0 0 0)]
    /\ tasksColl w' = [saved].
Proof.
  intros env. eexists. eexists. split; [vm_compute; reflexivity |].
  split; reflexivity.
Qed.

End DateInvariantOnWrite.

(* ===================================================================== *)
(** * The due-set and the revision ordinal *)
(* ===================================================================== *)

Section DueSet.

Import CronService.

Lemma dueItems_In userId startOfDay endOfDay tasks t r :
  In (t, r) (dueItems userId startOfDay endOfDay tasks)
  <-> In t tasks
      /\ user t = userId
      /\ isArchived t = false
      /\ In r (revisions t)
      /\ date_geb (scheduledDate r) startOfDay = true
      /\ date_leb (scheduledDate r) endOfDay = true
      /\ status r = "pending"%string.
Proof.
  unfold dueItems. rewrite filter_In, in_flat_map. simpl. split.
  - intros [(t' & Ht' & Hpair) Hcond].
    apply in_map_iff in Hpair. destruct Hpair as (r' & [= -> ->] & Hr).
    apply filter_In in Ht'. destruct Ht' as [Hin Hown].
    apply andb_true_iff in Hown. destruct Hown as [Hu Ha].
    apply andb_true_iff in Hcond. destruct Hcond as [Hcond Hs].
    apply andb_true_iff in Hcond. destruct Hcond as [Hge Hle].
    apply N.eqb_eq in Hu. apply negb_true_iff in Ha.
    apply String.eqb_eq in Hs. auto 10.
  - intros (Hin & Hu & Ha & Hr & Hge & Hle & Hs). split.
    + exists t. split.
      * apply filter_In. split; [exact Hin |].
        rewrite Hu, N.eqb_refl, Ha. reflexivity.
      * apply in_map. exact Hr.
    + rewrite Hge, Hle, Hs. reflexivity.
Qed.

(** The chain of comparisons on the rounded-up day count cuts the
    elapsed time itself at 3, 7, 14 and 30 days. *)
Lemma revisionDayOf_thresholds c d :
  revisionDayOf (daysDiffOf (Some c) (Some d))
  = if d - c <=? 3 * msPerDay then 1
    else if d - c <=? 7 * msPerDay then 2
    else if d - c <=? 14 * msPerDay then 3
    else if d - c <=? 30 * msPerDay then 4
    else 5.
Proof.
  unfold revisionDayOf, daysDiffOf, ceilDiv, msPerDay.
  change (1000 * 60 * 60 * 24) with 86400000.
  repeat match goal with
         | |- context [?a <=? ?b] =>
             destruct (Z.leb_spec a b)
         end;
    try reflexivity; exfalso; Z.div_mod_to_equations; lia.
Qed.

Lemma toDueRevision_ids items :
  map revisionId (map toDueRevision items)
  = map (fun item => rev_id (snd item)) items.
Proof.
  rewrite map_map. apply map_ext. intros [t r]. reflexivity.
Qed.

End DueSet.

Section RevisionOrdinal.

Import CronService.

(** C7.  For a pair of the due-set, the ordinal [revisionDay] comes from
    the time elapsed between the task's completion date and the
    revision's scheduled date, counted in days with a started day
    counting as a whole one: up to 3 days give 1, up to 7 give 2, up to
    14 give 3, up to 30 give 4, anything longer 5; [isFirstRevision]
    says whether the ordinal is 1.  Exactly 3 days give 1, exactly 4
    days give 2.  The due-set has one entry per selected pair, and a pair
    is selected on owner, archive flag, date window and status alone. *)
Theorem revision_ordinal_from_elapsed_days :
  forall (userId : ObjectId) (startOfDay endOfDay : Date)
         (tasks : list Task) (task : Task) (revision : Revision) (c d : Z),
    In (task, revision) (dueItems userId startOfDay endOfDay tasks) ->
    completedDate task = Some c ->
    scheduledDate revision = Some d ->
    let items := dueItems userId startOfDay endOfDay tasks in
    let due := toDueRevision (task, revision) in
    In due (map toDueRevision items)
    /\ revisionId due = rev_id revision
    /\ revisionDay due
       = revisionDayOf (Some (ceilDiv (d - c) msPerDay))
    /\ revisionDay due
       = (if d - c <=? 3 * msPerDay then 1
          else if d - c <=? 7 * msPerDay then 2
          else if d - c <=? 14 * msPerDay then 3
          else if d - c <=? 30 * msPerDay then 4
          else 5)
    /\ isFirstRevision due = (revisionDay due =? 1)
    /\ (d = c + 3 * msPerDay ->
        revisionDay due = 1 /\ isFirstRevision due = true)
    /\ (d = c + 4 * msPerDay ->
        revisionDay due = 2 /\ isFirstRevision due = false)
    /\ map revisionId (map toDueRevision items)
       = map (fun item => rev_id (snd item)) items
    /\ (forall t r,
          In (t, r) items
          <-> In t tasks
              /\ user t = userId
              /\ isArchived t = false
              /\ In r (revisions t)
              /\ date_geb (scheduledDate r) startOfDay = true
              /\ date_leb (scheduledDate r) endOfDay = true
              /\ status r = "pending"%string).
Proof.
  intros userId startOfDay endOfDay tasks task revision c d Hin Hc Hd
         items due.
  assert (revisionDay due
          = revisionDayOf (daysDiffOf (Some c) (Some d))) as Hday
    by (unfold due, toDueRevision; simpl; now rewrite Hc, Hd).
  assert (isFirstRevision due = (revisionDay due =? 1)) as Hfirst
    by reflexivity.
  pose proof (revisionDayOf_thresholds c d) as Hth.
  split; [now apply in_map |].
  split; [reflexivity |].
  split; [exact Hday |].
  split; [now rewrite Hday |].
  split; [exact Hfirst |].
  split; [| split; [| split]].
  - intros ->. rewrite Hfirst, Hday, Hth.
    replace (c + 3 * msPerDay - c) with (3 * msPerDay) by lia.
    split; reflexivity.
  - intros ->. rewrite Hfirst, Hday, Hth.
    replace (c + 4 * msPerDay - c) with (4 * msPerDay) by lia.
    split; reflexivity.
  - apply toDueRevision_ids.
  - intros t r. apply dueItems_In.
Qed.

Lemma revision_ordinal_from_elapsed_days_witness :
  let startOfDay := Some (utc 2024 1 10 0 0 0 0) in
  let endOfDay := Some (utc 2024 1 10 23 59 59 999) in
  let revision :=
    {| rev_id := 17%N; scheduledDate := Some (utc 2024 1 10 0 0 0 0);
       status := "pending"; sentReminder := false; completedAt := None;
       remindersSent := 0; lastReminderSent := None |} in
  let due := toDueRevision (Sample.januaryTask, revision) in
  In due (map toDueRevision
            (dueItems Sample.alice startOfDay endOfDay [Sample.januaryTask]))
  /\ revisionDay due = 2
  /\ isFirstRevision due = false.
Proof.
  intros startOfDay endOfDay revision due.
  destruct (revision_ordinal_from_elapsed_days Sample.alice startOfDay
              endOfDay [Sample.januaryTask] Sample.januaryTask revision
              (utc 2024 1 3 0 0 0 0) (utc 2024 1 10 0 0 0 0))
    as (Hin & _ & _ & Hday & Hfirst & _).
  - vm_compute. left. reflexivity.
  - reflexivity.
  - reflexivity.
  - unfold due. split; [exact Hin |]. split.
    + rewrite Hday. vm_compute. reflexivity.
    + rewrite Hfirst, Hday. vm_compute. reflexivity.
Defined.

(** Three days and one millisecond after completion is already the
    second bucket. *)
Example ordinal_just_after_three_days :
  revisionDayOf (daysDiffOf (Some 0) (Some (3 * msPerDay))) = 1
  /\ revisionDayOf (daysDiffOf (Some 0) (Some (3 * msPerDay + 1))) = 2
  /\ revisionDayOf (daysDiffOf (Some 0) (Some (4 * msPerDay))) = 2.
Proof. repeat split. Qed.

End RevisionOrdinal.

(* ===================================================================== *)
(** * The daily reminder job *)
(* ===================================================================== *)

Section ReminderLoop.

Import TimezoneUtils CronService.

Lemma catch_never_throws {A} (m : M A) (h : Error -> M A) w :
  (forall e w0, exists a w1, h e w0 = (Ok a, w1)) ->
  exists a w', catch m h w = (Ok a, w').
Proof.
  intros Hh. unfold catch. destruct (m w) as [[a | e] w0]; eauto.
Qed.

Lemma getTodaysRevisions_never_throws env userId timezone w :
  exists l w', getTodaysRevisions env userId timezone w = (Ok l, w').
Proof.
  apply catch_never_throws. intros e w0. exists [], w0. reflexivity.
Qed.

Lemma getTodaysRevisions_ok env userId timezone w l w' :
  resolveToday env userId timezone w = (Ok l, w') ->
  getTodaysRevisions env userId timezone w = (Ok l, w').
Proof. intros H. unfold getTodaysRevisions, catch. now rewrite H. Qed.

Lemma getTodaysRevisions_failed env userId timezone w e w' :
  resolveToday env userId timezone w = (Throw e, w') ->
  getTodaysRevisions env userId timezone w = (Ok [], w').
Proof. intros H. unfold getTodaysRevisions, catch. now rewrite H. Qed.

Lemma remindUser_never_throws env user w :
  exists o w', remindUser env user w = (Ok o, w').
Proof.
  apply catch_never_throws. intros e w0. exists Errored, w0. reflexivity.
Qed.

Lemma remindAll_cons env user rest c w o w' :
  remindUser env user w = (Ok o, w') ->
  remindAll env (user :: rest) c w = remindAll env rest (count o c) w'.
Proof. intros H. simpl. unfold bind. now rewrite H. Qed.

Lemma remindAll_never_throws env users :
  forall c w, exists c' w', remindAll env users c w = (Ok c', w').
Proof.
  induction users as [| u users IH]; intros c w.
  - exists c, w. reflexivity.
  - destruct (remindUser_never_throws env u w) as (o & w1 & Ho).
    rewrite (remindAll_cons _ _ _ _ _ _ _ Ho). apply IH.
Qed.

Lemma remindAll_app env before after :
  forall c w c1 w1,
    remindAll env before c w = (Ok c1, w1) ->
    remindAll env (before ++ after) c w = remindAll env after c1 w1.
Proof.
  induction before as [| u before IH]; intros c w c1 w1 H.
  - simpl in H. injection H as <- <-. reflexivity.
  - destruct (remindUser_never_throws env u w) as (o & w0 & Ho).
    rewrite <- app_comm_cons.
    rewrite (remindAll_cons env u (before ++ after) c w o w0 Ho).
    rewrite (remindAll_cons env u before c w o w0 Ho) in H.
    exact (IH _ _ _ _ H).
Qed.

Lemma outcomes_cons env user rest w o w' :
  remindUser env user w = (Ok o, w') ->
  outcomes env (user :: rest) w
  = (o :: fst (outcomes env rest w'), snd (outcomes env rest w')).
Proof.
  intros H. simpl. rewrite H. now destruct (outcomes env rest w').
Qed.

Lemma occurrences_cons o x os :
  occurrences o (x :: os)
  = (match o, x with
     | Sent, Sent | Skipped, Skipped | Errored, Errored => 1
     | _, _ => 0
     end) + occurrences o os.
Proof.
  unfold occurrences. cbn [filter].
  destruct o, x; cbn [List.length]; lia.
Qed.

(** The counters count the outcomes of the turns; every user has a
    turn. *)
Lemma remindAll_counts env users :
  forall c w,
    let os := fst (outcomes env users w) in
    remindAll env users c w
    = (Ok {| remindersSent_ := remindersSent_ c + occurrences Sent os;
             errors := errors c + occurrences Errored os |},
       snd (outcomes env users w))
    /\ List.length os = List.length users.
Proof.
  induction users as [| u users IH]; intros c w os.
  - unfold os. simpl. unfold ret, occurrences. simpl.
    rewrite !Z.add_0_r. destruct c. auto.
  - destruct (remindUser_never_throws env u w) as (o & w1 & Ho).
    unfold os. rewrite (outcomes_cons _ _ _ _ _ _ Ho).
    rewrite (remindAll_cons _ _ _ _ _ _ _ Ho).
    destruct (IH (count o c) w1) as [Hrun Hlen]. cbv zeta in Hrun, Hlen.
    rewrite Hrun. simpl fst. simpl snd. split.
    + rewrite !occurrences_cons.
      destruct o; simpl count; cbn [remindersSent_ errors];
        do 3 f_equal; lia.
    + simpl. now rewrite Hlen.
Qed.

End ReminderLoop.

Section ReminderTurn.

Import TimezoneUtils CronService.

(** A turn of the loop, step by step. *)
Lemma remindUser_steps env user w :
  remindUser env user w
  = let tz := timezoneOrDefault (timezone user) in
    match isTargetHourInTimezone env 6 tz w with
    | (Throw _, w1) => (Ok Errored, w1)
    | (Ok false, w1) => (Ok Skipped, w1)
    | (Ok true, w1) =>
        match getTodaysRevisions env (user_id user) tz w1 with
        | (Throw _, w2) => (Ok Errored, w2)
        | (Ok [], w2) => (Ok Skipped, w2)
        | (Ok (x :: l), w2) =>
            if smtp env (reminderFor user (x :: l))
            then (Ok Sent, delivered (reminderFor user (x :: l)) w2)
            else (Ok Errored, w2)
        end
    end.
Proof.
  unfold remindUser, remindBody, catch, bind. cbv zeta.
  destruct (isTargetHourInTimezone env 6 _ w) as [[[|] | e] w1];
    try reflexivity.
  change (negb true) with false. cbv beta iota.
  destruct (getTodaysRevisions env (user_id user) _ w1) as [[[| x l] | e] w2];
    try reflexivity.
  cbn [List.length Nat.eqb]. cbv beta iota.
  unfold sendDailyRevisionReminder. fold (reminderFor user (x :: l)).
  destruct (smtp env (reminderFor user (x :: l))); reflexivity.
Qed.

Lemma isTargetHour_world env h tz w r w' :
  isTargetHourInTimezone env h tz w = (r, w') -> w' = tick w.
Proof.
  unfold isTargetHourInTimezone, getCurrentTimeInTimezone, bind, newDate,
    liftResult, ret.
  destruct (toLocaleString env _ tz); now intros [= _ <-].
Qed.

Lemma resolveToday_outbox env userId tz w r w' :
  resolveToday env userId tz w = (r, w') -> outbox w' = outbox w.
Proof.
  unfold resolveToday, bind, newDate, liftResult, dbCall, ret.
  destruct (getDayBoundsInTimezone env _ tz) as [[s e] | err];
    [| now intros [= _ <-]].
  simpl. destruct (dbUp env (dbCalls w)); now intros [= _ <-].
Qed.

Lemma getTodaysRevisions_outbox env userId tz w r w' :
  getTodaysRevisions env userId tz w = (r, w') -> outbox w' = outbox w.
Proof.
  unfold getTodaysRevisions, catch.
  destruct (resolveToday env userId tz w) as [[l | e] w0] eqn:H;
    intros [= _ <-]; exact (resolveToday_outbox _ _ _ _ _ _ H).
Qed.

(** Only a turn that ends in [Sent] adds to the outbox, and it adds the
    user's reminder. *)
Lemma remindUser_outbox env user w o w' :
  remindUser env user w = (Ok o, w') ->
  match o with
  | Sent => exists revisions,
              revisions <> []
              /\ smtp env (reminderFor user revisions) = true
              /\ outbox w' = (outbox w ++ [reminderFor user revisions])%list
  | _ => outbox w' = outbox w
  end.
Proof.
  rewrite remindUser_steps. cbv zeta.
  destruct (isTargetHourInTimezone env 6 _ w) as [[[|] | e] w1] eqn:Hh;
    pose proof (isTargetHour_world _ _ _ _ _ _ Hh) as ->.
  - destruct (getTodaysRevisions env (user_id user) _ (tick w))
      as [[[| x l] | e] w2] eqn:Hg;
      pose proof (getTodaysRevisions_outbox _ _ _ _ _ _ Hg) as Hout.
    + intros [= <- <-]. exact Hout.
    + destruct (smtp env (reminderFor user (x :: l))) eqn:Hs.
      * intros [= <- <-]. exists (x :: l).
        split; [discriminate |]. split; [exact Hs |].
        simpl. now rewrite Hout.
      * intros [= <- <-]. exact Hout.
    + intros [= <- <-]. exact Hout.
  - intros [= <- <-]. reflexivity.
  - intros [= <- <-]. reflexivity.
Qed.

Lemma remindUser_keeps_mail env user w o w' m :
  remindUser env user w = (Ok o, w') -> In m (outbox w) -> In m (outbox w').
Proof.
  intros H Hin. pose proof (remindUser_outbox _ _ _ _ _ H) as Hout.
  destruct o.
  - destruct Hout as (revs & _ & _ & ->). apply in_or_app. now left.
  - now rewrite Hout.
  - now rewrite Hout.
Qed.

Lemma remindAll_keeps_mail env users :
  forall c w c' w' m,
    remindAll env users c w = (Ok c', w') ->
    In m (outbox w) -> In m (outbox w').
Proof.
  induction users as [| u users IH]; intros c w c' w' m H Hin.
  - simpl in H. now injection H as <- <-.
  - destruct (remindUser_never_throws env u w) as (o & w1 & Ho).
    rewrite (remindAll_cons _ _ _ _ _ _ _ Ho) in H.
    apply (IH _ _ _ _ _ H).
    exact (remindUser_keeps_mail _ _ _ _ _ _ Ho Hin).
Qed.

(** A failed dispatch throws out of the body of the turn, with nothing
    put in the outbox. *)
Lemma dispatch_failure_throws env user w w1 revisions w2 :
  isTargetHourInTimezone env 6 (timezoneOrDefault (timezone user)) w
  = (Ok true, w1) ->
  getTodaysRevisions env (user_id user)
    (timezoneOrDefault (timezone user)) w1 = (Ok revisions, w2) ->
  revisions <> [] ->
  smtp env (reminderFor user revisions) = false ->
  remindBody env user w
  = (Throw (MailError "Failed to send daily revision reminder"), w2)
  /\ outbox w2 = outbox w.
Proof.
  intros Hh Hg Hne Hs. split.
  - unfold remindBody, bind. rewrite Hh.
    change (negb true) with false. cbv beta iota. rewrite Hg.
    destruct revisions as [| x l]; [congruence |].
    cbn [List.length Nat.eqb]. cbv beta iota.
    unfold sendDailyRevisionReminder. fold (reminderFor user (x :: l)).
    now rewrite Hs.
  - rewrite (getTodaysRevisions_outbox _ _ _ _ _ _ Hg).
    now rewrite (isTargetHour_world _ _ _ _ _ _ Hh).
Qed.

End ReminderTurn.

Section UserIsolation.

Import TimezoneUtils CronService.

Lemma remindAll_world env users c w :
  remindAll env users c w
  = (Ok {| remindersSent_ :=
             remindersSent_ c + occurrences Sent (fst (outcomes env users w));
           errors :=
             errors c + occurrences Errored (fst (outcomes env users w)) |},
     snd (outcomes env users w)).
Proof. exact (proj1 (remindAll_counts env users c w)). Qed.

Lemma sendDailyReminders_steps env w :
  dbUp env (dbCalls w) = true ->
  sendDailyReminders env w
  = match remindAll env (eligibleUsers w)
            {| remindersSent_ := 0; errors := 0 |} (called w) with
    | (Ok c, w') => (Ok (Some c), w')
    | (Throw _, w') => (Ok None, w')
    end.
Proof.
  intros Hdb.
  unfold sendDailyReminders, catch, bind, findEligible, dbCall at 1.
  rewrite Hdb. cbn [usersColl]. fold (eligibleUsers w).
  change {| ticks := ticks w; dbCalls := S (dbCalls w); nextId := nextId w;
            tasksColl := tasksColl w; usersColl := usersColl w;
            outbox := outbox w |} with (called w).
  destruct (remindAll env (eligibleUsers w) _ (called w)) as [[c | e] w'];
    reflexivity.
Qed.

(** C8.  In a run of the daily job, when processing one of the users the
    job found throws, the error is caught and counted and the loop goes
    on: the job ends normally with its two counters, every user before
    and after that one has a turn, the users after it are processed one
    by one from the world the failing turn left, and the counters at the
    end, which start from zero, are what the turns before and after add
    plus one error.  When no other turn fails, the error count of the
    run is exactly one.  A later user whose turn ends with the dispatch
    has the reminder in the outbox at the end of the run.  A dispatch
    that fails is such a throw, and it puts nothing in the outbox. *)
Theorem failing_user_does_not_stop_the_run :
  forall (env : Env) (w : World) (before after : list User) (a : User)
         (w2 : World) (e : Error),
    dbUp env (dbCalls w) = true ->
    eligibleUsers w = (before ++ a :: after)%list ->
    remindBody env a (snd (outcomes env before (called w))) = (Throw e, w2) ->
    let earlier := fst (outcomes env before (called w)) in
    let later := fst (outcomes env after w2) in
    let final :=
      {| remindersSent_ := occurrences Sent earlier + occurrences Sent later;
         errors :=
           occurrences Errored earlier + 1 + occurrences Errored later |} in
    sendDailyReminders env w = (Ok (Some final), snd (outcomes env after w2))
    /\ remindUser env a (snd (outcomes env before (called w)))
       = (Ok Errored, w2)
    /\ List.length earlier = List.length before
    /\ List.length later = List.length after
    /\ (occurrences Errored earlier = 0 -> occurrences Errored later = 0 ->
        errors final = 1)
    /\ (forall mid b rest w4,
          after = (mid ++ b :: rest)%list ->
          remindUser env b (snd (outcomes env mid w2)) = (Ok Sent, w4) ->
          exists revisions,
            revisions <> []
            /\ In (reminderFor b revisions)
                  (outbox (snd (sendDailyReminders env w))))
    /\ (forall user v v0 v1 revisions,
          isTargetHourInTimezone env 6 (timezoneOrDefault (timezone user)) v
          = (Ok true, v0) ->
          getTodaysRevisions env (user_id user)
            (timezoneOrDefault (timezone user)) v0 = (Ok revisions, v1) ->
          revisions <> [] ->
          smtp env (reminderFor user revisions) = false ->
          remindBody env user v
          = (Throw (MailError "Failed to send daily revision reminder"), v1)
          /\ outbox v1 = outbox v).
Proof.
  intros env w before after a w2 e Hdb Husers Hbody earlier later final.
  set (c0 := {| remindersSent_ := 0; errors := 0 |}).
  set (w1 := snd (outcomes env before (called w))) in *.
  assert (remindUser env a w1 = (Ok Errored, w2)) as Ha
    by (unfold remindUser, catch; now rewrite Hbody).
  pose proof (remindAll_world env before c0 (called w)) as Hbefore.
  fold earlier w1 in Hbefore.
  set (c1 := {| remindersSent_ := remindersSent_ c0 + occurrences Sent earlier;
                errors := errors c0 + occurrences Errored earlier |}) in *.
  pose proof (remindAll_world env after (count Errored c1) w2) as Hafter.
  fold later in Hafter.
  assert (remindAll env (before ++ a :: after) c0 (called w)
          = (Ok final, snd (outcomes env after w2))) as Hloop.
  { rewrite (remindAll_app env before (a :: after) c0 (called w) c1 w1
               Hbefore).
    rewrite (remindAll_cons _ _ _ _ _ _ _ Ha). rewrite Hafter.
    unfold final, c1, c0. cbn [count remindersSent_ errors].
    do 3 f_equal; lia. }
  assert (sendDailyReminders env w
          = (Ok (Some final), snd (outcomes env after w2))) as Hrun.
  { rewrite (sendDailyReminders_steps env w Hdb). rewrite Husers.
    fold c0. now rewrite Hloop. }
  split; [exact Hrun |].
  split; [exact Ha |].
  split; [exact (proj2 (remindAll_counts env before c0 (called w))) |].
  split; [exact (proj2 (remindAll_counts env after c0 w2)) |].
  split; [intros H0 H1; unfold final; cbn [errors]; lia |].
  split.
  - intros mid b rest w4 Hsplit Hb.
    pose proof (remindUser_outbox _ _ _ _ _ Hb) as (revs & Hne & _ & Hout).
    exists revs. split; [exact Hne |].
    rewrite Hrun. cbn [snd].
    pose proof (remindAll_world env mid (count Errored c1) w2) as Hmid.
    assert (remindAll env after (count Errored c1) w2
            = remindAll env rest
                (count Sent
                   {| remindersSent_ :=
                        remindersSent_ (count Errored c1)
                        + occurrences Sent (fst (outcomes env mid w2));
                      errors :=
                        errors (count Errored c1)
                        + occurrences Errored
                            (fst (outcomes env mid w2)) |}) w4) as Hrest.
    { rewrite Hsplit.
      rewrite (remindAll_app env mid (b :: rest) _ _ _ _ Hmid).
      exact (remindAll_cons _ _ _ _ _ _ _ Hb). }
    rewrite Hafter in Hrest. symmetry in Hrest.
    apply (remindAll_keeps_mail _ _ _ _ _ _ _ Hrest).
    rewrite Hout. apply in_or_app. right. left. reflexivity.
  - intros user v v0 v1 revisions Hh Hg Hne Hs.
    exact (dispatch_failure_throws env user v v0 revisions v1 Hh Hg Hne Hs).
Qed.

(** Alice's reminder is refused, Bob comes after her: Bob's reminder goes
    out and the run logs one sent, one error. *)
Lemma failing_user_does_not_stop_the_run_witness :
  let env := Sample.envAt (fixedZone 0) Sample.sixInKolkata
               Sample.notToAlice in
  let w := Sample.world Sample.juneTasks [Sample.aliceUser; Sample.bobUser] in
  exists w',
    sendDailyReminders env w
    = (Ok (Some {| remindersSent_ := 1; errors := 1 |}), w')
    /\ map mailTo (outbox w') = [email Sample.bobUser].
Proof.
  intros env w.
  destruct (failing_user_does_not_stop_the_run env w [] [Sample.bobUser]
              Sample.aliceUser
              (snd (remindBody env Sample.aliceUser (called w)))
              (MailError "Failed to send daily revision reminder"))
    as (Hrun & _).
  - reflexivity.
  - reflexivity.
  - vm_compute. reflexivity.
  - eexists. split.
    + rewrite Hrun. vm_compute. reflexivity.
    + vm_compute. reflexivity.
Defined.

End UserIsolation.

Section ResolverFailure.

Import TimezoneUtils CronService.

Lemma getDayBounds_unknown_zone env t tz :
  tzdb env tz = None ->
  getDayBoundsInTimezone env (Some t) tz
  = Throw (RangeError ("Invalid time zone specified: " ++ tz)).
Proof.
  intros H. unfold getDayBoundsInTimezone, toLocaleString. now rewrite H.
Qed.

Lemma isTargetHour_unknown_zone env h tz w :
  tzdb env tz = None ->
  isTargetHourInTimezone env h tz w
  = (Throw (RangeError ("Invalid time zone specified: " ++ tz)), tick w).
Proof.
  intros H.
  unfold isTargetHourInTimezone, getCurrentTimeInTimezone, bind, newDate,
    liftResult, toLocaleString.
  now rewrite H.
Qed.

Lemma resolveToday_unknown_zone env userId tz w :
  tzdb env tz = None ->
  resolveToday env userId tz w
  = (Throw (RangeError ("Invalid time zone specified: " ++ tz)), tick w).
Proof.
  intros H. unfold resolveToday, bind, newDate, liftResult.
  now rewrite getDayBounds_unknown_zone.
Qed.

Lemma resolveToday_storage_failure env userId tz z w :
  tzdb env tz = Some z ->
  dbUp env (dbCalls w) = false ->
  exists w', resolveToday env userId tz w = (Throw StorageError, w').
Proof.
  intros Hz Hdb. unfold resolveToday, bind, newDate, liftResult, dbCall.
  unfold getDayBoundsInTimezone, toLocaleString. rewrite Hz.
  cbv beta iota. cbn [dbCalls]. rewrite Hdb. eauto.
Qed.

(** C10.  When the computation of the due-set throws, whatever the
    error, [getTodaysRevisions] returns the empty list and sends
    nothing.  In the loop of the job, a user at the target hour whose
    resolution failed is passed over as a user without due revisions is:
    the turn ends in [Skipped], no mail goes out and the counters, the
    error count included, stay as they were.  An unknown time zone and a
    database call that rejects are such errors, and no error ever leaves
    [getTodaysRevisions]. *)
Theorem failed_resolution_is_an_empty_day :
  forall (env : Env) (userId : ObjectId) (tz : string) (w w' : World)
         (e : Error),
    resolveToday env userId tz w = (Throw e, w') ->
    getTodaysRevisions env userId tz w = (Ok [], w')
    /\ outbox w' = outbox w
    /\ (forall user w0 rest c,
          user_id user = userId ->
          timezoneOrDefault (timezone user) = tz ->
          isTargetHourInTimezone env 6 tz w0 = (Ok true, w) ->
          remindUser env user w0 = (Ok Skipped, w')
          /\ outbox w' = outbox w0
          /\ remindAll env (user :: rest) c w0 = remindAll env rest c w')
    /\ (forall env0 user w0 w1 w2,
          isTargetHourInTimezone env0 6 (timezoneOrDefault (timezone user)) w0
          = (Ok true, w1) ->
          getTodaysRevisions env0 (user_id user)
            (timezoneOrDefault (timezone user)) w1 = (Ok [], w2) ->
          remindUser env0 user w0 = (Ok Skipped, w2))
    /\ (forall userId0 tz0 w0,
          tzdb env tz0 = None ->
          getTodaysRevisions env userId0 tz0 w0 = (Ok [], tick w0))
    /\ (forall userId0 tz0 z w0,
          tzdb env tz0 = Some z ->
          dbUp env (dbCalls w0) = false ->
          fst (getTodaysRevisions env userId0 tz0 w0) = Ok [])
    /\ (forall userId0 tz0 w0,
          exists l w1, getTodaysRevisions env userId0 tz0 w0 = (Ok l, w1)).
Proof.
  intros env userId tz w w' e Hfail.
  pose proof (getTodaysRevisions_failed _ _ _ _ _ _ Hfail) as Hempty.
  pose proof (resolveToday_outbox _ _ _ _ _ _ Hfail) as Hout.
  assert (forall env0 user w0 w1 w2,
            isTargetHourInTimezone env0 6
              (timezoneOrDefault (timezone user)) w0 = (Ok true, w1) ->
            getTodaysRevisions env0 (user_id user)
              (timezoneOrDefault (timezone user)) w1 = (Ok [], w2) ->
            remindUser env0 user w0 = (Ok Skipped, w2)) as Hskip.
  { intros env0 user w0 w1 w2 Hh Hg. rewrite remindUser_steps. cbv zeta.
    now rewrite Hh, Hg. }
  split; [exact Hempty |]. split; [exact Hout |].
  split; [| split; [exact Hskip | split; [| split]]].
  - intros user w0 rest c Hid Htz Hh. subst userId tz.
    pose proof (Hskip env user w0 w w' Hh Hempty) as Hturn.
    split; [exact Hturn |]. split.
    + rewrite Hout. now rewrite (isTargetHour_world _ _ _ _ _ _ Hh).
    + exact (remindAll_cons _ _ _ _ _ _ _ Hturn).
  - intros userId0 tz0 w0 Hz.
    apply getTodaysRevisions_failed
      with (e := RangeError ("Invalid time zone specified: " ++ tz0)).
    now apply resolveToday_unknown_zone.
  - intros userId0 tz0 z w0 Hz Hdb.
    destruct (resolveToday_storage_failure env userId0 tz0 z w0 Hz Hdb)
      as (w1 & Hr).
    now rewrite (getTodaysRevisions_failed _ _ _ _ _ _ Hr).
  - intros. apply getTodaysRevisions_never_throws.
Qed.

(** The database is lost after the users were read: Alice, at her six
    o'clock with a revision due, is passed over without an error. *)
Lemma failed_resolution_is_an_empty_day_witness :
  let env := Sample.envDbLost (fixedZone 0) Sample.sixInKolkata in
  let w := Sample.world Sample.juneTasks [Sample.aliceUser] in
  fst (sendDailyReminders env w)
  = Ok (Some {| remindersSent_ := 0; errors := 0 |})
  /\ outbox (snd (sendDailyReminders env w)) = []
  /\ fst (remindUser env Sample.aliceUser
            {| ticks := 0; dbCalls := 1; nextId := 4096;
               tasksColl := Sample.juneTasks;
               usersColl := [Sample.aliceUser]; outbox := [] |})
     = Ok Skipped.
Proof.
  intros env w.
  split; [vm_compute; reflexivity |]. split; [vm_compute; reflexivity |].
  set (w0 := {| ticks := 0; dbCalls := 1; nextId := 4096;
                tasksColl := Sample.juneTasks;
                usersColl := [Sample.aliceUser]; outbox := [] |}).
  destruct (failed_resolution_is_an_empty_day env Sample.alice
              "Asia/Kolkata" (tick w0)
              (snd (resolveToday env Sample.alice "Asia/Kolkata" (tick w0)))
              StorageError)
    as (_ & _ & Hturn & _).
  - vm_compute. reflexivity.
  - destruct (Hturn Sample.aliceUser w0 [] {| remindersSent_ := 0;
                                               errors := 0 |})
      as (-> & _).
    + reflexivity.
    + reflexivity.
    + vm_compute. reflexivity.
    + reflexivity.
Defined.

End ResolverFailure.

Section UnknownZone.

Import TimezoneUtils CronService.

(** C4, as stated, fails: Carol's zone is unknown; her turn ends in the
    [catch] and sends nothing, her due-set resolves to the empty list,
    while in the default zone she has a revision due and gets her
    reminder. *)
Lemma unknown_zone_no_fallback_counterexample :
  let env := Sample.envAt (fixedZone 0) Sample.sixInKolkata (fun _ => true) in
  let w := Sample.world Sample.juneTasks [Sample.carolUser] in
  tzdb env "Mars/Phobos" = None
  /\ remindUser env Sample.carolUser w = (Ok Errored, tick w)
  /\ outbox (snd (remindUser env Sample.carolUser w)) = []
  /\ fst (remindUser env
            (withTimezone Sample.carolUser (Some defaultTimezone)) w)
     = Ok Sent
  /\ fst (getTodaysRevisions env Sample.carol "Mars/Phobos" w) = Ok []
  /\ option_map (@List.length DueRevision)
       (match fst (getTodaysRevisions env Sample.carol defaultTimezone w) with
        | Ok l => Some l
        | Throw _ => None
        end) = Some 1%nat
  /\ ~ fallsBackToDefaultZone env.
Proof.
  intros env w.
  assert (fst (remindUser env Sample.carolUser w) = Ok Errored) as Hcode
    by (vm_compute; reflexivity).
  assert (fst (remindUser env
                 (withTimezone Sample.carolUser (Some defaultTimezone)) w)
          = Ok Sent) as Hfallback
    by (vm_compute; reflexivity).
  split; [reflexivity |].
  split; [vm_compute; reflexivity |].
  split; [vm_compute; reflexivity |].
  split; [exact Hfallback |].
  split; [vm_compute; reflexivity |].
  split; [vm_compute; reflexivity |].
  intros Hfall.
  specialize (Hfall Sample.carolUser "Mars/Phobos"%string w
                eq_refl eq_refl).
  rewrite Hcode, Hfallback in Hfall. discriminate.
Qed.

Lemma timezoneOrDefault_nonempty s :
  s <> ""%string -> timezoneOrDefault (Some s) = s.
Proof.
  intros H. unfold timezoneOrDefault.
  destruct (String.eqb_spec s ""); [contradiction | reflexivity].
Qed.

(** C4, amended.  For a time zone identifier the database does not know,
    the day bounds and the local-hour test fail with a RangeError.  No
    caller retries with the default zone: [getTodaysRevisions] catches
    the error and returns the empty list, and the loop of the job counts
    the user as an error, sends nothing and goes on with the next user.
    The default zone stands in only for a time zone that is absent or
    empty. *)
Theorem unknown_zone_is_caught_without_fallback :
  forall (env : Env) (tz : string),
    tzdb env tz = None ->
    (forall t,
       getDayBoundsInTimezone env (Some t) tz
       = Throw (RangeError ("Invalid time zone specified: " ++ tz)))
    /\ (forall h w,
          isTargetHourInTimezone env h tz w
          = (Throw (RangeError ("Invalid time zone specified: " ++ tz)),
             tick w))
    /\ (forall userId w,
          getTodaysRevisions env userId tz w = (Ok [], tick w))
    /\ (forall user w rest c,
          timezoneOrDefault (timezone user) = tz ->
          remindUser env user w = (Ok Errored, tick w)
          /\ outbox (tick w) = outbox w
          /\ remindAll env (user :: rest) c w
             = remindAll env rest (count Errored c) (tick w))
    /\ timezoneOrDefault None = defaultTimezone
    /\ timezoneOrDefault (Some ""%string) = defaultTimezone
    /\ (forall s, s <> ""%string -> timezoneOrDefault (Some s) = s).
Proof.
  intros env tz Hz.
  split; [intros t; now apply getDayBounds_unknown_zone |].
  split; [intros h w; now apply isTargetHour_unknown_zone |].
  split.
  { intros userId w.
    apply getTodaysRevisions_failed
      with (e := RangeError ("Invalid time zone specified: " ++ tz)).
    now apply resolveToday_unknown_zone. }
  split.
  { intros user w rest c Htz.
    assert (remindUser env user w = (Ok Errored, tick w)) as Hturn.
    { rewrite remindUser_steps. cbv zeta. rewrite Htz.
      now rewrite (isTargetHour_unknown_zone env 6 tz w Hz). }
    split; [exact Hturn |]. split; [reflexivity |].
    exact (remindAll_cons _ _ _ _ _ _ _ Hturn). }
  split; [reflexivity |]. split; [reflexivity |].
  exact timezoneOrDefault_nonempty.
Qed.

(** Carol, with her unknown zone, is counted as an error; Bob, without a
    zone, is served in the default one. *)
Lemma unknown_zone_is_caught_without_fallback_witness :
  let env := Sample.envAt (fixedZone 0) Sample.sixInKolkata (fun _ => true) in
  let w := Sample.world Sample.juneTasks [Sample.carolUser; Sample.bobUser] in
  exists w',
    remindAll env [Sample.carolUser; Sample.bobUser]
      {| remindersSent_ := 0; errors := 0 |} w
    = (Ok {| remindersSent_ := 1; errors := 1 |}, w')
    /\ map mailTo (outbox w') = [email Sample.bobUser].
Proof.
  intros env w.
  destruct (unknown_zone_is_caught_without_fallback env "Mars/Phobos")
    as (_ & _ & _ & Hturn & _).
  - reflexivity.
  - destruct (Hturn Sample.carolUser w [Sample.bobUser]
                {| remindersSent_ := 0; errors := 0 |})
      as (_ & _ & ->).
    + reflexivity.
    + eexists. split; vm_compute; reflexivity.
Defined.

End UnknownZone.

(* ===================================================================== *)
(** * Rescheduling and postponing, further *)
(* ===================================================================== *)

Section Reschedule.

Import TaskModel TasksController.

Lemma rescheduleRevision_found this revisionId d r :
  revisionsId (AsString revisionId) (revisions this) = Some r ->
  TaskModel.rescheduleRevision revisionId d this
  = (true,
     setRevisions this
       (modifyFirst (idMatches (AsString revisionId)) (setSchedule d)
          (revisions this))).
Proof. intros H. unfold TaskModel.rescheduleRevision. now rewrite H. Qed.

(** X1.  Rescheduling makes the revision pending whatever its status was
    and leaves its [completedAt] stamp and every other revision as they
    were.  It gives the revision the new date when that is a valid date;
    an Invalid Date is not taken: the revision keeps the date it had, and
    the handler's save is refused, the validation error goes to [next]
    and nothing is written. *)
Theorem reschedule_resets_status_only :
  forall (this : Task) (revisionId : string) (newDate : Date) (r : Revision),
    revisionsId (AsString revisionId) (revisions this) = Some r ->
    let this' := snd (TaskModel.rescheduleRevision revisionId newDate this) in
    fst (TaskModel.rescheduleRevision revisionId newDate this) = true
    /\ (exists before after r',
         revisions this = (before ++ r :: after)%list
         /\ revisions this' = (before ++ r' :: after)%list
         /\ revisionsId (AsString revisionId) (revisions this') = Some r'
         /\ rev_id r' = rev_id r
         /\ scheduledDate r'
            = match newDate with
              | Some d => Some d
              | None => scheduledDate r
              end
         /\ status r' = "pending"%string
         /\ completedAt r' = completedAt r
         /\ sentReminder r' = sentReminder r)
    /\ (forall (env : Env) (req : RevisionRequest) (w w1 : World),
          findOne env (rrId req) (rrUser req) w = (Ok (Some this), w1) ->
          rrRevisionId req = revisionId ->
          rrNewDate req = newDate ->
          newDate = None ->
          exists msgs,
            TasksController.rescheduleRevision env req w
            = (Ok (Next (ValidationError msgs)), w1)
            /\ tasksColl w1 = tasksColl w).
Proof.
  intros this revisionId newDate r Hfind this'.
  unfold this'. rewrite (rescheduleRevision_found _ _ newDate _ Hfind).
  split; [reflexivity |]. split.
  - destruct (modifyFirst_split (idMatches (AsString revisionId))
                (setSchedule newDate) _ _ Hfind) as (l1 & l2 & Hl & _ & Hm).
    exists l1, l2, (setSchedule newDate r). cbn [snd revisions setRevisions].
    split; [exact Hl |]. split; [exact Hm |].
    split; [| split; [reflexivity |]; split;
              [destruct newDate; reflexivity | repeat split]].
    unfold revisionsId in *. apply find_modifyFirst; [exact Hfind |].
    rewrite idMatches_setSchedule. exact (find_some_holds _ _ _ Hfind).
  - intros env req w w1 Hf Hid Hd Hnone.
    destruct (findOne_found _ _ _ _ _ _ Hf) as (Hcoll & _).
    unfold TasksController.rescheduleRevision, catch, bind. rewrite Hf.
    rewrite Hid, Hd.
    rewrite (rescheduleRevision_found _ _ newDate _ Hfind).
    change (negb true) with false. cbv beta iota.
    rewrite Hnone. cbn [saveAssigned]. unfold throw, ret.
    eexists. split; [reflexivity | exact Hcoll].
Qed.

Lemma reschedule_resets_status_only_witness :
  option_map (fun r => (scheduledDate r, status r, completedAt r))
    (revisionsId (AsString "000000000000000000000012")
       (revisions
          (snd (TaskModel.rescheduleRevision "000000000000000000000012"
                  (Some (utc 2024 1 20 0 0 0 0)) Sample.januaryTask))))
  = Some (Some (utc 2024 1 20 0 0 0 0), "pending"%string,
          Some (utc 2024 1 6 9 0 0 0))
  /\ option_map (fun r => (scheduledDate r, status r, completedAt r))
       (revisionsId (AsString "000000000000000000000012")
          (revisions
             (snd (TaskModel.rescheduleRevision "000000000000000000000012"
                     None Sample.januaryTask))))
     = Some (Some (utc 2024 1 6 0 0 0 0), "pending"%string,
             Some (utc 2024 1 6 9 0 0 0)).
Proof.
  split.
  - destruct (reschedule_resets_status_only Sample.januaryTask
                "000000000000000000000012" (Some (utc 2024 1 20 0 0 0 0))
                {| rev_id := 18%N;
                   scheduledDate := Some (utc 2024 1 6 0 0 0 0);
                   status := "done"; sentReminder := false;
                   completedAt := Some (utc 2024 1 6 9 0 0 0);
                   remindersSent := 0; lastReminderSent := None |})
      as (_ & (l1 & l2 & r' & _ & _ & Hlook & _ & Hd & Hs & Hc & _) & _).
    + vm_compute. reflexivity.
    + rewrite Hlook. simpl. rewrite Hd, Hs, Hc. reflexivity.
  - destruct (reschedule_resets_status_only Sample.januaryTask
                "000000000000000000000012" None
                {| rev_id := 18%N;
                   scheduledDate := Some (utc 2024 1 6 0 0 0 0);
                   status := "done"; sentReminder := false;
                   completedAt := Some (utc 2024 1 6 9 0 0 0);
                   remindersSent := 0; lastReminderSent := None |})
      as (_ & (l1 & l2 & r' & _ & _ & Hlook & _ & Hd & Hs & Hc & _) & _).
    + vm_compute. reflexivity.
    + rewrite Hlook. simpl. rewrite Hd, Hs, Hc. reflexivity.
Defined.

(** X2.  Asking, through the handler, for a date before the task's completion
    date is refused by the validator and nothing is written. *)
Theorem reschedule_before_completion_is_refused :
  forall (env : Env) (req : RevisionRequest) (w w1 : World) (task : Task)
         (r : Revision) (d c : Z),
    findOne env (rrId req) (rrUser req) w = (Ok (Some task), w1) ->
    revisionsId (AsString (rrRevisionId req)) (revisions task) = Some r ->
    rrNewDate req = Some d ->
    completedDate task = Some c ->
    d < c ->
    exists msgs,
      TasksController.rescheduleRevision env req w
      = (Ok (Next (ValidationError msgs)), w1)
      /\ In revisionDatesMessage msgs
      /\ tasksColl w1 = tasksColl w.
Proof.
  intros env req w w1 task r d c Hf Hr Hd Hc Hlt.
  destruct (findOne_found _ _ _ _ _ _ Hf) as (Hcoll & _).
  unfold TasksController.rescheduleRevision, catch, bind. rewrite Hf.
  rewrite (rescheduleRevision_found _ _ (rrNewDate req) _ Hr).
  change (negb true) with false. cbv beta iota.
  rewrite Hd. cbn [saveAssigned].
  set (task' := setRevisions task _).
  destruct (save_rejects_early_revision env task' w1
              (setSchedule (Some d) r)) as [Hsave Hmsg].
  - unfold task'. simpl.
    destruct (modifyFirst_split (idMatches (AsString (rrRevisionId req)))
                (setSchedule (Some d)) _ _ Hr)
      as (l1 & l2 & _ & _ & ->).
    apply in_or_app. right. left. reflexivity.
  - simpl scheduledDate.
    change (completedDate task') with (completedDate task). rewrite Hc.
    now apply date_geb_false_lt.
  - rewrite Hsave. unfold ret.
    eexists. split; [reflexivity |]. split; [exact Hmsg | exact Hcoll].
Qed.

Lemma reschedule_before_completion_is_refused_witness :
  let env := Sample.envAt (fixedZone 0) 0 (fun _ => true) in
  let w := Sample.world [Sample.januaryTask] [] in
  let req :=
    {| rrId := Sample.taskHex; rrRevisionId := Sample.revHex;
       rrUser := Sample.alice; rrStatus := None;
       rrNewDate := Some (utc 2024 1 2 0 0 0 0) |} in
  exists msgs w1,
    TasksController.rescheduleRevision env req w
    = (Ok (Next (ValidationError msgs)), w1)
    /\ tasksColl w1 = [Sample.januaryTask].
Proof.
  intros env w req.
  destruct (reschedule_before_completion_is_refused env req w
              {| ticks := 0; dbCalls := 1; nextId := 4096;
                 tasksColl := [Sample.januaryTask]; usersColl := [];
                 outbox := [] |}
              Sample.januaryTask
              {| rev_id := 17%N;
                 scheduledDate := Some (utc 2024 1 10 0 0 0 0);
                 status := "pending"; sentReminder := false;
                 completedAt := None; remindersSent := 0;
                 lastReminderSent := None |}
              (utc 2024 1 2 0 0 0 0) (utc 2024 1 3 0 0 0 0))
    as (msgs & Hrun & _ & Hcoll).
  - reflexivity.
  - vm_compute. reflexivity.
  - reflexivity.
  - reflexivity.
  - vm_compute. reflexivity.
  - exists msgs. eexists. split; [exact Hrun | exact Hcoll].
Defined.

End Reschedule.

Section PostponeValidity.

Import TaskModel TasksController.

Lemma validate_nil_parts this :
  validate this = [] ->
  flat_map validateRevision (revisions this) = []
  /\ revisionsValidator this (revisions this) = true.
Proof.
  unfold validate. intros H.
  apply app_eq_nil in H. destruct H as [_ H].
  apply app_eq_nil in H. destruct H as [_ H].
  apply app_eq_nil in H. destruct H as [_ H].
  apply app_eq_nil in H. destruct H as [Hf H]. split; [exact Hf |].
  destruct (revisionsValidator this (revisions this));
    [reflexivity | discriminate].
Qed.

(** Only the revisions matter when the other fields are kept. *)
Lemma validate_setRevisions this revs :
  validate this = [] ->
  flat_map validateRevision revs = [] ->
  revisionsValidator this revs = true ->
  validate (setRevisions this revs) = [].
Proof.
  unfold validate. intros H Hf Hv. simpl.
  apply app_eq_nil in H. destruct H as [H1 H].
  apply app_eq_nil in H. destruct H as [H2 H].
  apply app_eq_nil in H. destruct H as [H3 _].
  rewrite H1, H2, H3, Hf.
  change (revisionsValidator (setRevisions this revs) revs)
    with (revisionsValidator this revs).
  now rewrite Hv.
Qed.

Lemma next_midnight_is_later d : d < nextUTCMidnight d.
Proof.
  unfold nextUTCMidnight, startOfUTCDay, Day, msPerDay.
  Z.div_mod_to_equations. lia.
Qed.

Lemma next_midnight_in_range d :
  - maxTime <= d -> d + msPerDay <= maxTime ->
  - maxTime <= nextUTCMidnight d <= maxTime.
Proof.
  unfold nextUTCMidnight, startOfUTCDay, Day, msPerDay, maxTime.
  intros. Z.div_mod_to_equations. lia.
Qed.

Lemma save_stored_valid env this w :
  isNew this = false ->
  validate this = [] ->
  dbUp env (dbCalls w) = true ->
  save env this w
  = (Ok (markStored this),
     {| ticks := ticks w; dbCalls := S (dbCalls w); nextId := nextId w;
        tasksColl := replaceTask (markStored this) (tasksColl w);
        usersColl := usersColl w; outbox := outbox w |}).
Proof.
  intros Hnew Hv Hdb. unfold save, preSave. rewrite Hv, Hnew. simpl.
  unfold bind, ret. rewrite Hnew.
  unfold writeTask, bind, dbCall, setTasks, ret. rewrite Hdb, Hnew.
  reflexivity.
Qed.

(** X3.  Postponing keeps a valid task valid: the new date is later than the
    old one, hence not before the completion date, and the status is one
    of the schema's.  So the handler's save goes through whenever the
    database answers, and the answer is the 200 with the new date. *)
Theorem postponing_keeps_the_task_valid :
  forall (env : Env) (req : RevisionRequest) (w w1 : World)
         (task : Task) (r : Revision) (d : Z),
    isPostponed (rrStatus req) = true ->
    findOne env (rrId req) (rrUser req) w = (Ok (Some task), w1) ->
    revisionsId (AsString (rrRevisionId req)) (revisions task) = Some r ->
    scheduledDate r = Some d ->
    - maxTime <= d ->
    d + msPerDay <= maxTime ->
    validate task = [] ->
    validate (snd (postponeRevision (rrRevisionId req) task)) = []
    /\ (dbUp env (dbCalls w1) = true ->
        exists saved w2,
          markRevisionComplete env req w
          = (Ok (Json 200
                   (Postponed saved
                      {| pdNewDate := Some (nextUTCMidnight d);
                         pdNextInterval := 1;
                         pdNewStatus := "pending" |})), w2)
          /\ validate saved = []
          /\ In saved (tasksColl w2)).
Proof.
  intros env req w w1 task r d Hp Hf Hr Hd Hlo Hhi Hvalid.
  pose proof (tomorrowOf_next_midnight d Hlo Hhi) as Ht.
  rewrite <- Hd in Ht.
  set (task' := setRevisions task
                  (modifyFirst (idMatches (AsString (rrRevisionId req)))
                     (setSchedule (tomorrowOf (scheduledDate r)))
                     (revisions task))).
  assert (validate task' = []) as Hvalid'.
  { destruct (validate_nil_parts task Hvalid) as [Hflat Hdates].
    destruct (modifyFirst_split (idMatches (AsString (rrRevisionId req)))
                (setSchedule (tomorrowOf (scheduledDate r))) _ _ Hr)
      as (l1 & l2 & Hl & _ & Hm).
    unfold task'. apply validate_setRevisions; [exact Hvalid | |].
    - rewrite Hm. rewrite Hl in Hflat.
      rewrite flat_map_app in *. simpl in *.
      apply app_eq_nil in Hflat. destruct Hflat as [H1 H2].
      apply app_eq_nil in H2. destruct H2 as [_ H2].
      rewrite H1, H2, Ht. reflexivity.
    - rewrite Hm. unfold revisionsValidator in *. rewrite Hl in Hdates.
      rewrite forallb_app in *. simpl in *.
      apply andb_true_iff in Hdates. destruct Hdates as [H1 H2].
      apply andb_true_iff in H2. destruct H2 as [Hr0 H2].
      rewrite H1, H2, Ht. rewrite Hd in Hr0.
      destruct (completedDate task) as [c |]; [| discriminate].
      simpl in *. apply Z.leb_le in Hr0.
      pose proof (next_midnight_is_later d).
      rewrite andb_true_r. apply Z.leb_le. lia. }
  split.
  - rewrite (postponeRevision_found _ _ _ Hr). exact Hvalid'.
  - intros Hdb.
    pose proof (findOne_not_new _ _ _ _ _ _ Hf) as Hnew.
    pose proof (save_stored_valid env task' w1 Hnew Hvalid' Hdb) as Hsave.
    assert (isSomeDate (tomorrowOf (scheduledDate r)) = true) as Hsome
      by now rewrite Ht.
    destruct (markRevisionComplete_postpone_reply env req w w1 task r _ _
                Hp Hf Hr Hsome Hsave) as [Hreply Hin].
    rewrite Ht in Hreply.
    eexists. eexists. split; [exact Hreply |]. split; [| exact Hin].
    exact Hvalid'.
Qed.

Lemma postponing_keeps_the_task_valid_witness :
  let env := Sample.envAt (fixedZone 0) 0 (fun _ => true) in
  let w := Sample.world [Sample.januaryTask] [] in
  exists saved w2,
    markRevisionComplete env Sample.postponeRequest w
    = (Ok (Json 200
             (Postponed saved
                {| pdNewDate := Some (utc 2024 1 11 0 0 0 0);
                   pdNextInterval := 1; pdNewStatus := "pending" |})), w2)
    /\ validate saved = [].
Proof.
  intros env w.
  destruct (postponing_keeps_the_task_valid env Sample.postponeRequest w
              {| ticks := 0; dbCalls := 1; nextId := 4096;
                 tasksColl := [Sample.januaryTask]; usersColl := [];
                 outbox := [] |}
              Sample.januaryTask
              {| rev_id := 17%N;
                 scheduledDate := Some (utc 2024 1 10 0 0 0 0);
                 status := "pending"; sentReminder := false;
                 completedAt := None; remindersSent := 0;
                 lastReminderSent := None |}
              (utc 2024 1 10 0 0 0 0))
    as (_ & Hrun).
  - reflexivity.
  - vm_compute. reflexivity.
  - vm_compute. reflexivity.
  - reflexivity.
  - vm_compute. discriminate.
  - vm_compute. discriminate.
  - vm_compute. reflexivity.
  - destruct (Hrun eq_refl) as (saved & w2 & Hreply & Hv & _).
    exists saved, w2. split; [exact Hreply | exact Hv].
Defined.

End PostponeValidity.

Section PostponeAgain.

Import TaskModel.

Lemma revisions_setRevisions t l : revisions (setRevisions t l) = l.
Proof. reflexivity. Qed.

Lemma startOfUTCDay_next d :
  startOfUTCDay (nextUTCMidnight d) = nextUTCMidnight d.
Proof.
  unfold nextUTCMidnight, startOfUTCDay, Day, msPerDay.
  Z.div_mod_to_equations. lia.
Qed.

(** X4.  Postponing the same revision [k] times in a row, [k >= 1], leaves it
    at UTC midnight [k] days after the UTC day it was first scheduled
    on, pending. *)
Theorem postponing_k_times_moves_k_days :
  forall (this : Task) (revisionId : string) (r : Revision) (d : Z)
         (k : nat),
    revisionsId (AsString revisionId) (revisions this) = Some r ->
    scheduledDate r = Some d ->
    - maxTime <= d ->
    d + msPerDay <= maxTime ->
    startOfUTCDay d + Z.of_nat (S k) * msPerDay <= maxTime ->
    revisionsId (AsString revisionId)
      (revisions
         (Nat.iter (S k) (fun t => snd (postponeRevision revisionId t)) this))
    = Some (setSchedule
              (Some (startOfUTCDay d + Z.of_nat (S k) * msPerDay)) r).
Proof.
  intros this revisionId r d k Hfind Hd Hlo Hhi.
  induction k as [| k IH]; intros Hk.
  - simpl Nat.iter. rewrite (postponeRevision_found _ _ _ Hfind). simpl.
    rewrite Hd, (tomorrowOf_next_midnight d Hlo Hhi).
    unfold revisionsId in *.
    rewrite (find_modifyFirst _ _ _ _ Hfind)
      by (rewrite idMatches_setSchedule;
          exact (find_some_holds _ _ _ Hfind)).
    replace (startOfUTCDay d + Z.of_nat 1 * msPerDay)
      with (nextUTCMidnight d) by (unfold nextUTCMidnight; lia).
    reflexivity.
  - assert (0 < msPerDay) as Hpos by (unfold msPerDay; lia).
    assert (startOfUTCDay d + Z.of_nat (S k) * msPerDay <= maxTime) as Hk'
      by lia.
    specialize (IH Hk').
    change (Nat.iter (S (S k)) (fun t => snd (postponeRevision revisionId t))
              this)
      with (snd (postponeRevision revisionId
                   (Nat.iter (S k)
                      (fun t => snd (postponeRevision revisionId t)) this))).
    rewrite (postponeRevision_found _ _ _ IH). cbn [snd].
    rewrite revisions_setRevisions.
    set (v := startOfUTCDay d + Z.of_nat (S k) * msPerDay) in *.
    assert (- maxTime <= v) as Hvlo.
    { pose proof (day_start_in_range d) as Hs.
      pose proof (next_midnight_in_range d Hlo Hhi).
      unfold v, startOfUTCDay, nextUTCMidnight, startOfUTCDay in *. lia. }
    assert (v + msPerDay <= maxTime) as Hvhi by (unfold v in *; lia).
    change (scheduledDate (setSchedule (Some v) r)) with (Some v).
    rewrite (tomorrowOf_next_midnight v Hvlo Hvhi).
    unfold revisionsId in *.
    rewrite (find_modifyFirst _ _ _ _ IH) by (exact (find_some_holds _ _ _ Hfind)).
    assert (nextUTCMidnight v
            = startOfUTCDay d + Z.of_nat (S (S k)) * msPerDay) as ->.
    { unfold v, nextUTCMidnight, startOfUTCDay.
      replace (Day d * msPerDay + Z.of_nat (S k) * msPerDay)
        with (Day d * msPerDay + 0 + Z.of_nat (S k) * msPerDay) by lia.
      rewrite Day_add_days.
      assert (Day (Day d * msPerDay + 0) = Day d) as ->.
      { unfold Day. rewrite Z.add_0_r. apply Z.div_mul.
        unfold msPerDay. lia. }
      lia. }
    reflexivity.
Qed.

Lemma postponing_k_times_moves_k_days_witness :
  option_map (fun r => (scheduledDate r, status r))
    (revisionsId (AsString Sample.revHex)
       (revisions
          (Nat.iter 3
             (fun t => snd (postponeRevision Sample.revHex t))
             Sample.januaryTask)))
  = Some (Some (utc 2024 1 13 0 0 0 0), "pending"%string).
Proof.
  rewrite (postponing_k_times_moves_k_days Sample.januaryTask Sample.revHex
             {| rev_id := 17%N;
                scheduledDate := Some (utc 2024 1 10 0 0 0 0);
                status := "pending"; sentReminder := false;
                completedAt := None; remindersSent := 0;
                lastReminderSent := None |}
             (utc 2024 1 10 0 0 0 0) 2).
  - vm_compute. reflexivity.
  - vm_compute. reflexivity.
  - reflexivity.
  - vm_compute. discriminate.
  - vm_compute. discriminate.
  - vm_compute. discriminate.
Defined.

End PostponeAgain.

(* ===================================================================== *)
(** * The virtuals of a task and the day queries *)
(* ===================================================================== *)

Section TaskVirtuals.

Import TaskModel TaskQueries.

Lemma flat_map_nil {A B} (f : A -> list B) l x :
  flat_map f l = [] -> In x l -> f x = [].
Proof.
  induction l as [| a l IH]; simpl; [contradiction |].
  intros H [-> | Hin]; apply app_eq_nil in H; destruct H as [H1 H2];
    [exact H1 | exact (IH H2 Hin)].
Qed.

(** A document that validates has a date on every revision. *)
Lemma validate_dates_present this r :
  validate this = [] -> In r (revisions this) ->
  exists s, scheduledDate r = Some s.
Proof.
  intros Hv Hin. destruct (validate_nil_parts this Hv) as [Hflat _].
  pose proof (flat_map_nil _ _ _ Hflat Hin) as Hr.
  unfold validateRevision in Hr. apply app_eq_nil in Hr.
  destruct Hr as [Hr _].
  destruct (scheduledDate r) as [s |]; [eauto | discriminate].
Qed.

Lemma filter_split_length {A} (p q q' : A -> bool) l :
  (forall x, In x l -> p x = true -> q' x = negb (q x)) ->
  List.length (filter p l)
  = (List.length (filter (fun x => p x && q x) l)
     + List.length (filter (fun x => p x && q' x) l))%nat.
Proof.
  induction l as [| a l IH]; intros H; [reflexivity |].
  simpl. specialize (IH (fun x Hx => H x (or_intror Hx))).
  pose proof (H a (or_introl eq_refl)) as Ha.
  destruct (p a); simpl; [| exact IH].
  rewrite (Ha eq_refl). destruct (q a); simpl; lia.
Qed.

(** X5.  The pending revisions of a valid task are the upcoming and the
    overdue ones: with a clock that does not run backwards each pending
    revision is in one of the two lists, and when both getters read the
    same instant it is in exactly one. *)
Theorem pending_splits_into_upcoming_and_overdue :
  forall (env : Env) (this : Task) (w : World),
    validate this = [] ->
    exists up od,
      upcomingRevisions env this w = (Ok up, tick w)
      /\ overdueRevisions env this (tick w) = (Ok od, tick (tick w))
      /\ (forall r, In r up \/ In r od -> In r (pendingRevisions this))
      /\ (clock env (ticks w) <= clock env (S (ticks w)) ->
          forall r, In r (pendingRevisions this) -> In r up \/ In r od)
      /\ (clock env (ticks w) = clock env (S (ticks w)) ->
          List.length (pendingRevisions this)
          = (List.length up + List.length od)%nat
          /\ forall r, ~ (In r up /\ In r od)).
Proof.
  intros env this w Hv.
  eexists. eexists. split; [reflexivity |]. split; [reflexivity |].
  cbn [tick ticks]. unfold pendingRevisions.
  split; [| split].
  - intros r [H | H]; apply filter_In in H; destruct H as [Hin Hc];
      apply andb_true_iff in Hc; destruct Hc as [Hp _];
      apply filter_In; auto.
  - intros Hmono r Hr. apply filter_In in Hr. destruct Hr as [Hin Hp].
    destruct (validate_dates_present this r Hv Hin) as [s Hs].
    destruct (Z.leb_spec (clock env (ticks w)) s) as [Hge | Hlt].
    + left. apply filter_In. split; [exact Hin |].
      rewrite Hp, Hs. simpl. apply Z.leb_le. exact Hge.
    + right. apply filter_In. split; [exact Hin |].
      rewrite Hp, Hs. simpl. apply Z.ltb_lt. lia.
  - intros Heq. rewrite <- Heq. split.
    + apply filter_split_length. intros r Hin _.
      destruct (validate_dates_present this r Hv Hin) as [s ->].
      simpl. apply Z.ltb_antisym.
    + intros r [H1 H2].
      apply filter_In in H1. destruct H1 as [Hin H1].
      apply filter_In in H2. destruct H2 as [_ H2].
      apply andb_true_iff in H1. destruct H1 as [_ H1].
      apply andb_true_iff in H2. destruct H2 as [_ H2].
      destruct (scheduledDate r) as [s |]; [| discriminate].
      simpl in H1, H2. apply Z.leb_le in H1. apply Z.ltb_lt in H2. lia.
Qed.

Lemma pending_splits_into_upcoming_and_overdue_witness :
  let env := Sample.envAt (fixedZone 0) (utc 2024 1 8 0 0 0 0)
               (fun _ => true) in
  exists up od : list Revision,
    upcomingRevisions env Sample.januaryTask (Sample.world [] [])
    = (Ok up, tick (Sample.world [] []))
    /\ List.length (pendingRevisions Sample.januaryTask)
       = (List.length up + List.length od)%nat.
Proof.
  intros env.
  destruct (pending_splits_into_upcoming_and_overdue env Sample.januaryTask
              (Sample.world [] []))
    as (up & od & Hup & _ & _ & _ & Hsame).
  - vm_compute. reflexivity.
  - exists up, od. split; [exact Hup |].
    destruct (Hsame eq_refl) as [Hlen _]. exact Hlen.
Defined.

End TaskVirtuals.

Section DayQueries.

Import TaskModel TaskQueries CronService.

Lemma same_day_bounds s t :
  (Day t * msPerDay <= s /\ s <= Day t * msPerDay + (msPerDay - 1))
  <-> Day s = Day t.
Proof.
  unfold Day, msPerDay. split; intros H; Z.div_mod_to_equations; lia.
Qed.

(** On a host that keeps one offset from UTC, [setHours] gives the
    bounds of the host's local day. *)
Lemma setHours_day_bounds h t :
  - msPerDay <= h <= msPerDay ->
  - maxTime + 2 * msPerDay <= t <= maxTime - 2 * msPerDay ->
  setHours (fixedZone h) (Some t) 0 0 0 0
  = Some (Day (t + h) * msPerDay - h)
  /\ setHours (fixedZone h) (Some t) 23 59 59 999
     = Some (Day (t + h) * msPerDay + (msPerDay - 1) - h).
Proof.
  intros Hh Ht. unfold setHours, LocalTime, UTC, MakeDate, MakeTime.
  cbn [utcOffset localOffset fixedZone].
  assert (t + h - msPerDay < Day (t + h) * msPerDay <= t + h) as Hr.
  { unfold Day, msPerDay. Z.div_mod_to_equations. lia. }
  unfold msPerHour, msPerMinute, msPerSecond.
  assert (msPerDay = 86400000) as Hd by reflexivity.
  split; rewrite TimeClip_in_range by lia; f_equal; lia.
Qed.

(** X6.  [getRevisionsDue(date)] on a host at a fixed offset: the pending
    revisions scheduled on the host's calendar day of [date]. *)
Theorem getRevisionsDue_is_the_hosts_local_day :
  forall (env : Env) (this : Task) (h t : Z) (r : Revision),
    hostZone env = fixedZone h ->
    - msPerDay <= h <= msPerDay ->
    - maxTime + 2 * msPerDay <= t <= maxTime - 2 * msPerDay ->
    In r (getRevisionsDue env (Some t) this)
    <-> In r (revisions this)
        /\ status r = "pending"%string
        /\ exists s, scheduledDate r = Some s /\ Day (s + h) = Day (t + h).
Proof.
  intros env this h t r Hhost Hh Ht.
  unfold getRevisionsDue. rewrite Hhost.
  destruct (setHours_day_bounds h t Hh Ht) as [-> ->].
  rewrite filter_In. unfold date_leb.
  split.
  - intros (Hin & Hc).
    apply andb_true_iff in Hc. destruct Hc as [Hc Hs].
    apply andb_true_iff in Hc. destruct Hc as [Hge Hle].
    apply String.eqb_eq in Hs.
    split; [exact Hin |]. split; [exact Hs |].
    destruct (scheduledDate r) as [s |]; [| discriminate].
    exists s. split; [reflexivity |].
    unfold date_geb in Hge, Hle.
    apply Z.leb_le in Hge. apply Z.leb_le in Hle.
    apply same_day_bounds. lia.
  - intros (Hin & Hs & s & Hd & Hday).
    split; [exact Hin |]. rewrite Hd, Hs. unfold date_geb.
    apply same_day_bounds in Hday.
    rewrite String.eqb_refl, andb_true_r. apply andb_true_iff.
    split; apply Z.leb_le; lia.
Qed.

Lemma getRevisionsDue_is_the_hosts_local_day_witness :
  let env := Sample.envAt (fixedZone (minutes 330)) 0 (fun _ => true) in
  In {| rev_id := 17%N; scheduledDate := Some (utc 2024 1 10 0 0 0 0);
        status := "pending"; sentReminder := false; completedAt := None;
        remindersSent := 0; lastReminderSent := None |}
     (getRevisionsDue env (Some (utc 2024 1 9 20 0 0 0)) Sample.januaryTask).
Proof.
  intros env.
  apply (getRevisionsDue_is_the_hosts_local_day env Sample.januaryTask
           (minutes 330) (utc 2024 1 9 20 0 0 0)).
  - reflexivity.
  - vm_compute. split; discriminate.
  - vm_compute. split; discriminate.
  - split; [left; reflexivity |]. split; [reflexivity |].
    eexists. split; [reflexivity |]. vm_compute. reflexivity.
Defined.

(** An invalid date selects nothing. *)
Lemma getRevisionsDue_invalid_date env this :
  getRevisionsDue env None this = [].
Proof.
  unfold getRevisionsDue. simpl.
  induction (revisions this) as [| r l IH]; [reflexivity |].
  simpl. rewrite IH.
  destruct (scheduledDate r); reflexivity.
Qed.

Lemma setUTCHours_day_bounds t :
  - maxTime <= t < maxTime ->
  setUTCHours (Some t) 0 0 0 0 = Some (Day t * msPerDay)
  /\ setUTCHours (Some t) 23 59 59 999
     = Some (Day t * msPerDay + (msPerDay - 1)).
Proof.
  intros Ht. unfold setUTCHours, MakeDate, MakeTime.
  assert (- maxTime <= Day t * msPerDay <= maxTime - msPerDay) as Hr.
  { unfold Day, msPerDay, maxTime in *. Z.div_mod_to_equations. lia. }
  unfold msPerHour, msPerMinute, msPerSecond.
  assert (msPerDay = 86400000) as Hd by reflexivity.
  split; rewrite TimeClip_in_range by lia; f_equal; lia.
Qed.

(** X7.  [Task.findRevisionsDueOnDate(userId, date)], whatever the host's
    zone: the pending revisions of the user's tasks that are not
    archived, scheduled on the UTC calendar day of [date].  It only
    reads. *)
Theorem findRevisionsDueOnDate_is_the_utc_day :
  forall (env : Env) (userId : ObjectId) (t : Z) (w : World),
    - maxTime <= t < maxTime ->
    dbUp env (dbCalls w) = true ->
    exists items w',
      findRevisionsDueOnDate env userId (Some t) w = (Ok items, w')
      /\ tasksColl w' = tasksColl w
      /\ forall task r,
           In (task, r) items
           <-> In task (tasksColl w)
               /\ user task = userId
               /\ isArchived task = false
               /\ In r (revisions task)
               /\ status r = "pending"%string
               /\ exists s, scheduledDate r = Some s /\ Day s = Day t.
Proof.
  intros env userId t w Ht Hdb.
  unfold findRevisionsDueOnDate.
  destruct (setUTCHours_day_bounds t Ht) as [-> ->].
  unfold bind, toISOString, ret, dbCall. rewrite Hdb.
  eexists. eexists. split; [reflexivity |]. split; [reflexivity |].
  intros task r. cbn [tasksColl]. rewrite dueItems_In. unfold date_leb.
  split.
  - intros (Hin & Hu & Ha & Hr & Hge & Hle & Hs).
    repeat (split; [assumption |]).
    destruct (scheduledDate r) as [s |]; [| discriminate].
    exists s. split; [reflexivity |].
    unfold date_geb in Hge, Hle.
    apply Z.leb_le in Hge. apply Z.leb_le in Hle.
    apply same_day_bounds. lia.
  - intros (Hin & Hu & Ha & Hr & Hs & s & Hd & Hday).
    repeat (split; [assumption |]).
    apply same_day_bounds in Hday. rewrite Hd. unfold date_geb.
    split; [| split; [| exact Hs]]; apply Z.leb_le; lia.
Qed.

Lemma findRevisionsDueOnDate_is_the_utc_day_witness :
  let env := Sample.envAt (fixedZone (minutes 330)) 0 (fun _ => true) in
  exists items w',
    findRevisionsDueOnDate env Sample.alice
      (Some (utc 2024 6 15 23 0 0 0)) (Sample.world Sample.juneTasks [])
    = (Ok items, w')
    /\ In (Sample.juneTask 256 Sample.alice,
           {| rev_id := 257%N;
              scheduledDate := Some (utc 2024 6 15 0 0 0 0);
              status := "pending"; sentReminder := false;
              completedAt := None; remindersSent := 0;
              lastReminderSent := None |}) items.
Proof.
  intros env.
  destruct (findRevisionsDueOnDate_is_the_utc_day env Sample.alice
              (utc 2024 6 15 23 0 0 0) (Sample.world Sample.juneTasks []))
    as (items & w' & Hrun & _ & Hin).
  - vm_compute. split; [discriminate | reflexivity].
  - reflexivity.
  - exists items, w'. split; [exact Hrun |].
    apply Hin. split; [left; reflexivity |].
    split; [reflexivity |]. split; [reflexivity |].
    split; [left; reflexivity |]. split; [reflexivity |].
    eexists. split; [reflexivity |]. vm_compute. reflexivity.
Defined.

(** X8.  With an invalid date, or one in the last representable day, whose
    end of day is out of range, the query is never made: logging the
    bounds throws. *)
Theorem findRevisionsDueOnDate_throws_on_invalid_date :
  forall (env : Env) (userId : ObjectId) (date : Date) (w : World),
    date = None \/ (exists t, date = Some t /\ maxTime <= t) ->
    findRevisionsDueOnDate env userId date w
    = (Throw (RangeError "Invalid time value"), w).
Proof.
  intros env userId date w [-> | (t & -> & Ht)]; [reflexivity |].
  unfold findRevisionsDueOnDate.
  assert (setUTCHours (Some t) 23 59 59 999 = None) as Hend.
  { unfold setUTCHours. apply TimeClip_out_of_range.
    unfold MakeDate, MakeTime, Day, msPerHour, msPerMinute, msPerSecond,
      msPerDay, maxTime in *.
    Z.div_mod_to_equations. lia. }
  rewrite Hend. unfold bind, toISOString, ret, throw.
  destruct (setUTCHours (Some t) 0 0 0 0); reflexivity.
Qed.

Lemma findRevisionsDueOnDate_throws_on_invalid_date_witness :
  findRevisionsDueOnDate (Sample.envAt (fixedZone 0) 0 (fun _ => true))
    Sample.alice (Some maxTime) (Sample.world Sample.juneTasks [])
  = (Throw (RangeError "Invalid time value"),
     Sample.world Sample.juneTasks []).
Proof.
  apply findRevisionsDueOnDate_throws_on_invalid_date.
  right. exists maxTime. split; [reflexivity | lia].
Defined.

End DayQueries.

(* ===================================================================== *)
(** * The hour test and the conversion between zones *)
(* ===================================================================== *)

Section HourTest.

Import TimezoneUtils TimezoneTools.

Lemma HourFromTime_without_ms t :
  HourFromTime (t - msFromTime t) = HourFromTime t.
Proof.
  unfold HourFromTime, msFromTime, msPerHour, msPerSecond.
  Z.div_mod_to_equations. lia.
Qed.

(** The date [getCurrentTimeInTimezone] makes reads, on the host's wall
    clock, what the wall clock of the zone shows. *)
Lemma getCurrentTime_fixed_offsets env timezone h u w :
  hostZone env = fixedZone h ->
  tzdb env timezone = Some (fixedZone u) ->
  - msPerDay <= h <= msPerDay ->
  - msPerDay <= u <= msPerDay ->
  - maxTime + 3 * msPerDay <= clock env (ticks w)
    <= maxTime - 3 * msPerDay ->
  getCurrentTimeInTimezone env timezone w
  = (Ok (Some (clock env (ticks w) + u
               - msFromTime (clock env (ticks w) + u) - h)), tick w).
Proof.
  intros Hh Hu Hhr Hur Ht.
  unfold getCurrentTimeInTimezone, bind, newDate, liftResult, ret,
    toLocaleString.
  rewrite Hu. cbn [utcOffset fixedZone].
  rewrite parse_wallClockAt, Hh. unfold UTC. cbn [localOffset fixedZone].
  pose proof (Z.mod_pos_bound (clock env (ticks w) + u) 1000 ltac:(lia))
    as Hms.
  fold msPerSecond in Hms. fold (msFromTime (clock env (ticks w) + u)) in Hms.
  unfold msPerSecond in Hms.
  assert (msPerDay = 86400000) as Hd by reflexivity.
  rewrite TimeClip_in_range by lia. reflexivity.
Qed.

(** X9.  On a host that keeps one offset, whatever it is, the hour test
    compares the target with the hour on the wall clock of the user's
    zone. *)
Theorem hour_test_reads_the_zones_wall_clock :
  forall (env : Env) (targetHour : Z) (timezone : string) (h u : Z)
         (w : World),
    hostZone env = fixedZone h ->
    tzdb env timezone = Some (fixedZone u) ->
    - msPerDay <= h <= msPerDay ->
    - msPerDay <= u <= msPerDay ->
    - maxTime + 3 * msPerDay <= clock env (ticks w)
      <= maxTime - 3 * msPerDay ->
    isTargetHourInTimezone env targetHour timezone w
    = (Ok (HourFromTime (clock env (ticks w) + u) =? targetHour), tick w).
Proof.
  intros env targetHour timezone h u w Hh Hu Hhr Hur Ht.
  unfold isTargetHourInTimezone, bind.
  rewrite (getCurrentTime_fixed_offsets env timezone h u w Hh Hu Hhr Hur Ht).
  unfold ret, getHours, LocalTime. rewrite Hh.
  cbn [option_map utcOffset fixedZone].
  replace (clock env (ticks w) + u - msFromTime (clock env (ticks w) + u)
           - h + h)
    with (clock env (ticks w) + u - msFromTime (clock env (ticks w) + u))
    by lia.
  now rewrite HourFromTime_without_ms.
Qed.

Lemma hour_test_reads_the_zones_wall_clock_witness :
  isTargetHourInTimezone
    (Sample.envAt (fixedZone (minutes 540)) Sample.sixInKolkata
       (fun _ => true))
    6 "Asia/Kolkata" (Sample.world [] [])
  = (Ok true, tick (Sample.world [] [])).
Proof.
  rewrite (hour_test_reads_the_zones_wall_clock _ 6 "Asia/Kolkata"
             (minutes 540) (minutes 330)).
  - vm_compute. reflexivity.
  - reflexivity.
  - reflexivity.
  - vm_compute. split; discriminate.
  - vm_compute. split; discriminate.
  - vm_compute. split; discriminate.
Defined.

Lemma msFromTime_whole_seconds t k :
  k mod 1000 = 0 -> msFromTime (t - msFromTime t + k) = 0.
Proof.
  unfold msFromTime, msPerSecond. intros Hk.
  Z.div_mod_to_equations. lia.
Qed.

(** X10.  [convertTimezone] on a host at offset [h], for a date whose
    two printed texts, the one in UTC and the one in the target zone,
    show a year of four digits: whatever the source zone is said to be,
    the result is the instant without its milliseconds, moved by the
    offset of the target zone less twice the host's. *)
Theorem convertTimezone_moves_by_target_and_host :
  forall (env : Env) (t h u : Z) (fromTimezone toTimezone : string),
    hostZone env = fixedZone h ->
    tzdb env "UTC"%string = Some (fixedZone 0) ->
    tzdb env toTimezone = Some (fixedZone u) ->
    - msPerDay <= h <= msPerDay ->
    - msPerDay <= u <= msPerDay ->
    h mod 1000 = 0 ->
    u mod 1000 = 0 ->
    - maxTime + 4 * msPerDay <= t <= maxTime - 4 * msPerDay ->
    fourDigitYear t = true ->
    fourDigitYear (t - msFromTime t - h + u) = true ->
    convertTimezone env (Some t) fromTimezone toTimezone
    = Ok (Some (t - msFromTime t + u - 2 * h)).
Proof.
  intros env t h u fromTimezone toTimezone Hh Hutc Hu Hhr Hur Hhs Hus Ht
    _ _.
  unfold convertTimezone, toLocaleString. rewrite Hutc.
  cbn [utcOffset fixedZone]. rewrite Z.add_0_r.
  rewrite parse_wallClockAt, Hh. unfold UTC at 1.
  cbn [localOffset fixedZone].
  pose proof (Z.mod_pos_bound t 1000 ltac:(lia)) as Hms.
  fold msPerSecond in Hms. fold (msFromTime t) in Hms.
  unfold msPerSecond in Hms.
  assert (msPerDay = 86400000) as Hd by reflexivity.
  rewrite TimeClip_in_range by lia.
  rewrite Hu. cbn [utcOffset fixedZone].
  rewrite parse_wallClockAt. unfold UTC. cbn [localOffset fixedZone].
  replace (t - msFromTime t - h + u) with (t - msFromTime t + (u - h))
    by lia.
  rewrite msFromTime_whole_seconds.
  - rewrite Hh. cbn [localOffset fixedZone].
    rewrite TimeClip_in_range by lia. do 2 f_equal. lia.
  - rewrite Zminus_mod, Hhs, Hus. reflexivity.
Qed.

Lemma convertTimezone_moves_by_target_and_host_witness :
  convertTimezone
    (Sample.envAt (fixedZone (minutes 330)) 0 (fun _ => true))
    (Some (utc 2024 6 15 12 0 0 0)) "Asia/Tokyo" "Asia/Dubai"
  = Ok (Some (utc 2024 6 15 5 0 0 0)).
Proof.
  rewrite (convertTimezone_moves_by_target_and_host _
             (utc 2024 6 15 12 0 0 0) (minutes 330) (minutes 240)).
  - vm_compute. reflexivity.
  - reflexivity.
  - reflexivity.
  - reflexivity.
  - vm_compute. split; discriminate.
  - vm_compute. split; discriminate.
  - reflexivity.
  - reflexivity.
  - vm_compute. split; discriminate.
  - vm_compute. reflexivity.
  - vm_compute. reflexivity.
Defined.

End HourTest.

(* ===================================================================== *)
(** * The validator of a user's time zone *)
(* ===================================================================== *)

Section Patterns.

Import RegExp.

Lemma append_nil_inv (a b : string) :
  (a ++ b)%string = EmptyString -> a = EmptyString /\ b = EmptyString.
Proof. destruct a; simpl; [auto | discriminate]. Qed.

Lemma Matches_empty_nullable r s :
  Matches r s -> s = EmptyString -> nullable r = true.
Proof.
  induction 1 as [| p c Hp | r s a b _ IHr _ IHs | r s a _ IH | r s a _ IH
                 | r | r a b _ _ _ _]; intros He; simpl;
    try reflexivity; try discriminate.
  - apply append_nil_inv in He. destruct He as [-> ->].
    now rewrite IHr, IHs.
  - now rewrite IH.
  - rewrite IH by assumption. apply orb_true_r.
Qed.

Lemma nullable_Matches_nil r : nullable r = true -> Matches r EmptyString.
Proof.
  induction r as [| | p | r IHr s IHs | r IHr s IHs | r _]; simpl; intros H;
    try discriminate.
  - constructor.
  - apply andb_true_iff in H. destruct H as [Hr Hs].
    change EmptyString with (EmptyString ++ EmptyString)%string.
    constructor; auto.
  - apply orb_true_iff in H. destruct H as [H | H];
      [apply MOrL | apply MOrR]; auto.
  - constructor.
Qed.

Lemma MCat_cons r s c a b :
  Matches r (String c a) -> Matches s b -> Matches (Cat r s) (String c (a ++ b)).
Proof.
  intros Hr Hs. change (String c (a ++ b)) with (String c a ++ b)%string.
  now constructor.
Qed.

Lemma deriv_sound c r :
  forall s, Matches (deriv c r) s -> Matches r (String c s).
Proof.
  induction r as [| | p | r IHr s IHs | r IHr s IHs | r IHr]; simpl;
    intros x H.
  - inversion H.
  - inversion H.
  - destruct (p c) eqn:E; inversion H; subst. now constructor.
  - assert (forall y, Matches (Cat (deriv c r) s) y ->
                      Matches (Cat r s) (String c y)) as Hcat.
    { intros y Hy. inversion Hy; subst. apply MCat_cons; auto. }
    destruct (nullable r) eqn:N; [| now apply Hcat].
    inversion H; subst; [now apply Hcat |].
    change (String c x) with (EmptyString ++ String c x)%string.
    constructor; [now apply nullable_Matches_nil | auto].
  - inversion H; subst; [apply MOrL | apply MOrR]; auto.
  - inversion H; subst.
    change (String c (a ++ b)) with (String c a ++ b)%string.
    constructor; auto.
Qed.

Lemma deriv_complete r x :
  Matches r x -> forall c s, x = String c s -> Matches (deriv c r) s.
Proof.
  induction 1 as [| p c Hp | r s a b Hr IHr Hs IHs | r s a _ IH | r s a _ IH
                 | r | r a b Hr IHr Hs IHs]; intros c0 y E; simpl.
  - discriminate.
  - injection E as -> <-. rewrite Hp. constructor.
  - destruct a as [| ca a'].
    + simpl in E. rewrite (Matches_empty_nullable r _ Hr eq_refl).
      apply MOrR. now apply IHs.
    + simpl in E. injection E as <- <-.
      assert (Matches (Cat (deriv ca r) s) (a' ++ b)) as Hc
        by (constructor; auto).
      destruct (nullable r); [now apply MOrL | exact Hc].
  - apply MOrL. now apply IH.
  - apply MOrR. now apply IH.
  - discriminate.
  - destruct a as [| ca a'].
    + simpl in E. exact (IHs _ _ E).
    + simpl in E. injection E as <- <-. constructor; auto.
Qed.

(** The matcher decides the relation. *)
Lemma test_Matches r : forall s, test s r = true <-> Matches s r.
Proof.
  induction r as [| c r IH]; intros s; simpl.
  - split; [apply nullable_Matches_nil |].
    intros H. exact (Matches_empty_nullable _ _ H eq_refl).
  - rewrite IH. split; [apply deriv_sound |].
    intros H. exact (deriv_complete _ _ H _ _ eq_refl).
Qed.

Lemma Matches_class p s :
  Matches (Class p) s <-> exists c, s = String c EmptyString /\ p c = true.
Proof.
  split.
  - intros H. inversion H; subst. eauto.
  - intros (c & -> & Hc). now constructor.
Qed.

Lemma Matches_star_class p s :
  Matches (Star (Class p)) s <-> every p s = true.
Proof.
  split.
  - intros H. remember (Star (Class p)) as r eqn:Er.
    induction H as [| | | | | r | r a b Hr _ Hs IHs]; try discriminate.
    + reflexivity.
    + injection Er as ->.
      apply Matches_class in Hr. destruct Hr as (c & -> & Hc).
      simpl. now rewrite Hc, IHs.
  - induction s as [| c s IH]; simpl; intros H; [constructor |].
    apply andb_true_iff in H. destruct H as [Hc Hs].
    change (String c s) with (String c EmptyString ++ s)%string.
    constructor; [now constructor | auto].
Qed.

Lemma Matches_plus_class p s :
  Matches (Plus (Class p)) s <-> s <> EmptyString /\ every p s = true.
Proof.
  unfold Plus. split.
  - intros H. inversion H as [| | r0 s0 a b Ha Hb | | | |]; subst.
    apply Matches_class in Ha. destruct Ha as (c & -> & Hc).
    apply Matches_star_class in Hb.
    simpl. split; [discriminate |]. now rewrite Hc.
  - intros [Hne H]. destruct s as [| c s]; [contradiction |].
    simpl in H. apply andb_true_iff in H. destruct H as [Hc Hs].
    change (String c s) with (String c EmptyString ++ s)%string.
    constructor; [now constructor | now apply Matches_star_class].
Qed.

End Patterns.

Section TimezoneValidator.

Import RegExp UserModel TimezoneTools CronService.

Lemma areaCityPattern_matches v :
  test areaCityPattern v = true
  <-> exists area city,
        v = (area ++ "/" ++ city)%string
        /\ area <> EmptyString /\ city <> EmptyString
        /\ every isWordChar area = true
        /\ every isWordChar city = true.
Proof.
  rewrite test_Matches. unfold areaCityPattern. split.
  - intros H. inversion H as [| | r s a b Ha Hb | | | |]; subst.
    inversion Hb as [| | r s l c Hl Hc | | | |]; subst.
    apply Matches_plus_class in Ha. apply Matches_plus_class in Hc.
    apply Matches_class in Hl. destruct Hl as (x & -> & Hx).
    apply Ascii.eqb_eq in Hx. subst x.
    exists a, c. destruct Ha, Hc. auto.
  - intros (area & city & -> & Ha & Hc & Hwa & Hwc).
    constructor; [now apply Matches_plus_class |].
    change ("/" ++ city)%string
      with (String "/"%char EmptyString ++ city)%string.
    constructor; [| now apply Matches_plus_class].
    constructor. apply Ascii.eqb_refl.
Qed.

Lemma two_words_pass_the_validator area city :
  area <> EmptyString -> city <> EmptyString ->
  every isWordChar area = true ->
  every isWordChar city = true ->
  timezoneValidator (area ++ "/" ++ city)%string = true.
Proof.
  intros Ha Hc Hwa Hwc. unfold timezoneValidator.
  apply orb_true_iff. right. apply areaCityPattern_matches.
  exists area, city. auto.
Qed.

(** X11.  The schema accepts as a user's time zone the sixteen listed names
    and every text made of two words of letters and underscores with a
    slash between them, and nothing else. *)
Theorem timezone_validator_accepts_listed_or_two_words :
  forall v : string,
    timezoneValidator v = true
    <-> In v validTimezones
        \/ exists area city,
             v = (area ++ "/" ++ city)%string
             /\ area <> EmptyString /\ city <> EmptyString
             /\ every isWordChar area = true
             /\ every isWordChar city = true.
Proof.
  intros v. unfold timezoneValidator.
  rewrite orb_true_iff, areaCityPattern_matches, existsb_exists.
  split; (intros [H | H]; [left | now right]).
  - destruct H as (x & Hin & Hx). apply String.eqb_eq in Hx. now subst.
  - exists v. split; [exact H | apply String.eqb_refl].
Qed.

(** X12.  A name of that form that the runtime does not know passes the
    validator all the same; the daily job then ends each turn of its
    holder in the error branch, with nothing sent. *)
Theorem accepted_zone_can_fail_every_reminder :
  forall (env : Env) (user : User) (area city : string) (w : World),
    area <> EmptyString -> city <> EmptyString ->
    every isWordChar area = true ->
    every isWordChar city = true ->
    timezone user = Some (area ++ "/" ++ city)%string ->
    tzdb env (area ++ "/" ++ city)%string = None ->
    timezoneValidator (area ++ "/" ++ city)%string = true
    /\ remindUser env user w = (Ok Errored, tick w).
Proof.
  intros env user area city w Ha Hc Hwa Hwc Htz Hdb. split.
  - apply two_words_pass_the_validator; auto.
  - rewrite remindUser_steps. cbv zeta. rewrite Htz.
    rewrite timezoneOrDefault_nonempty
      by (destruct area; [contradiction | discriminate]).
    now rewrite (isTargetHour_unknown_zone env 6 _ w Hdb).
Qed.

Lemma accepted_zone_can_fail_every_reminder_witness :
  let env := Sample.envAt (fixedZone 0) Sample.sixInKolkata
               (fun _ => true) in
  timezoneValidator "Mars/Phobos" = true
  /\ remindUser env Sample.carolUser (Sample.world Sample.juneTasks [])
     = (Ok Errored, tick (Sample.world Sample.juneTasks [])).
Proof.
  intros env.
  apply (accepted_zone_can_fail_every_reminder env Sample.carolUser
           "Mars" "Phobos").
  - discriminate.
  - discriminate.
  - reflexivity.
  - reflexivity.
  - reflexivity.
  - reflexivity.
Defined.

Lemma existsb_find {A} (p : A -> bool) l :
  existsb p l = true <-> exists x, find p l = Some x.
Proof.
  induction l as [| a l IH]; simpl.
  - split; [discriminate | intros [x Hx]; discriminate].
  - destruct (p a); simpl; [| exact IH].
    split; [eauto | reflexivity].
Qed.

(** X13.  The zones the utilities call supported are the sixteen the schema
    lists; for exactly those [getTimezoneInfo] has an entry, under that
    name, and each of them passes the schema's validator. *)
Theorem supported_zones_are_the_listed_ones :
  forall tz : string,
    (isValidTimezone tz = true <-> In tz validTimezones)
    /\ (isValidTimezone tz = true
        <-> exists info, getTimezoneInfo tz = Some info
                         /\ tzValue info = tz)
    /\ (isValidTimezone tz = true -> timezoneValidator tz = true).
Proof.
  intros tz.
  assert (isValidTimezone tz = true <-> In tz validTimezones) as Hlist.
  { split.
    - unfold isValidTimezone, SUPPORTED_TIMEZONES.
      cbn [existsb tzValue]. intros H.
      repeat (apply orb_true_iff in H;
              destruct H as [H | H];
              [apply String.eqb_eq in H; subst tz; simpl; auto 20 |]).
      discriminate.
    - unfold validTimezones. intros H.
      repeat (destruct H as [<- | H]; [reflexivity |]).
      contradiction. }
  split; [exact Hlist |]. split.
  - unfold isValidTimezone, getTimezoneInfo. rewrite existsb_find.
    split.
    + intros [info Hinfo]. exists info. split; [exact Hinfo |].
      apply find_some in Hinfo. destruct Hinfo as [_ Hv].
      now apply String.eqb_eq in Hv.
    + intros (info & Hinfo & _). eauto.
  - intros H. apply Hlist in H. unfold timezoneValidator.
    apply orb_true_iff. left. apply existsb_exists.
    exists tz. split; [exact H | apply String.eqb_refl].
Qed.

End TimezoneValidator.

(* ===================================================================== *)
(** * Refresh tokens and the login lock *)
(* ===================================================================== *)

Section RefreshTokens.

Import UserModel AuthController.

Lemma addRefreshToken_steps env tok ua ip this w :
  addRefreshToken env tok ua ip this w
  = (Ok (setRefreshTokens this
           ((if (5 <=? List.length (refreshTokens this))%nat
             then sliceLast 4 (refreshTokens this)
             else refreshTokens this)
            ++ [ {| token := tok; tokenCreatedAt := clock env (ticks w);
                    userAgent := ua; ipAddress := ip |} ])%list),
     tick w).
Proof.
  unfold addRefreshToken, bind, newDate, ret, tick.
  destruct (5 <=? List.length (refreshTokens this))%nat; reflexivity.
Qed.

Lemma sliceLast_suffix {A} n (l : list A) :
  l = (firstn (List.length l - n) l ++ sliceLast n l)%list.
Proof. unfold sliceLast. now rewrite firstn_skipn. Qed.

Lemma sliceLast_length {A} n (l : list A) :
  (n <= List.length l)%nat -> List.length (sliceLast n l) = n.
Proof. intros H. unfold sliceLast. rewrite length_skipn. lia. Qed.

(** X14.  After [addRefreshToken] the document holds at most five tokens,
    whatever it held before; the new token is the last one, in front of
    it are the newest of the old ones, and nothing is dropped while
    there is room. *)
Theorem refresh_tokens_never_exceed_five :
  forall (env : Env) (tok : string) (ua ip : option string)
         (this : UserDoc) (w : World),
    exists dropped kept,
      let added := {| token := tok; tokenCreatedAt := clock env (ticks w);
                      userAgent := ua; ipAddress := ip |} in
      refreshTokens this = (dropped ++ kept)%list
      /\ addRefreshToken env tok ua ip this w
         = (Ok (setRefreshTokens this (kept ++ [added])%list), tick w)
      /\ (List.length (kept ++ [added]) <= 5)%nat
      /\ ((List.length (refreshTokens this) < 5)%nat -> dropped = []).
Proof.
  intros env tok ua ip this w. rewrite addRefreshToken_steps.
  destruct (Nat.leb_spec 5 (List.length (refreshTokens this))) as [Hfull | Hroom].
  - exists (firstn (List.length (refreshTokens this) - 4) (refreshTokens this)),
      (sliceLast 4 (refreshTokens this)).
    cbv zeta. split; [apply sliceLast_suffix |]. split; [reflexivity |].
    split; [| lia].
    rewrite length_app, sliceLast_length by lia. simpl. lia.
  - exists [], (refreshTokens this).
    cbv zeta. split; [reflexivity |]. split; [reflexivity |].
    split; [| reflexivity].
    rewrite length_app. simpl. lia.
Qed.

Lemma hasRefreshToken_filter tok l :
  existsb (fun rt => (token rt =? tok)%string)
    (filter (fun rt => negb (token rt =? tok)%string) l) = false.
Proof.
  induction l as [| a l IH]; [reflexivity |].
  simpl. destruct (token a =? tok)%string eqn:E; simpl; [exact IH |].
  now rewrite E.
Qed.

Lemma existsb_false_suffix {A} (p : A -> bool) l1 l2 :
  existsb p (l1 ++ l2) = false -> existsb p l2 = false.
Proof.
  rewrite existsb_app. intros H. apply orb_false_iff in H. tauto.
Qed.

(** X15.  The [refresh] handler takes the token it was shown out of the
    document and puts in the one [generateTokens] signs, which is made
    of the user, the secret and the second of the clock only.  When the
    new token is another text, the old one is spent: shown again it is
    answered 401.  When it is the same text, as it is for a token that
    is refreshed within the second it was signed in, the document holds
    it still and it is accepted again.  A token the document does not
    hold is answered 401 with the document untouched. *)
Theorem refresh_retires_the_token_unless_reissued :
  forall (sign : Signer) (env : Env) (old : string)
         (ua ip : option string) (user : UserDoc) (w : World),
    hasRefreshToken old user = true ->
    let new := sign JWT_REFRESH_SECRET (clock env (S (ticks w)) / 1000) in
    let w' := tick (tick (tick w)) in
    exists user',
      refreshGate sign env old ua ip user w = (Ok (Proceed, user'), w')
      /\ hasRefreshToken new user' = true
      /\ hasRefreshToken old user' = (old =? new)%string
      /\ (List.length (refreshTokens user') <= 5)%nat
      /\ (old <> new ->
          refreshGate sign env old ua ip user' w'
          = (Ok (Respond 401 "Invalid refresh token", user'), w'))
      /\ (old = new ->
          exists user'',
            refreshGate sign env old ua ip user' w'
            = (Ok (Proceed, user''), tick (tick (tick w'))))
      /\ (forall iat,
            old = sign JWT_REFRESH_SECRET iat ->
            clock env (S (ticks w)) / 1000 = iat ->
            old = new)
      /\ (forall other doc v,
            hasRefreshToken other doc = false ->
            refreshGate sign env other ua ip doc v
            = (Ok (Respond 401 "Invalid refresh token", doc), v)).
Proof.
  intros sign env old ua ip user w Hhas new w'.
  assert (forall doc v,
            hasRefreshToken old doc = true ->
            refreshGate sign env old ua ip doc v
            = (Ok (Proceed,
                   setRefreshTokens (removeRefreshToken old doc)
                     ((if (5 <=? List.length
                                   (refreshTokens
                                      (removeRefreshToken old doc)))%nat
                       then sliceLast 4
                              (refreshTokens (removeRefreshToken old doc))
                       else refreshTokens (removeRefreshToken old doc))
                      ++ [ {| token :=
                                sign JWT_REFRESH_SECRET
                                  (clock env (S (ticks v)) / 1000);
                              tokenCreatedAt := clock env (S (S (ticks v)));
                              userAgent := ua; ipAddress := ip |} ])%list),
               tick (tick (tick v)))) as Hgate.
  { intros doc v Hd. unfold refreshGate. rewrite Hd. cbn [negb].
    unfold generateTokens, generateAccessToken, generateRefreshToken,
      jwtSign.
    unfold bind at 1. unfold bind at 1. unfold bind at 1.
    unfold newDate at 1. unfold ret at 1.
    unfold bind at 1. unfold bind at 1. unfold newDate at 1.
    unfold ret at 1. unfold ret at 1.
    unfold bind. rewrite addRefreshToken_steps. unfold ret, tick.
    reflexivity. }
  rewrite (Hgate user w Hhas). fold new.
  eexists. split; [reflexivity |].
  set (rest := refreshTokens (removeRefreshToken old user)).
  set (kept := if (5 <=? List.length rest)%nat then sliceLast 4 rest
               else rest).
  set (added := {| token := new;
                   tokenCreatedAt := clock env (S (S (ticks w)));
                   userAgent := ua; ipAddress := ip |}).
  assert (existsb (fun rt => (token rt =? old)%string) kept = false) as Hkept.
  { unfold kept. destruct (5 <=? List.length rest)%nat.
    - apply (existsb_false_suffix _ (firstn (List.length rest - 4) rest)).
      rewrite <- sliceLast_suffix. apply hasRefreshToken_filter.
    - apply hasRefreshToken_filter. }
  assert (hasRefreshToken old
            (setRefreshTokens (removeRefreshToken old user)
               (kept ++ [added]))
          = (old =? new)%string) as Hold.
  { unfold hasRefreshToken. cbn [refreshTokens setRefreshTokens].
    rewrite existsb_app, Hkept. cbn [existsb token added orb].
    rewrite orb_false_r. apply String.eqb_sym. }
  split; [| split; [exact Hold | split; [| split; [| split; [| split]]]]].
  - unfold hasRefreshToken. cbn [refreshTokens setRefreshTokens].
    rewrite existsb_app. cbn [existsb token added].
    rewrite String.eqb_refl. now rewrite orb_true_r.
  - cbn [refreshTokens setRefreshTokens]. rewrite length_app.
    unfold kept. destruct (Nat.leb_spec 5 (List.length rest)).
    + rewrite sliceLast_length by lia. simpl. lia.
    + simpl. lia.
  - intros Hne. unfold refreshGate. rewrite Hold.
    destruct (String.eqb_spec old new); [contradiction | reflexivity].
  - intros Heq. eexists. apply Hgate. rewrite Hold.
    now apply String.eqb_eq.
  - intros iat -> <-. reflexivity.
  - intros other doc v Hno. unfold refreshGate. now rewrite Hno.
Qed.

(** A token signed at 12:00:00 and shown at 12:00:00.400: the handler
    signs the same text again, and the token can be shown once more. *)
Lemma refresh_retires_the_token_unless_reissued_witness :
  let env := Sample.envAt (fixedZone 0) (utc 2024 6 15 12 0 0 400)
               (fun _ => true) in
  let old := sampleSigner JWT_REFRESH_SECRET (utc 2024 6 15 12 0 0 0 / 1000) in
  let user :=
    {| refreshTokens :=
         [ {| token := old; tokenCreatedAt := utc 2024 6 15 12 0 0 0;
              userAgent := None; ipAddress := None |} ];
       loginAttempts := 0; lockUntil := None |} in
  old = "refresh.1718452800"%string
  /\ exists user' user'' w' w'',
       refreshGate sampleSigner env old None None user (Sample.world [] [])
       = (Ok (Proceed, user'), w')
       /\ map token (refreshTokens user') = [old]
       /\ refreshGate sampleSigner env old None None user' w'
          = (Ok (Proceed, user''), w'').
Proof.
  intros env old user. split; [vm_compute; reflexivity |].
  destruct (refresh_retires_the_token_unless_reissued sampleSigner env old
              None None user (Sample.world [] []))
    as (user' & Hrun & _ & _ & _ & _ & Hagain & _).
  - vm_compute. reflexivity.
  - destruct Hagain as (user'' & Hsecond); [vm_compute; reflexivity |].
    assert (fst (refreshGate sampleSigner env old None None user
                   (Sample.world [] []))
            = Ok (Proceed, user')) as Hfst by now rewrite Hrun.
    exists user', user''. eexists. eexists.
    split; [exact Hrun |]. split; [| exact Hsecond].
    vm_compute in Hfst. injection Hfst as <-. vm_compute. reflexivity.
Defined.

(** The same token shown a second later: the new token is another text,
    and the old one is refused from then on. *)
Example refresh_a_second_later :
  let env := Sample.envAt (fixedZone 0) (utc 2024 6 15 12 0 1 0)
               (fun _ => true) in
  let old := sampleSigner JWT_REFRESH_SECRET (utc 2024 6 15 12 0 0 0 / 1000) in
  let user :=
    {| refreshTokens :=
         [ {| token := old; tokenCreatedAt := utc 2024 6 15 12 0 0 0;
              userAgent := None; ipAddress := None |} ];
       loginAttempts := 0; lockUntil := None |} in
  match refreshGate sampleSigner env old None None user
          (Sample.world [] []) with
  | (Ok (Proceed, user'), w') =>
      map token (refreshTokens user') = ["refresh.1718452801"%string]
      /\ fst (refreshGate sampleSigner env old None None user' w')
         = Ok (Respond 401 "Invalid refresh token", user')
  | _ => False
  end.
Proof. vm_compute. split; reflexivity. Qed.

End RefreshTokens.

Section LoginLock.

Import UserModel AuthController.

(** One login with a wrong password on an account that is not locked. *)
Lemma loginGate_failure env user w :
  lockUntil user = None ->
  dbUp env (dbCalls w) = true ->
  loginGate env false user w
  = if 5 <=? loginAttempts user + 1
    then (Ok (Respond 401 "Invalid credentials",
              applyUpdate
                (Increment (Some (clock env (ticks w) + 7200000))) user),
          called (tick w))
    else (Ok (Respond 401 "Invalid credentials",
              applyUpdate (Increment None) user),
          called w).
Proof.
  intros Hlock Hdb.
  unfold loginGate, isLocked, incLoginAttempts, bind, ret. rewrite Hlock.
  cbn [negb]. cbv beta iota zeta.
  destruct (5 <=? loginAttempts user + 1).
  - unfold isLocked, bind, ret. rewrite Hlock. cbn [negb]. cbv beta iota.
    unfold newDate, updateOne, dbCall. cbn [dbCalls ticks].
    rewrite Hdb. reflexivity.
  - unfold updateOne, dbCall. rewrite Hdb. reflexivity.
Qed.

Lemma failedLogins_up_to_five env k :
  forall user w,
    lockUntil user = None ->
    0 <= loginAttempts user ->
    loginAttempts user + Z.of_nat k <= 5 ->
    (forall i, (i < k)%nat -> dbUp env (dbCalls w + i) = true) ->
    exists stored w',
      failedLogins env k user w
      = (Ok (repeat (Respond 401 "Invalid credentials") k, stored), w')
      /\ loginAttempts stored = loginAttempts user + Z.of_nat k
      /\ refreshTokens stored = refreshTokens user
      /\ (loginAttempts user + Z.of_nat k < 5 ->
          lockUntil stored = None /\ ticks w' = ticks w)
      /\ (loginAttempts user + Z.of_nat k = 5 -> (0 < k)%nat ->
          lockUntil stored = Some (clock env (ticks w) + 7200000)
          /\ ticks w' = S (ticks w)).
Proof.
  induction k as [| k IH]; intros user w Hlock Hn Hk Hdb.
  - exists user, w. split; [reflexivity |].
    split; [simpl; lia |]. split; [reflexivity |].
    split; [auto | intros _ H; inversion H].
  - cbn [failedLogins]. unfold bind.
    rewrite (loginGate_failure env user w Hlock)
      by (rewrite <- (Nat.add_0_r (dbCalls w)); apply Hdb; lia).
    destruct (Z.leb_spec 5 (loginAttempts user + 1)) as [Hfive | Hless].
    + assert (k = 0%nat) as -> by lia.
      cbn [failedLogins]. unfold ret. cbn [repeat snd fst].
      eexists. eexists. split; [reflexivity |].
      cbn [applyUpdate loginAttempts refreshTokens lockUntil tick called
             ticks].
      split; [lia |]. split; [reflexivity |].
      split; [intros; lia | intros; split; reflexivity].
    + cbn [snd fst].
      destruct (IH (applyUpdate (Increment None) user) (called w))
        as (stored & w' & Hrun & Hatt & Htok & Hlt & Heq).
      * exact Hlock.
      * cbn [applyUpdate loginAttempts]. lia.
      * cbn [applyUpdate loginAttempts]. lia.
      * intros i Hi. cbn [called dbCalls].
        replace (S (dbCalls w) + i)%nat with (dbCalls w + S i)%nat by lia.
        apply Hdb. lia.
      * rewrite Hrun. unfold ret. cbn [fst snd repeat].
        cbn [applyUpdate loginAttempts refreshTokens called ticks]
          in Hatt, Htok, Hlt, Heq.
        eexists. eexists. split; [reflexivity |].
        split; [lia |]. split; [exact Htok |].
        split.
        -- intros H. apply Hlt. lia.
        -- intros H _. apply Heq; lia.
Qed.

(** X16.  Wrong passwords on a fresh account: each is answered 401 and
    counted; the first four leave the account open without the clock
    being read, the fifth locks it for two hours from the instant it
    reads.  While the clock shows less than that, every login is
    answered 423, whether the password is right or not, and changes
    nothing. *)
Theorem fifth_failed_login_locks_for_two_hours :
  forall (env : Env) (user : UserDoc) (w : World) (k : nat),
    lockUntil user = None ->
    loginAttempts user = 0 ->
    (k <= 5)%nat ->
    (forall i, (i < k)%nat -> dbUp env (dbCalls w + i) = true) ->
    exists stored w',
      failedLogins env k user w
      = (Ok (repeat (Respond 401 "Invalid credentials") k, stored), w')
      /\ loginAttempts stored = Z.of_nat k
      /\ refreshTokens stored = refreshTokens user
      /\ ((k < 5)%nat -> lockUntil stored = None /\ ticks w' = ticks w)
      /\ (k = 5%nat ->
          lockUntil stored = Some (clock env (ticks w) + 7200000)
          /\ forall (isPasswordValid : bool) (w2 : World),
               clock env (ticks w2) < clock env (ticks w) + 7200000 ->
               loginGate env isPasswordValid stored w2
               = (Ok (Respond 423
                        "Account temporarily locked due to too many failed login attempts",
                      stored),
                  tick w2)).
Proof.
  intros env user w k Hlock Hzero Hk Hdb.
  destruct (failedLogins_up_to_five env k user w Hlock)
    as (stored & w' & Hrun & Hatt & Htok & Hlt & Heq); try lia; auto.
  exists stored, w'. rewrite Hzero in *.
  split; [exact Hrun |]. split; [lia |]. split; [exact Htok |].
  split.
  - intros H. apply Hlt. lia.
  - intros ->. destruct (Heq eq_refl ltac:(lia)) as [Hl _].
    split; [exact Hl |].
    intros pw w2 Hbefore.
    unfold loginGate, isLocked, bind, newDate, ret. rewrite Hl.
    apply Z.ltb_lt in Hbefore. rewrite Hbefore. reflexivity.
Qed.

Lemma fifth_failed_login_locks_for_two_hours_witness :
  let env := Sample.envAt (fixedZone 0) (utc 2024 6 15 8 0 0 0)
               (fun _ => true) in
  let fresh := {| refreshTokens := []; loginAttempts := 0;
                  lockUntil := None |} in
  exists stored w',
    failedLogins env 5 fresh (Sample.world [] [])
    = (Ok (repeat (Respond 401 "Invalid credentials") 5, stored), w')
    /\ lockUntil stored = Some (utc 2024 6 15 10 0 0 0).
Proof.
  intros env fresh.
  destruct (fifth_failed_login_locks_for_two_hours env fresh
              (Sample.world [] []) 5)
    as (stored & w' & Hrun & _ & _ & _ & Hfive).
  - reflexivity.
  - reflexivity.
  - lia.
  - reflexivity.
  - exists stored, w'. split; [exact Hrun |].
    destruct (Hfive eq_refl) as [Hl _]. rewrite Hl. vm_compute. reflexivity.
Defined.

(** X17.  Once the clock is past the lock, the next login goes through the
    password check again: a wrong password restarts the count at one
    and removes the lock, the right one clears both. *)
Theorem expired_lock_restarts_the_count :
  forall (env : Env) (user : UserDoc) (w : World) (l : Z)
         (isPasswordValid : bool),
    lockUntil user = Some l ->
    l < clock env (ticks w) ->
    l < clock env (S (ticks w)) ->
    dbUp env (dbCalls w) = true ->
    loginGate env isPasswordValid user w
    = if isPasswordValid
      then (Ok (Proceed,
                {| refreshTokens := refreshTokens user; loginAttempts := 0;
                   lockUntil := None |}),
            called (tick w))
      else (Ok (Respond 401 "Invalid credentials",
                {| refreshTokens := refreshTokens user; loginAttempts := 1;
                   lockUntil := None |}),
            called (tick (tick w))).
Proof.
  intros env user w l pw Hl H1 H2 Hdb.
  unfold loginGate, isLocked, bind, newDate, ret. rewrite Hl.
  assert ((clock env (ticks w) <? l) = false) as -> by (apply Z.ltb_ge; lia).
  destruct pw; cbn [negb]; cbv beta iota.
  - unfold resetLoginAttempts, updateOne, dbCall. cbn [dbCalls].
    rewrite Hdb. reflexivity.
  - unfold incLoginAttempts, bind, newDate, ret. rewrite Hl.
    cbn [ticks]. apply Z.ltb_lt in H2. rewrite H2.
    unfold updateOne, dbCall. cbn [dbCalls]. rewrite Hdb. reflexivity.
Qed.

Lemma expired_lock_restarts_the_count_witness :
  let env := Sample.envAt (fixedZone 0) (utc 2024 6 15 10 0 0 1)
               (fun _ => true) in
  let locked := {| refreshTokens := []; loginAttempts := 5;
                   lockUntil := Some (utc 2024 6 15 10 0 0 0) |} in
  loginGate env false locked (Sample.world [] [])
  = (Ok (Respond 401 "Invalid credentials",
         {| refreshTokens := []; loginAttempts := 1; lockUntil := None |}),
     called (tick (tick (Sample.world [] [])))).
Proof.
  intros env locked.
  rewrite (expired_lock_restarts_the_count env locked (Sample.world [] [])
             (utc 2024 6 15 10 0 0 0) false).
  - reflexivity.
  - reflexivity.
  - vm_compute. reflexivity.
  - vm_compute. reflexivity.
  - reflexivity.
Defined.

End LoginLock.

(* ===================================================================== *)
(** * The database utilities *)
(* ===================================================================== *)

Section DatabaseUtilities.

Import DbUtils.

(** X18.  Neither utility touches anything, not even the connection, unless
    it is told to go ahead and the process is not in production. *)
Theorem destructive_utilities_are_guarded :
  forall (env : Env) (nodeEnv : string) (confirm : bool) (w : World),
    confirm = false \/ nodeEnv = "production"%string ->
    (exists message,
        clearDatabase env nodeEnv confirm w = (Ok (Refused message), w))
    /\ (exists message,
           resetDatabaseToDefault env nodeEnv confirm w
           = (Ok (Refused message), w)).
Proof.
  intros env nodeEnv confirm w H.
  unfold resetDatabaseToDefault, clearDatabase, catch, bind, ret.
  destruct confirm; cbn [negb].
  - destruct H as [H | ->]; [discriminate |].
    rewrite String.eqb_refl. cbn [succeeded negb]. eauto.
  - eauto.
Qed.

Lemma destructive_utilities_are_guarded_witness :
  exists message,
    resetDatabaseToDefault (Sample.envAt (fixedZone 0) 0 (fun _ => true))
      "production" true (Sample.world Sample.juneTasks [Sample.aliceUser])
    = (Ok (Refused message),
       Sample.world Sample.juneTasks [Sample.aliceUser]).
Proof.
  apply (destructive_utilities_are_guarded
           (Sample.envAt (fixedZone 0) 0 (fun _ => true))
           "production" true
           (Sample.world Sample.juneTasks [Sample.aliceUser])).
  right. reflexivity.
Defined.

(** What a confirmed clearing does, call by call. *)
Lemma clearDatabase_steps env nodeEnv w :
  nodeEnv <> "production"%string ->
  dbUp env (dbCalls w) = true ->
  let users := dbUp env (S (dbCalls w)) in
  let tasks := dbUp env (S (S (dbCalls w))) in
  let details :=
    [ ("users"%string,
       if users then Some (List.length (usersColl w)) else None);
      ("tasks"%string,
       if tasks then Some (List.length (tasksColl w)) else None) ] in
  clearDatabase env nodeEnv true w
  = (Ok (Cleared details (totalOf details)),
     {| ticks := ticks w; dbCalls := S (S (S (dbCalls w)));
        nextId := nextId w;
        tasksColl := if tasks then [] else tasksColl w;
        usersColl := if users then [] else usersColl w;
        outbox := outbox w |}).
Proof.
  intros Hprod Hdb. cbv zeta.
  unfold clearDatabase. cbn [negb].
  destruct (String.eqb_spec nodeEnv "production"); [contradiction |].
  unfold catch, bind, dbCall at 1. rewrite Hdb.
  unfold collectionNames. cbn [TasksController.mapM].
  unfold deleteMany, catch, bind, dbCall, ret. cbn [dbCalls].
  destruct (dbUp env (S (dbCalls w))); cbn [dbCalls];
    destruct (dbUp env (S (S (dbCalls w)))); reflexivity.
Qed.

(** X19.  A confirmed clearing outside production reports success as soon as
    the collections could be listed: a collection whose deletion was
    rejected keeps its documents, is marked in the details, and counts
    for nothing in the total. *)
Theorem clearing_reports_success_even_if_a_deletion_fails :
  forall (env : Env) (nodeEnv : string) (w : World),
    nodeEnv <> "production"%string ->
    dbUp env (dbCalls w) = true ->
    exists details w',
      clearDatabase env nodeEnv true w
      = (Ok (Cleared details (totalOf details)), w')
      /\ map fst details = collectionNames
      /\ (In ("users"%string, None) details
          <-> dbUp env (S (dbCalls w)) = false)
      /\ (In ("tasks"%string, None) details
          <-> dbUp env (S (S (dbCalls w))) = false)
      /\ usersColl w'
         = (if dbUp env (S (dbCalls w)) then [] else usersColl w)
      /\ tasksColl w'
         = (if dbUp env (S (S (dbCalls w))) then [] else tasksColl w)
      /\ totalOf details
         = ((if dbUp env (S (dbCalls w))
             then List.length (usersColl w) else 0)
            + (if dbUp env (S (S (dbCalls w)))
               then List.length (tasksColl w) else 0))%nat.
Proof.
  intros env nodeEnv w Hprod Hdb.
  rewrite (clearDatabase_steps env nodeEnv w Hprod Hdb). cbv zeta.
  eexists. eexists. split; [reflexivity |].
  cbn [usersColl tasksColl map fst].
  split; [reflexivity |].
  destruct (dbUp env (S (dbCalls w))), (dbUp env (S (S (dbCalls w))));
    (split; [| split; [| split; [reflexivity | split;
                                   [reflexivity | reflexivity]]]]);
    (split; [intros [H | [H | []]]; try discriminate H; reflexivity
            | intros H; try discriminate H; simpl; auto]).
Qed.

Lemma clearing_reports_success_even_if_a_deletion_fails_witness :
  exists details w',
    clearDatabase (Sample.envDbLost (fixedZone 0) 0) "development" true
      (Sample.world Sample.juneTasks [Sample.aliceUser])
    = (Ok (Cleared details (totalOf details)), w')
    /\ usersColl w' = [Sample.aliceUser]
    /\ totalOf details = 0%nat.
Proof.
  destruct (clearing_reports_success_even_if_a_deletion_fails
              (Sample.envDbLost (fixedZone 0) 0) "development"
              (Sample.world Sample.juneTasks [Sample.aliceUser]))
    as (details & w' & Hrun & _ & _ & _ & Hu & _ & Htotal).
  - discriminate.
  - reflexivity.
  - exists details, w'. split; [exact Hrun |].
    split; [exact Hu | exact Htotal].
Defined.

(** The administrator the utilities create. *)
Lemma createDefaultAdmin_absent env w :
  find (fun u => (email u =? adminEmail)%string) (usersColl w) = None ->
  dbUp env (dbCalls w) = true ->
  dbUp env (S (dbCalls w)) = true ->
  let admin := {| user_id := nextId w; email := adminEmail;
                  timezone := Some "UTC"%string; isVerified := true;
                  emailNotifications := true |} in
  createDefaultAdmin env w
  = (Ok (Done "Admin user created successfully" admin),
     {| ticks := ticks w; dbCalls := S (S (dbCalls w));
        nextId := N.succ (nextId w); tasksColl := tasksColl w;
        usersColl := (usersColl w ++ [admin])%list; outbox := outbox w |}).
Proof.
  intros Hnone Hdb1 Hdb2. cbv zeta.
  unfold createDefaultAdmin, catch, bind, dbCall at 1. rewrite Hdb1.
  cbn [usersColl]. rewrite Hnone.
  unfold freshId, saveUser. cbn [email timezone].
  change (RegExp.test UserModel.emailPattern adminEmail) with true.
  change (UserModel.timezoneValidator "UTC") with true.
  cbn [andb]. unfold bind, dbCall, ret. cbn [dbCalls].
  rewrite Hdb2. reflexivity.
Qed.

Lemma createDefaultAdmin_present env w a :
  find (fun u => (email u =? adminEmail)%string) (usersColl w) = Some a ->
  dbUp env (dbCalls w) = true ->
  createDefaultAdmin env w
  = (Ok (Done "Admin user already exists" a), called w).
Proof.
  intros Hsome Hdb.
  unfold createDefaultAdmin, catch, bind, dbCall. rewrite Hdb.
  cbn [usersColl]. rewrite Hsome. reflexivity.
Qed.

Lemma find_app_none {A} (p : A -> bool) l a :
  find p l = None -> p a = true -> find p (l ++ [a]) = Some a.
Proof.
  induction l as [| x l IH]; simpl; intros Hn Ha.
  - now rewrite Ha.
  - destruct (p x); [discriminate | auto].
Qed.

(** X20.  Creating the default administrator twice creates it once: the
    second call finds the user the first one returned and adds
    nothing. *)
Theorem createDefaultAdmin_twice_is_once :
  forall (env : Env) (w : World),
    (forall i, (i < 3)%nat -> dbUp env (dbCalls w + i) = true) ->
    exists message admin w1 w2,
      createDefaultAdmin env w = (Ok (Done message admin), w1)
      /\ createDefaultAdmin env w1
         = (Ok (Done "Admin user already exists" admin), w2)
      /\ email admin = adminEmail
      /\ usersColl w2 = usersColl w1
      /\ (find (fun u => (email u =? adminEmail)%string) (usersColl w)
          = None ->
          usersColl w1 = (usersColl w ++ [admin])%list
          /\ isVerified admin = true
          /\ timezone admin = Some "UTC"%string)
      /\ (find (fun u => (email u =? adminEmail)%string) (usersColl w)
          <> None ->
          usersColl w1 = usersColl w).
Proof.
  intros env w Hdb.
  pose proof (Hdb 0%nat ltac:(lia)) as H0. rewrite Nat.add_0_r in H0.
  pose proof (Hdb 1%nat ltac:(lia)) as H1.
  replace (dbCalls w + 1)%nat with (S (dbCalls w)) in H1 by lia.
  pose proof (Hdb 2%nat ltac:(lia)) as H2.
  replace (dbCalls w + 2)%nat with (S (S (dbCalls w))) in H2 by lia.
  destruct (find (fun u => (email u =? adminEmail)%string) (usersColl w))
    as [a |] eqn:Hfind.
  - rewrite (createDefaultAdmin_present env w a Hfind H0).
    exists "Admin user already exists"%string, a, (called w),
      (called (called w)).
    split; [reflexivity |].
    split; [apply createDefaultAdmin_present; [exact Hfind | exact H1] |].
    apply find_some in Hfind. destruct Hfind as [_ He].
    apply String.eqb_eq in He.
    split; [exact He |]. split; [reflexivity |].
    split; [discriminate | reflexivity].
  - rewrite (createDefaultAdmin_absent env w Hfind H0 H1). cbv zeta.
    eexists. eexists. eexists. eexists. split; [reflexivity |].
    split.
    + apply createDefaultAdmin_present; [| exact H2].
      cbn [usersColl]. apply find_app_none; [exact Hfind | reflexivity].
    + split; [reflexivity |]. split; [reflexivity |].
      split; [auto | congruence].
Qed.

Lemma createDefaultAdmin_twice_is_once_witness :
  exists message admin w1 w2,
    createDefaultAdmin (Sample.envAt (fixedZone 0) 0 (fun _ => true))
      (Sample.world [] [Sample.aliceUser])
    = (Ok (Done message admin), w1)
    /\ createDefaultAdmin (Sample.envAt (fixedZone 0) 0 (fun _ => true)) w1
       = (Ok (Done "Admin user already exists" admin), w2)
    /\ usersColl w2 = [Sample.aliceUser; admin].
Proof.
  destruct (createDefaultAdmin_twice_is_once
              (Sample.envAt (fixedZone 0) 0 (fun _ => true))
              (Sample.world [] [Sample.aliceUser]))
    as (message & admin & w1 & w2 & H1 & H2 & _ & Hsame & Hnew & _).
  - reflexivity.
  - exists message, admin, w1, w2. split; [exact H1 |].
    split; [exact H2 |]. rewrite Hsame.
    destruct (Hnew eq_refl) as [-> _]. reflexivity.
Defined.

(** X21.  A confirmed reset outside production, with the database answering,
    leaves no task and one user, the administrator: verified, in UTC,
    with reminders on. *)
Theorem reset_leaves_only_the_administrator :
  forall (env : Env) (nodeEnv : string) (w : World),
    nodeEnv <> "production"%string ->
    (forall i, (i < 5)%nat -> dbUp env (dbCalls w + i) = true) ->
    exists cleared created admin w',
      resetDatabaseToDefault env nodeEnv true w
      = (Ok (Restored cleared created), w')
      /\ cleared
         = Cleared [ ("users"%string, Some (List.length (usersColl w)));
                     ("tasks"%string, Some (List.length (tasksColl w))) ]
             (List.length (usersColl w) + List.length (tasksColl w))
      /\ created = Done "Admin user created successfully" admin
      /\ tasksColl w' = []
      /\ usersColl w' = [admin]
      /\ admin = {| user_id := nextId w; email := adminEmail;
                    timezone := Some "UTC"%string; isVerified := true;
                    emailNotifications := true |}
      /\ outbox w' = outbox w.
Proof.
  intros env nodeEnv w Hprod Hdb.
  pose proof (Hdb 0%nat ltac:(lia)) as H0. rewrite Nat.add_0_r in H0.
  pose proof (Hdb 1%nat ltac:(lia)) as H1.
  replace (dbCalls w + 1)%nat with (S (dbCalls w)) in H1 by lia.
  pose proof (Hdb 2%nat ltac:(lia)) as H2.
  replace (dbCalls w + 2)%nat with (S (S (dbCalls w))) in H2 by lia.
  pose proof (Hdb 3%nat ltac:(lia)) as H3.
  replace (dbCalls w + 3)%nat with (S (S (S (dbCalls w)))) in H3 by lia.
  pose proof (Hdb 4%nat ltac:(lia)) as H4.
  replace (dbCalls w + 4)%nat with (S (S (S (S (dbCalls w))))) in H4 by lia.
  unfold resetDatabaseToDefault. cbn [negb]. unfold catch, bind.
  rewrite (clearDatabase_steps env nodeEnv w Hprod H0). cbv zeta.
  rewrite H1, H2. cbn [succeeded negb].
  rewrite createDefaultAdmin_absent;
    [| reflexivity | exact H3 | exact H4 ].
  cbv zeta. cbn [succeeded negb]. unfold ret.
  eexists. eexists. eexists. eexists. split; [reflexivity |].
  cbn [tasksColl usersColl outbox nextId app].
  split; [unfold totalOf; simpl; f_equal; lia |].
  repeat (split; [reflexivity |]). reflexivity.
Qed.

Lemma reset_leaves_only_the_administrator_witness :
  exists cleared created admin w',
    resetDatabaseToDefault (Sample.envAt (fixedZone 0) 0 (fun _ => true))
      "development" true
      (Sample.world Sample.juneTasks [Sample.aliceUser; Sample.bobUser])
    = (Ok (Restored cleared created), w')
    /\ tasksColl w' = []
    /\ usersColl w' = [admin]
    /\ email admin = adminEmail.
Proof.
  destruct (reset_leaves_only_the_administrator
              (Sample.envAt (fixedZone 0) 0 (fun _ => true)) "development"
              (Sample.world Sample.juneTasks
                 [Sample.aliceUser; Sample.bobUser]))
    as (cleared & created & admin & w' & Hrun & _ & _ & Ht & Hu & Ha & _).
  - discriminate.
  - reflexivity.
  - exists cleared, created, admin, w'. split; [exact Hrun |].
    split; [exact Ht |]. split; [exact Hu |]. rewrite Ha. reflexivity.
Defined.

End DatabaseUtilities.

(* ===================================================================== *)
(** * Spaced dates and the ordinal of a revision *)
(* ===================================================================== *)

Section SpacedDates.

Import CalendarUtils TaskModel CronService.

Lemma In_firstn {A} n (l : list A) x : In x (firstn n l) -> In x l.
Proof.
  revert n. induction l as [| a l IH]; intros [| n]; simpl; try tauto.
  intros [H | H]; eauto.
Qed.

Lemma spacingIntervals_range k : In k spacingIntervals -> 1 <= k <= 365.
Proof.
  unfold spacingIntervals. simpl. intros H.
  repeat (destruct H as [<- | H]; [lia |]). contradiction.
Qed.

(** X22.  [calculateRevisionDates] gives the completion date moved by 1, 3,
    7, 14, 30, 90, 180 and 365 days, as many of them as asked for, at
    most eight, none for a count that is not positive; a task completed
    at that date may carry them as its revisions. *)
Theorem calculateRevisionDates_are_spaced_and_valid :
  forall (env : Env) (c intervals : Z) (this : Task) (revs : list Revision),
    - maxTime <= c ->
    c + 365 * msPerDay <= maxTime ->
    (forall k, In k spacingIntervals -> steadyOffset (hostZone env) c k) ->
    completedDate this = Some c ->
    map scheduledDate revs = calculateRevisionDates env (Some c) intervals ->
    calculateRevisionDates env (Some c) intervals
    = spacedDates c (Z.to_nat (Z.min intervals 8))
    /\ List.length (calculateRevisionDates env (Some c) intervals)
       = Z.to_nat (Z.max 0 (Z.min intervals 8))
    /\ revisionsValidator this revs = true.
Proof.
  intros env c intervals this revs Hlo Hhi Hsteady Hc Hrevs.
  assert (calculateRevisionDates env (Some c) intervals
          = spacedDates c (Z.to_nat (Z.min intervals 8))) as Heq.
  { unfold calculateRevisionDates, spacedDates.
    change (Z.of_nat (List.length spacingIntervals)) with 8.
    apply map_ext_in. intros k Hk. apply In_firstn in Hk.
    pose proof (spacingIntervals_range k Hk) as Hr.
    rewrite setDate_shift, (steady_shift _ _ _ (Hsteady k Hk)).
    apply TimeClip_in_range. unfold msPerDay in *. lia. }
  split; [exact Heq |]. split.
  - rewrite Heq. unfold spacedDates.
    rewrite length_map, length_firstn.
    change (List.length spacingIntervals) with 8%nat. lia.
  - unfold revisionsValidator. apply forallb_forall. intros r Hr.
    apply (in_map scheduledDate) in Hr. rewrite Hrevs, Heq in Hr.
    unfold spacedDates in Hr. apply in_map_iff in Hr.
    destruct Hr as (k & Hk & Hin). apply In_firstn in Hin.
    pose proof (spacingIntervals_range k Hin) as Hrange.
    rewrite <- Hk, Hc. unfold date_geb. apply Z.leb_le.
    unfold msPerDay. lia.
Qed.

Lemma calculateRevisionDates_are_spaced_and_valid_witness :
  calculateRevisionDates (Sample.envAt (fixedZone (minutes 330)) 0
                            (fun _ => true))
    (Some (utc 2024 2 27 10 0 0 0)) 4
  = [ Some (utc 2024 2 28 10 0 0 0); Some (utc 2024 3 1 10 0 0 0);
      Some (utc 2024 3 5 10 0 0 0); Some (utc 2024 3 12 10 0 0 0) ].
Proof.
  destruct (calculateRevisionDates_are_spaced_and_valid
              (Sample.envAt (fixedZone (minutes 330)) 0 (fun _ => true))
              (utc 2024 2 27 10 0 0 0) 4 Sample.freshTask
              (map (fun d => newRevision 0%N d "pending"%string)
                 (calculateRevisionDates
                    (Sample.envAt (fixedZone (minutes 330)) 0
                       (fun _ => true))
                    (Some (utc 2024 2 27 10 0 0 0)) 4)))
    as (Heq & _ & _).
  - vm_compute. discriminate.
  - vm_compute. discriminate.
  - intros k _. reflexivity.
  - reflexivity.
  - vm_compute. reflexivity.
  - rewrite Heq. vm_compute. reflexivity.
Defined.

Lemma revisionDayOf_range c d :
  1 <= revisionDayOf (daysDiffOf c d) <= 5.
Proof.
  destruct c as [c |], d as [d |]; simpl; try lia.
  repeat match goal with
         | |- context [?a <=? ?b] => destruct (a <=? b)
         end; lia.
Qed.

(** X23.  The ordinal shown for a revision is between 1 and 5 and does not
    go down when the revision is scheduled later; postponing a revision
    never lowers it. *)
Theorem postponing_never_lowers_the_ordinal :
  forall (task : Task) (r : Revision) (c d : Z),
    completedDate task = Some c ->
    scheduledDate r = Some d ->
    - maxTime <= d ->
    d + msPerDay <= maxTime ->
    let before := toDueRevision (task, r) in
    let after := toDueRevision
                   (task, setSchedule (tomorrowOf (scheduledDate r)) r) in
    1 <= revisionDay before <= 5
    /\ revisionDay before <= revisionDay after <= 5
    /\ (forall d', d <= d' ->
          revisionDay before
          <= revisionDay (toDueRevision (task, setSchedule (Some d') r))).
Proof.
  intros task r c d Hc Hd Hlo Hhi before after.
  unfold before, after, toDueRevision.
  cbn [revisionDay scheduledDate setSchedule].
  rewrite Hc, Hd, (tomorrowOf_next_midnight d Hlo Hhi).
  pose proof (next_midnight_is_later d) as Hlater.
  assert (forall d', d <= d' ->
            revisionDayOf (daysDiffOf (Some c) (Some d))
            <= revisionDayOf (daysDiffOf (Some c) (Some d'))) as Hmono.
  { intros d' Hle. rewrite !revisionDayOf_thresholds.
    repeat match goal with
           | |- context [?a <=? ?b] => destruct (Z.leb_spec a b)
           end; lia. }
  split; [apply revisionDayOf_range |].
  split; [| exact Hmono].
  split; [apply Hmono; lia | apply revisionDayOf_range].
Qed.

Lemma postponing_never_lowers_the_ordinal_witness :
  revisionDay
    (toDueRevision
       (Sample.januaryTask,
        {| rev_id := 17%N; scheduledDate := Some (utc 2024 1 10 0 0 0 0);
           status := "pending"; sentReminder := false; completedAt := None;
           remindersSent := 0; lastReminderSent := None |}))
  <= revisionDay
       (toDueRevision
          (Sample.januaryTask,
           setSchedule
             (tomorrowOf (Some (utc 2024 1 10 0 0 0 0)))
             {| rev_id := 17%N;
                scheduledDate := Some (utc 2024 1 10 0 0 0 0);
                status := "pending"; sentReminder := false;
                completedAt := None; remindersSent := 0;
                lastReminderSent := None |})).
Proof.
  destruct (postponing_never_lowers_the_ordinal Sample.januaryTask
              {| rev_id := 17%N;
                 scheduledDate := Some (utc 2024 1 10 0 0 0 0);
                 status := "pending"; sentReminder := false;
                 completedAt := None; remindersSent := 0;
                 lastReminderSent := None |}
              (utc 2024 1 3 0 0 0 0) (utc 2024 1 10 0 0 0 0))
    as (_ & [H _] & _).
  - reflexivity.
  - reflexivity.
  - vm_compute. discriminate.
  - vm_compute. discriminate.
  - exact H.
Defined.

End SpacedDates.

(* ===================================================================== *)
(** * Ownership, archiving and deleting *)
(* ===================================================================== *)

Section TaskOwnership.

Import TaskModel TasksController TaskAdmin CronService.

Lemma find_absent {A} (p : A -> bool) l :
  (forall x, In x l -> p x = false) -> find p l = None.
Proof.
  induction l as [| a l IH]; intros H; [reflexivity |].
  simpl. rewrite (H a (or_introl eq_refl)).
  apply IH. intros x Hx. apply H. now right.
Qed.

Lemma not_selected oid u (t : Task) :
  (task_id t = oid -> user t <> u) ->
  N.eqb (task_id t) oid && N.eqb (user t) u = false.
Proof.
  intros H. destruct (N.eqb_spec (task_id t) oid) as [He | Hn];
    [| reflexivity].
  destruct (N.eqb_spec (user t) u) as [Hu | Hu]; [| reflexivity].
  now destruct (H He).
Qed.

Lemma findOne_absent env id oid u w :
  newObjectId id = Ok oid ->
  dbUp env (dbCalls w) = true ->
  (forall t, In t (tasksColl w) -> task_id t = oid -> user t <> u) ->
  findOne env id u w = (Ok None, called w).
Proof.
  intros Hid Hdb Hnone. unfold findOne, dbCall. rewrite Hid, Hdb.
  cbn [tasksColl]. rewrite find_absent; [reflexivity |].
  intros t Ht. apply not_selected. now apply Hnone.
Qed.

Lemma newObjectId_isValid id oid : newObjectId id = Ok oid -> isValid id = true.
Proof.
  unfold newObjectId, isValid.
  destruct (String.length id =? 24)%nat; [| discriminate].
  destruct (hexValue 0 id); [reflexivity | discriminate].
Qed.

(** X24.  No handler of the tasks controller finds a task that belongs to
    somebody else: each answers 404, as for a task that does not exist,
    and the collection stays as it is. *)
Theorem another_users_task_is_not_found :
  forall (env : Env) (id : string) (oid u : ObjectId) (w : World),
    newObjectId id = Ok oid ->
    dbUp env (dbCalls w) = true ->
    (forall t, In t (tasksColl w) -> task_id t = oid -> user t <> u) ->
    let notFound := (Ok (Json 404 (Failure "Task not found")), called w) in
    (forall a,
        getTask env {| trId := id; trUser := u; trArchived := a |} w
        = notFound)
    /\ (forall a,
           archiveTask env {| trId := id; trUser := u; trArchived := a |} w
           = notFound)
    /\ (forall a,
           deleteTask env {| trId := id; trUser := u; trArchived := a |} w
           = (Ok (AckJson 404 false "Task not found"), called w))
    /\ (forall rid st nd,
           markRevisionComplete env
             {| rrId := id; rrRevisionId := rid; rrUser := u;
                rrStatus := st; rrNewDate := nd |} w
           = notFound)
    /\ (forall rid st nd,
           TasksController.rescheduleRevision env
             {| rrId := id; rrRevisionId := rid; rrUser := u;
                rrStatus := st; rrNewDate := nd |} w
           = notFound)
    /\ (forall ti no cd rs,
           updateTask env
             {| urId := id; urUser := u; urTitle := ti; urNotes := no;
                urCompletedDate := cd; urRevisions := rs |} w
           = notFound)
    /\ (forall rs,
           updateTaskSchedule env
             {| srId := id; srUser := u; srRevisions := rs |} w
           = notFound).
Proof.
  intros env id oid u w Hid Hdb Hnone notFound.
  pose proof (findOne_absent env id oid u w Hid Hdb Hnone) as Hfind.
  unfold notFound.
  repeat split; intros.
  - unfold getTask, catch, bind. cbn [trId trUser]. now rewrite Hfind.
  - unfold archiveTask, findOneAndUpdate, catch, bind, dbCall.
    cbn [trId trUser]. rewrite Hid, Hdb. cbn [tasksColl].
    rewrite find_absent; [reflexivity |].
    intros t Ht. apply not_selected. now apply Hnone.
  - unfold deleteTask, catch, bind. cbn [trId trUser]. now rewrite Hfind.
  - unfold markRevisionComplete, catch, bind. cbn [rrId rrUser].
    now rewrite Hfind.
  - unfold TasksController.rescheduleRevision, catch, bind.
    cbn [rrId rrUser]. now rewrite Hfind.
  - unfold updateTask, catch, bind. cbn [urId urUser].
    rewrite (newObjectId_isValid id oid Hid). cbn [negb].
    now rewrite Hfind.
  - unfold updateTaskSchedule, catch, bind. cbn [srId srUser].
    now rewrite Hfind.
Qed.

Lemma another_users_task_is_not_found_witness :
  let env := Sample.envAt (fixedZone 0) 0 (fun _ => true) in
  let w := Sample.world Sample.juneTasks [] in
  deleteTask env {| trId := "000000000000000000000200";
                    trUser := Sample.alice; trArchived := None |} w
  = (Ok (AckJson 404 false "Task not found"), called w).
Proof.
  intros env w.
  destruct (another_users_task_is_not_found env
              "000000000000000000000200" 512%N Sample.alice w)
    as (_ & _ & Hdel & _).
  - reflexivity.
  - reflexivity.
  - intros t [<- | [<- | [<- | []]]]; vm_compute; congruence.
  - apply Hdel.
Defined.

Lemma find_split {A} (p : A -> bool) before t after :
  (forall x, In x before -> p x = false) -> p t = true ->
  find p (before ++ t :: after) = Some t.
Proof.
  induction before as [| a l IH]; simpl; intros Hb Ht.
  - now rewrite Ht.
  - rewrite (Hb a (or_introl eq_refl)). apply IH; auto.
Qed.

Lemma updateFirst_split p f before t after :
  (forall x, In x before -> p x = false) -> p t = true ->
  updateFirst p f (before ++ t :: after) = (before ++ f t :: after)%list.
Proof.
  induction before as [| a l IH]; simpl; intros Hb Ht.
  - now rewrite Ht.
  - rewrite (Hb a (or_introl eq_refl)). f_equal. apply IH; auto.
Qed.

Lemma removeFirst_split id before t after :
  (forall x, In x before -> task_id x <> id) -> task_id t = id ->
  removeFirst id (before ++ t :: after) = (before ++ after)%list.
Proof.
  induction before as [| a l IH]; simpl; intros Hb Ht.
  - rewrite Ht, N.eqb_refl. reflexivity.
  - destruct (N.eqb_spec (task_id a) id) as [He | _].
    + now destruct (Hb a (or_introl eq_refl)).
    + f_equal. apply IH; auto.
Qed.

Lemma dueItems_app userId s e l1 l2 :
  dueItems userId s e (l1 ++ l2)
  = (dueItems userId s e l1 ++ dueItems userId s e l2)%list.
Proof.
  unfold dueItems. now rewrite filter_app, flat_map_app, filter_app.
Qed.

Lemma dueItems_archived userId s e t l :
  isArchived t = true ->
  dueItems userId s e (t :: l) = dueItems userId s e l.
Proof.
  intros H. unfold dueItems. cbn [filter]. rewrite H.
  now rewrite andb_false_r.
Qed.

Lemma archiveTask_found env req w oid before t after :
  newObjectId (trId req) = Ok oid ->
  dbUp env (dbCalls w) = true ->
  tasksColl w = (before ++ t :: after)%list ->
  task_id t = oid ->
  user t = trUser req ->
  (forall x, In x before -> task_id x = oid -> user x <> trUser req) ->
  let archived := match trArchived req with Some b => b | None => true end in
  archiveTask env req w
  = (Ok (Json 200 (Success (markStored (setArchived t archived)))),
     {| ticks := ticks w; dbCalls := S (dbCalls w); nextId := nextId w;
        tasksColl := (before ++ setArchived t archived :: after)%list;
        usersColl := usersColl w; outbox := outbox w |}).
Proof.
  intros Hid Hdb Hcoll Ht Hu Hbefore archived.
  assert (forall x, In x before ->
            N.eqb (task_id x) oid && N.eqb (user x) (trUser req) = false)
    as Hnot by (intros x Hx; apply not_selected; now apply Hbefore).
  assert (N.eqb (task_id t) oid && N.eqb (user t) (trUser req) = true)
    as Hsel by (now rewrite Ht, Hu, !N.eqb_refl).
  unfold archiveTask, findOneAndUpdate, catch, bind, dbCall.
  rewrite Hid, Hdb. cbn [tasksColl]. rewrite Hcoll.
  rewrite (find_split _ before t after Hnot Hsel).
  cbn [tasksColl ticks dbCalls nextId usersColl outbox].
  rewrite (updateFirst_split _ _ before t after Hnot Hsel).
  reflexivity.
Qed.

(** X25.  Archiving changes the archive flag of the one task and nothing
    else; from then on the reminder pipeline sees the collection as if
    the task were not in it. *)
Theorem archiving_takes_the_task_out_of_the_due_set :
  forall (env : Env) (req : TaskRequest) (w : World) (oid : ObjectId)
         (before after : list Task) (t : Task),
    newObjectId (trId req) = Ok oid ->
    dbUp env (dbCalls w) = true ->
    tasksColl w = (before ++ t :: after)%list ->
    task_id t = oid ->
    user t = trUser req ->
    (forall x, In x before -> task_id x = oid -> user x <> trUser req) ->
    trArchived req <> Some false ->
    exists w',
      archiveTask env req w
      = (Ok (Json 200 (Success (markStored (setArchived t true)))), w')
      /\ tasksColl w' = (before ++ setArchived t true :: after)%list
      /\ usersColl w' = usersColl w
      /\ forall userId s e,
           dueItems userId s e (tasksColl w')
           = dueItems userId s e (before ++ after).
Proof.
  intros env req w oid before after t Hid Hdb Hcoll Ht Hu Hbefore Harch.
  rewrite (archiveTask_found env req w oid before t after
             Hid Hdb Hcoll Ht Hu Hbefore).
  assert (match trArchived req with Some b => b | None => true end = true)
    as -> by (destruct (trArchived req) as [[|] |]; congruence).
  eexists. split; [reflexivity |]. cbn [tasksColl usersColl].
  split; [reflexivity |]. split; [reflexivity |].
  intros userId s e. rewrite !dueItems_app.
  now rewrite dueItems_archived.
Qed.

Lemma archiving_takes_the_task_out_of_the_due_set_witness :
  let env := Sample.envAt (fixedZone 0) 0 (fun _ => true) in
  exists w',
    archiveTask env {| trId := "000000000000000000000200";
                       trUser := Sample.bob; trArchived := None |}
      (Sample.world Sample.juneTasks [])
    = (Ok (Json 200
             (Success
                (markStored
                   (setArchived (Sample.juneTask 512 Sample.bob) true)))),
       w')
    /\ forall userId s e,
         dueItems userId s e (tasksColl w')
         = dueItems userId s e
             [Sample.juneTask 256 Sample.alice;
              Sample.juneTask 768 Sample.carol].
Proof.
  intros env.
  destruct (archiving_takes_the_task_out_of_the_due_set env
              {| trId := "000000000000000000000200";
                 trUser := Sample.bob; trArchived := None |}
              (Sample.world Sample.juneTasks []) 512%N
              [Sample.juneTask 256 Sample.alice]
              [Sample.juneTask 768 Sample.carol]
              (Sample.juneTask 512 Sample.bob))
    as (w' & Hrun & _ & _ & Hdue).
  - reflexivity.
  - reflexivity.
  - reflexivity.
  - reflexivity.
  - reflexivity.
  - intros x [<- | []]. vm_compute. congruence.
  - discriminate.
  - exists w'. split; [exact Hrun | exact Hdue].
Defined.

Lemma setArchived_back t :
  isArchived t = false -> setArchived (setArchived t true) false = t.
Proof. destruct t. simpl. now intros ->. Qed.

(** X26.  Archiving a task and taking it out of the archive again: both
    requests are answered 200, and afterwards the collection holds the
    same documents in the same order with what they held before, the
    archive flag included.  Only the time stamp [updatedAt], which each
    of the two writes renews and which is not part of what is compared
    here, differs. *)
Theorem archive_then_unarchive_restores_the_content :
  forall (env : Env) (id : string) (u oid : ObjectId) (w : World)
         (before after : list Task) (t : Task),
    newObjectId id = Ok oid ->
    dbUp env (dbCalls w) = true ->
    dbUp env (S (dbCalls w)) = true ->
    tasksColl w = (before ++ t :: after)%list ->
    task_id t = oid ->
    user t = u ->
    isArchived t = false ->
    (forall x, In x before -> task_id x = oid -> user x <> u) ->
    exists t1 w1 t2 w2,
      archiveTask env {| trId := id; trUser := u; trArchived := Some true |}
        w = (Ok (Json 200 (Success t1)), w1)
      /\ archiveTask env
           {| trId := id; trUser := u; trArchived := Some false |} w1
         = (Ok (Json 200 (Success t2)), w2)
      /\ taskContent t1 = taskContent (setArchived t true)
      /\ map taskContent (tasksColl w1)
         = map taskContent (before ++ setArchived t true :: after)
      /\ taskContent t2 = taskContent t
      /\ map taskContent (tasksColl w2) = map taskContent (tasksColl w).
Proof.
  intros env id u oid w before after t Hid Hdb1 Hdb2 Hcoll Ht Hu Ha Hbefore.
  eexists. eexists. eexists. eexists. split.
  - exact (archiveTask_found env
             {| trId := id; trUser := u; trArchived := Some true |}
             w oid before t after Hid Hdb1 Hcoll Ht Hu Hbefore).
  - cbv zeta. cbn [trArchived]. split.
    + apply (archiveTask_found env
               {| trId := id; trUser := u; trArchived := Some false |}
               _ oid before (setArchived t true) after Hid);
        [exact Hdb2 | reflexivity | exact Ht | exact Hu | exact Hbefore].
    + cbv zeta. cbn [trArchived tasksColl].
      rewrite (setArchived_back t Ha).
      split; [reflexivity |]. split; [reflexivity |].
      split; [reflexivity |]. now rewrite Hcoll.
Qed.

Lemma archive_then_unarchive_restores_the_content_witness :
  let env := Sample.envAt (fixedZone 0) 0 (fun _ => true) in
  exists t1 w1 t2 w2,
    archiveTask env {| trId := "000000000000000000000200";
                       trUser := Sample.bob; trArchived := Some true |}
      (Sample.world Sample.juneTasks []) = (Ok (Json 200 (Success t1)), w1)
    /\ archiveTask env {| trId := "000000000000000000000200";
                          trUser := Sample.bob; trArchived := Some false |}
         w1 = (Ok (Json 200 (Success t2)), w2)
    /\ isArchived t1 = true
    /\ map taskContent (tasksColl w2) = map taskContent Sample.juneTasks.
Proof.
  intros env.
  destruct (archive_then_unarchive_restores_the_content env
              "000000000000000000000200" Sample.bob 512%N
              (Sample.world Sample.juneTasks [])
              [Sample.juneTask 256 Sample.alice]
              [Sample.juneTask 768 Sample.carol]
              (Sample.juneTask 512 Sample.bob))
    as (t1 & w1 & t2 & w2 & H1 & H2 & Hc1 & _ & _ & Hcoll).
  - reflexivity.
  - reflexivity.
  - reflexivity.
  - reflexivity.
  - reflexivity.
  - reflexivity.
  - reflexivity.
  - intros x [<- | []]. vm_compute. congruence.
  - exists t1, w1, t2, w2. split; [exact H1 |]. split; [exact H2 |].
    split; [| exact Hcoll].
    unfold taskContent in Hc1. now injection Hc1.
Defined.

(** X27.  Deleting takes the one task out of the collection and leaves the
    others in their order; when the deletion itself is rejected the
    error goes to [next] and the collection is as before. *)
Theorem deleting_removes_that_task_only :
  forall (env : Env) (req : TaskRequest) (w : World) (oid : ObjectId)
         (before after : list Task) (t : Task),
    newObjectId (trId req) = Ok oid ->
    dbUp env (dbCalls w) = true ->
    tasksColl w = (before ++ t :: after)%list ->
    task_id t = oid ->
    user t = trUser req ->
    (forall x, In x before -> task_id x <> oid) ->
    exists reply w',
      deleteTask env req w = (Ok reply, w')
      /\ usersColl w' = usersColl w
      /\ (dbUp env (S (dbCalls w)) = true ->
          reply = AckJson 200 true "Task deleted successfully"
          /\ tasksColl w' = (before ++ after)%list)
      /\ (dbUp env (S (dbCalls w)) = false ->
          reply = AckNext StorageError
          /\ tasksColl w' = tasksColl w).
Proof.
  intros env req w oid before after t Hid Hdb Hcoll Ht Hu Hbefore.
  assert (forall x, In x before ->
            N.eqb (task_id x) oid && N.eqb (user x) (trUser req) = false)
    as Hnot.
  { intros x Hx. apply not_selected. intros He.
    now destruct (Hbefore x Hx). }
  assert (N.eqb (task_id t) oid && N.eqb (user t) (trUser req) = true)
    as Hsel by (now rewrite Ht, Hu, !N.eqb_refl).
  unfold deleteTask, catch, bind, findOne, dbCall at 1.
  rewrite Hid, Hdb. cbn [tasksColl]. rewrite Hcoll.
  rewrite (find_split _ before t after Hnot Hsel).
  cbn [option_map]. unfold deleteOne, bind, dbCall, setTasks, ret.
  cbn [dbCalls tasksColl ticks nextId usersColl outbox].
  destruct (dbUp env (S (dbCalls w))).
  - eexists. eexists. split; [reflexivity |].
    cbn [tasksColl usersColl task_id markStored].
    split; [reflexivity |]. split; [| discriminate].
    intros _. split; [reflexivity |].
    rewrite ?Hcoll. apply removeFirst_split; [| reflexivity].
    intros x Hx. rewrite Ht. now apply Hbefore.
  - eexists. eexists. split; [reflexivity |].
    cbn [tasksColl usersColl]. split; [reflexivity |].
    split; [discriminate |]. intros _. split; [reflexivity |].
    rewrite ?Hcoll. reflexivity.
Qed.

Lemma deleting_removes_that_task_only_witness :
  let env := Sample.envAt (fixedZone 0) 0 (fun _ => true) in
  exists w',
    deleteTask env {| trId := "000000000000000000000200";
                      trUser := Sample.bob; trArchived := None |}
      (Sample.world Sample.juneTasks [])
    = (Ok (AckJson 200 true "Task deleted successfully"), w')
    /\ tasksColl w'
       = [Sample.juneTask 256 Sample.alice; Sample.juneTask 768 Sample.carol].
Proof.
  intros env.
  destruct (deleting_removes_that_task_only env
              {| trId := "000000000000000000000200";
                 trUser := Sample.bob; trArchived := None |}
              (Sample.world Sample.juneTasks []) 512%N
              [Sample.juneTask 256 Sample.alice]
              [Sample.juneTask 768 Sample.carol]
              (Sample.juneTask 512 Sample.bob))
    as (reply & w' & Hrun & _ & Hup & _).
  - reflexivity.
  - reflexivity.
  - reflexivity.
  - reflexivity.
  - reflexivity.
  - intros x [<- | []]. vm_compute. discriminate.
  - destruct (Hup eq_refl) as [-> Hcoll].
    exists w'. split; [exact Hrun | exact Hcoll].
Defined.

End TaskOwnership.

(* ===================================================================== *)
(** * What the reminders contain and whom they reach *)
(* ===================================================================== *)

Section ReminderSoundness.

Import TimezoneUtils CronService.

Lemma getTodaysRevisions_sound env userId tz w l w' :
  getTodaysRevisions env userId tz w = (Ok l, w') ->
  tasksColl w' = tasksColl w
  /\ usersColl w' = usersColl w
  /\ forall x, In x l -> ownPendingRevision (tasksColl w) userId x.
Proof.
  unfold getTodaysRevisions, catch, resolveToday, bind, newDate, liftResult,
    dbCall, ret.
  destruct (getDayBoundsInTimezone env _ tz) as [[s e] | err].
  - cbn [ticks dbCalls tasksColl usersColl].
    destruct (dbUp env (dbCalls w)).
    + intros [= <- <-]. cbn [tasksColl usersColl].
      split; [reflexivity |]. split; [reflexivity |].
      intros x Hx. apply in_map_iff in Hx.
      destruct Hx as ([t r] & <- & Hin). apply dueItems_In in Hin.
      destruct Hin as (Ht & Hu & Ha & Hr & _ & _ & Hs).
      exists t, r. auto 10.
    + intros [= <- <-]. cbn [tasksColl usersColl].
      split; [reflexivity |]. split; [reflexivity |]. intros x [].
  - intros [= <- <-]. cbn [tasksColl usersColl].
    split; [reflexivity |]. split; [reflexivity |]. intros x [].
Qed.

(** A turn of the loop leaves the collections alone; when it ends in
    [Sent] it has put one mail in the outbox, the user's, and what the
    mail lists are pending revisions of the user's own tasks. *)
Lemma remindUser_sound env user w o w' :
  remindUser env user w = (Ok o, w') ->
  tasksColl w' = tasksColl w
  /\ usersColl w' = usersColl w
  /\ match o with
     | Sent =>
         exists revisions,
           revisions <> []
           /\ smtp env (reminderFor user revisions) = true
           /\ outbox w' = (outbox w ++ [reminderFor user revisions])%list
           /\ forall x, In x revisions ->
                ownPendingRevision (tasksColl w) (user_id user) x
     | _ => outbox w' = outbox w
     end.
Proof.
  rewrite remindUser_steps. cbv zeta.
  destruct (isTargetHourInTimezone env 6 _ w) as [[[|] | e] w1] eqn:Hh;
    pose proof (isTargetHour_world _ _ _ _ _ _ Hh) as ->.
  - destruct (getTodaysRevisions env (user_id user) _ (tick w))
      as [[[| x l] | e] w2] eqn:Hg;
      pose proof (getTodaysRevisions_outbox _ _ _ _ _ _ Hg) as Hout.
    + destruct (getTodaysRevisions_sound _ _ _ _ _ _ Hg) as (Ht & Hu & _).
      intros [= <- <-]. auto.
    + destruct (getTodaysRevisions_sound _ _ _ _ _ _ Hg) as (Ht & Hu & Hown).
      destruct (smtp env (reminderFor user (x :: l))) eqn:Hs.
      * intros [= <- <-]. cbn [delivered tasksColl usersColl outbox].
        split; [exact Ht |]. split; [exact Hu |].
        exists (x :: l). split; [discriminate |]. split; [exact Hs |].
        split; [now rewrite Hout | exact Hown].
      * intros [= <- <-]. auto.
    + destruct (getTodaysRevisions_never_throws env (user_id user)
                  (timezoneOrDefault (timezone user)) (tick w))
        as (l0 & w0 & H0).
      rewrite H0 in Hg. discriminate.
  - intros [= <- <-]. auto.
  - intros [= <- <-]. auto.
Qed.

Lemma remindAll_sound env users :
  forall c w c' w',
    remindAll env users c w = (Ok c', w') ->
    tasksColl w' = tasksColl w
    /\ usersColl w' = usersColl w
    /\ exists new,
         outbox w' = (outbox w ++ new)%list
         /\ remindersSent_ c' = remindersSent_ c + Z.of_nat (List.length new)
         /\ forall m, In m new ->
              exists u revisions,
                In u users
                /\ m = reminderFor u revisions
                /\ revisions <> []
                /\ smtp env m = true
                /\ forall x, In x revisions ->
                     ownPendingRevision (tasksColl w) (user_id u) x.
Proof.
  induction users as [| u users IH]; intros c w c' w' H.
  - simpl in H. injection H as <- <-.
    split; [reflexivity |]. split; [reflexivity |].
    exists []. rewrite app_nil_r. split; [reflexivity |].
    split; [simpl; lia | intros m []].
  - destruct (remindUser_never_throws env u w) as (o & w1 & Ho).
    rewrite (remindAll_cons _ _ _ _ _ _ _ Ho) in H.
    destruct (remindUser_sound _ _ _ _ _ Ho) as (Ht1 & Hu1 & Hmail).
    destruct (IH _ _ _ _ H) as (Ht & Hu & new & Hout & Hcount & Hnew).
    split; [congruence |]. split; [congruence |].
    assert (forall m, In m new ->
              exists u0 revisions,
                In u0 (u :: users)
                /\ m = reminderFor u0 revisions
                /\ revisions <> []
                /\ smtp env m = true
                /\ forall x, In x revisions ->
                     ownPendingRevision (tasksColl w) (user_id u0) x)
      as Hrest.
    { intros m Hm. destruct (Hnew m Hm) as (u0 & revs & Hin & Hrest).
      exists u0, revs. split; [now right |].
      rewrite Ht1 in Hrest. exact Hrest. }
    destruct o.
    + destruct Hmail as (revs & Hne & Hs & Hout1 & Hown).
      exists (reminderFor u revs :: new).
      split; [rewrite Hout, Hout1, <- app_assoc; reflexivity |].
      split.
      * rewrite Hcount. cbn [count remindersSent_ List.length]. lia.
      * intros m [<- | Hm]; [| now apply Hrest].
        exists u, revs. split; [now left |]. auto.
    + exists new. split; [now rewrite Hout, Hmail |].
      split; [exact Hcount | exact Hrest].
    + exists new. split; [now rewrite Hout, Hmail |].
      split; [exact Hcount | exact Hrest].
Qed.

(** X28.  A run of the daily job only adds to the outbox, as many mails as it
    counts as sent; each of them goes to a verified user with reminders
    switched on, is not empty, and lists only pending revisions of that
    user's own tasks that are not archived.  The run changes no task
    and no user. *)
Theorem reminders_reach_eligible_users_about_their_own_tasks :
  forall (env : Env) (w w' : World) (c : Counters),
    sendDailyReminders env w = (Ok (Some c), w') ->
    tasksColl w' = tasksColl w
    /\ usersColl w' = usersColl w
    /\ exists new,
         outbox w' = (outbox w ++ new)%list
         /\ remindersSent_ c = Z.of_nat (List.length new)
         /\ forall m, In m new ->
              mailRevisions m <> []
              /\ smtp env m = true
              /\ exists u,
                   In u (usersColl w)
                   /\ isVerified u = true
                   /\ emailNotifications u = true
                   /\ mailTo m = email u
                   /\ forall x, In x (mailRevisions m) ->
                        ownPendingRevision (tasksColl w) (user_id u) x.
Proof.
  intros env w w' c.
  unfold sendDailyReminders, catch, bind, findEligible, dbCall at 1.
  destruct (dbUp env (dbCalls w)); [| discriminate].
  cbn [usersColl].
  set (w0 := {| ticks := ticks w; dbCalls := S (dbCalls w);
                nextId := nextId w; tasksColl := tasksColl w;
                usersColl := usersColl w; outbox := outbox w |}).
  set (users := filter (fun u => isVerified u && emailNotifications u)
                  (usersColl w)).
  destruct (remindAll_never_throws env users
              {| remindersSent_ := 0; errors := 0 |} w0)
    as (c1 & w1 & Hrun).
  rewrite Hrun. unfold ret. intros [= <- <-].
  destruct (remindAll_sound _ _ _ _ _ _ Hrun)
    as (Ht & Hu & new & Hout & Hcount & Hnew).
  split; [exact Ht |]. split; [exact Hu |].
  exists new. split; [exact Hout |].
  split; [cbn [remindersSent_] in Hcount; lia |].
  intros m Hm. destruct (Hnew m Hm) as (u & revs & Hin & -> & Hne & Hs & Hown).
  cbn [reminderFor mailRevisions mailTo].
  split; [exact Hne |]. split; [exact Hs |].
  exists u. unfold users in Hin. apply filter_In in Hin.
  destruct Hin as [Hin Hel]. apply andb_true_iff in Hel.
  destruct Hel as [Hv He].
  split; [exact Hin |]. split; [exact Hv |]. split; [exact He |].
  split; [reflexivity | exact Hown].
Qed.

Lemma reminders_reach_eligible_users_about_their_own_tasks_witness :
  let env := Sample.envAt (fixedZone 0) Sample.sixInKolkata
               (fun _ => true) in
  let w := Sample.world Sample.juneTasks
             [Sample.aliceUser; Sample.bobUser; Sample.carolUser] in
  exists new,
    outbox (snd (sendDailyReminders env w)) = new
    /\ List.length new = 2%nat.
Proof.
  intros env w.
  destruct (reminders_reach_eligible_users_about_their_own_tasks env w
              (snd (sendDailyReminders env w))
              {| remindersSent_ := 2; errors := 1 |})
    as (_ & _ & new & Hout & Hcount & _).
  - vm_compute. reflexivity.
  - exists new. split; [exact Hout |].
    cbn [remindersSent_] in Hcount. lia.
Defined.

End ReminderSoundness.

(* ===================================================================== *)
(** * Creating a task with a schedule of its own *)
(* ===================================================================== *)

Section OwnSchedule.

Import TaskModel TasksController.





(** A title of white space only is no title. *)
Example createTask_blank_title_refused :
  let env := Sample.envAt (fixedZone 0) (utc 2024 5 1 10 0 0 0)
               (fun _ => true) in
  createTask env Sample.blankTitleRequest (Sample.world [] [])
  = (Ok (Next (ValidationError ["Task title is required"%string])),
     drawIds 3 (Sample.world [] [])).
Proof. vm_compute. reflexivity. Qed.

End OwnSchedule.

(* ===================================================================== *)
(** * A status the schema does not know *)
(* ===================================================================== *)

Section UnknownStatus.

Import TaskModel TasksController.

Lemma validate_reports_status this r :
  In r (revisions this) ->
  inStatusValues (status r) = false ->
  In "Status must be pending, done, skipped, or postponed"%string
     (validate this).
Proof.
  intros Hin Hs. unfold validate.
  do 3 (apply in_or_app; right). apply in_or_app. left.
  apply in_flat_map. exists r. split; [exact Hin |].
  unfold validateRevision. rewrite Hs.
  apply in_or_app. right. left. reflexivity.
Qed.

(** X30.  Asking the status handler for a status outside the four the schema
    knows changes the revision in memory only: the save is refused with
    the schema's message, the error goes to [next], and the stored task
    is as before. *)
Theorem unknown_status_is_refused :
  forall (env : Env) (req : RevisionRequest) (w w1 : World) (task : Task)
         (r : Revision) (s : string),
    findOne env (rrId req) (rrUser req) w = (Ok (Some task), w1) ->
    revisionsId (AsString (rrRevisionId req)) (revisions task) = Some r ->
    rrStatus req = Some s ->
    s <> EmptyString ->
    inStatusValues s = false ->
    exists msgs,
      markRevisionComplete env req w = (Ok (Next (ValidationError msgs)), w1)
      /\ In "Status must be pending, done, skipped, or postponed"%string msgs
      /\ tasksColl w1 = tasksColl w.
Proof.
  intros env req w w1 task r s Hf Hr Hs Hne Hunknown.
  destruct (findOne_found _ _ _ _ _ _ Hf) as (Hcoll & _).
  assert (String.eqb s "postponed" = false) as Hpost.
  { destruct (String.eqb_spec s "postponed") as [-> |]; [| reflexivity].
    discriminate Hunknown. }
  assert (String.eqb s "done" = false) as Hdone.
  { destruct (String.eqb_spec s "done") as [-> |]; [| reflexivity].
    discriminate Hunknown. }
  unfold markRevisionComplete, catch, bind. rewrite Hf.
  unfold isPostponed, statusOrDone. rewrite Hs, Hpost.
  destruct (String.eqb_spec s "") as [| _]; [contradiction |].
  rewrite (updateRevisionStatus_found env task _ s r w1 Hr), Hdone.
  change (negb true) with false. cbv beta iota.
  set (task' := setRevisions task _).
  assert (In "Status must be pending, done, skipped, or postponed"%string
             (validate task')) as Hmsg.
  { apply (validate_reports_status task' (setStatus s None r)).
    - unfold task'. cbn [revisions setRevisions].
      destruct (modifyFirst_split (idMatches (AsString (rrRevisionId req)))
                  (setStatus s None) _ _ Hr) as (l1 & l2 & _ & _ & ->).
      apply in_or_app. right. left. reflexivity.
    - exact Hunknown. }
  rewrite save_invalid by (intros Hnil; rewrite Hnil in Hmsg; exact Hmsg).
  exists (validate task'). split; [reflexivity |].
  split; [exact Hmsg | exact Hcoll].
Qed.

Lemma unknown_status_is_refused_witness :
  let env := Sample.envAt (fixedZone 0) 0 (fun _ => true) in
  let w := Sample.world [Sample.januaryTask] [] in
  let req :=
    {| rrId := Sample.taskHex; rrRevisionId := Sample.revHex;
       rrUser := Sample.alice; rrStatus := Some "archived"%string;
       rrNewDate := None |} in
  exists msgs w1,
    markRevisionComplete env req w = (Ok (Next (ValidationError msgs)), w1)
    /\ tasksColl w1 = [Sample.januaryTask].
Proof.
  intros env w req.
  destruct (unknown_status_is_refused env req w
              {| ticks := 0; dbCalls := 1; nextId := 4096;
                 tasksColl := [Sample.januaryTask]; usersColl := [];
                 outbox := [] |}
              Sample.januaryTask
              {| rev_id := 17%N;
                 scheduledDate := Some (utc 2024 1 10 0 0 0 0);
                 status := "pending"; sentReminder := false;
                 completedAt := None; remindersSent := 0;
                 lastReminderSent := None |}
              "archived"%string)
    as (msgs & Hrun & _ & Hcoll).
  - reflexivity.
  - vm_compute. reflexivity.
  - reflexivity.
  - discriminate.
  - reflexivity.
  - exists msgs. eexists. split; [exact Hrun | exact Hcoll].
Defined.

End UnknownStatus.
